(** * Button FSM (button_static.c / button_static.h): model and properties

    A shallow embedding of the polled push-button state machine.

    - [uint32_t] ticks and thresholds are integers in [0, 2^32); the only
      arithmetic the program does on them is the unsigned subtraction
      [sub32].  [stages.count] is a [uint8_t]: the loop index [i] stays
      below it and never wraps, so the loops run over [0 .. count - 1].
    - The button record is a Rocq record with the fields of [button_t]; a
      [button_t*] argument is [None] (NULL) or [Some] of the record.
    - [stages.configs] points to a constant array (kept in flash by the
      owner): the pointer is modelled by [None] (NULL) or [Some] of the array
      it points to.
    - [stages.latches] points to caller-owned RAM that the button mutates:
      the pointer is an address and the arrays live in a store
      [gmap nat (list bool)], threaded through every operation that can
      touch them.
    - Function pointers are [None] (NULL) or [Some] of an identifier.  The
      values returned by the pin-read and tick-read capabilities are inputs
      of the operations that call them.  Each callback invocation is
      recorded, in order, in a trace of [cb_call]s, together with the place
      in the source it comes from; the callback itself is an external
      collaborator that does not touch the record or the latches.
    - An operation returns [None] exactly where the C program would read or
      write outside an array (or through a pointer to no array). *)

From Stdlib Require Import ZArith List Bool Lia.
From stdpp Require Import base option list sorting gmap.

Local Open Scope Z_scope.

(** ** button_static.h *)

Definition BUTTON_DEBOUNCE_TICKS : Z := 50.
Definition BUTTON_LONG_PRESS_TICKS : Z := 1000.
Definition BUTTON_HOLD_TICKS : Z := 50.
Definition BUTTON_SUPER_LONG_PRESS_TICKS : Z := 5000.

Inductive button_active_level_t :=
| BUTTON_ACTIVE_LOW
| BUTTON_ACTIVE_HIGH
| BUTTON_ACTIVE_MAX.

Inductive button_event_t :=
| BUTTON_EVENT_NONE
| BUTTON_EVENT_PRESSED
| BUTTON_EVENT_RELEASED
| BUTTON_EVENT_LONG_PRESSED
| BUTTON_EVENT_HOLD
| BUTTON_EVENT_SUPER_LONG_PRESSED
| BUTTON_EVENT_MAX.

Inductive button_state_t :=
| STATE_IDLE
| STATE_DEBOUNCE
| STATE_PRESSED
| STATE_LONG_PRESSED.

Inductive button_error_t :=
| BUTTON_OK
| BUTTON_ERR_INVALID_ARG
| BUTTON_ERR_HW_FAIL
| BUTTON_ERR_INVALID_STAGES
| BUTTON_ERR_NOT_INIT
| BUTTON_ERR_UNKNOWN.

Record button_stage_config_t := {
  threshold : Z;
  event : button_event_t
}.

Record button_stage_manager_t := {
  configs : option (list button_stage_config_t);
  latches : option nat;
  count : Z
}.

Record button_t := {
  last_change_tick : Z;
  press_start_tick : Z;
  last_hold_tick : Z;
  gpio_num : Z;
  active_level : button_active_level_t;
  last_state : button_state_t;
  last_event : button_event_t;
  is_long_pressed_triggered : bool;
  context : option nat;
  callback : option nat;
  read_pin_func : option nat;
  get_tick_func : option nat;
  stages : button_stage_manager_t
}.

#[global] Instance button_event_eq_dec : EqDecision button_event_t.
Proof. solve_decision. Defined.
#[global] Instance button_state_eq_dec : EqDecision button_state_t.
Proof. solve_decision. Defined.

(** Field assignments [button->f = v]. *)

Definition set_last_state (v : button_state_t) (b : button_t) : button_t :=
  {| last_change_tick := last_change_tick b;
     press_start_tick := press_start_tick b;
     last_hold_tick := last_hold_tick b;
     gpio_num := gpio_num b;
     active_level := active_level b;
     last_state := v;
     last_event := last_event b;
     is_long_pressed_triggered := is_long_pressed_triggered b;
     context := context b;
     callback := callback b;
     read_pin_func := read_pin_func b;
     get_tick_func := get_tick_func b;
     stages := stages b |}.

Definition set_last_change_tick (v : Z) (b : button_t) : button_t :=
  {| last_change_tick := v;
     press_start_tick := press_start_tick b;
     last_hold_tick := last_hold_tick b;
     gpio_num := gpio_num b;
     active_level := active_level b;
     last_state := last_state b;
     last_event := last_event b;
     is_long_pressed_triggered := is_long_pressed_triggered b;
     context := context b;
     callback := callback b;
     read_pin_func := read_pin_func b;
     get_tick_func := get_tick_func b;
     stages := stages b |}.

Definition set_press_start_tick (v : Z) (b : button_t) : button_t :=
  {| last_change_tick := last_change_tick b;
     press_start_tick := v;
     last_hold_tick := last_hold_tick b;
     gpio_num := gpio_num b;
     active_level := active_level b;
     last_state := last_state b;
     last_event := last_event b;
     is_long_pressed_triggered := is_long_pressed_triggered b;
     context := context b;
     callback := callback b;
     read_pin_func := read_pin_func b;
     get_tick_func := get_tick_func b;
     stages := stages b |}.

Definition set_last_hold_tick (v : Z) (b : button_t) : button_t :=
  {| last_change_tick := last_change_tick b;
     press_start_tick := press_start_tick b;
     last_hold_tick := v;
     gpio_num := gpio_num b;
     active_level := active_level b;
     last_state := last_state b;
     last_event := last_event b;
     is_long_pressed_triggered := is_long_pressed_triggered b;
     context := context b;
     callback := callback b;
     read_pin_func := read_pin_func b;
     get_tick_func := get_tick_func b;
     stages := stages b |}.

Definition set_handler (cb ctx : option nat) (b : button_t) : button_t :=
  {| last_change_tick := last_change_tick b;
     press_start_tick := press_start_tick b;
     last_hold_tick := last_hold_tick b;
     gpio_num := gpio_num b;
     active_level := active_level b;
     last_state := last_state b;
     last_event := last_event b;
     is_long_pressed_triggered := is_long_pressed_triggered b;
     context := ctx;
     callback := cb;
     read_pin_func := read_pin_func b;
     get_tick_func := get_tick_func b;
     stages := stages b |}.

Definition set_stages (v : button_stage_manager_t) (b : button_t) : button_t :=
  {| last_change_tick := last_change_tick b;
     press_start_tick := press_start_tick b;
     last_hold_tick := last_hold_tick b;
     gpio_num := gpio_num b;
     active_level := active_level b;
     last_state := last_state b;
     last_event := last_event b;
     is_long_pressed_triggered := is_long_pressed_triggered b;
     context := context b;
     callback := callback b;
     read_pin_func := read_pin_func b;
     get_tick_func := get_tick_func b;
     stages := v |}.

(** ** Callback invocations *)

(** The place in button_static.c a callback invocation comes from. *)
Inductive call_site :=
| at_debounce            (* line 86  *)
| at_pressed_release     (* line 100 *)
| at_pressed_long        (* line 110 *)
| at_long_release        (* line 130 *)
| at_stage (i : nat)     (* line 142, loop index i *)
| at_hold.               (* line 151 *)

#[global] Instance call_site_eq_dec : EqDecision call_site.
Proof. solve_decision. Defined.

(** One invocation [fn(ev, ctx)]. *)
Record cb_call := {
  site : call_site;
  fn : nat;
  ev : button_event_t;
  ctx : option nat
}.

(** [if (button->callback) button->callback(e, button->context);] *)
Definition dispatch (button : button_t) (s : call_site) (e : button_event_t)
  : list cb_call :=
  match callback button with
  | Some f => [ {| site := s; fn := f; ev := e; ctx := context button |} ]
  | None => []
  end.

(** ** button_static.c *)

(** Unsigned 32-bit subtraction. *)
Definition sub32 (a b : Z) : Z := (a - b) mod 2 ^ 32.

(** [for (uint8_t i = lo; i < lo + n; i++) body], on a state [S]. *)
Fixpoint for_range {S : Type} (body : nat -> S -> option S)
         (i n : nat) (s : S) : option S :=
  match n with
  | O => Some s
  | Datatypes.S n' =>
      match body i s with
      | Some s' => for_range body (Datatypes.S i) n' s'
      | None => None
      end
  end.

Fixpoint validate_loop (cfg : list button_stage_config_t) (i n : nat)
  : option bool :=
  match n with
  | O => Some true
  | Datatypes.S n' =>
      match cfg !! i, cfg !! (i - 1)%nat with
      | Some ci, Some cp =>
          if threshold ci <=? threshold cp then Some false
          else validate_loop cfg (Datatypes.S i) n'
      | _, _ => None
      end
  end.

Definition validate_stages (cfg : option (list button_stage_config_t))
           (count : Z) : option bool :=
  match cfg with
  | None => Some false
  | Some c =>
      if count =? 0 then Some false
      else
        match c !! 0%nat with
        | None => None
        | Some c0 =>
            if threshold c0 =? 0 then Some false
            else validate_loop c 1 (Z.to_nat count - 1)
        end
  end.

Definition Button_Init (button : option button_t) (gpio : Z)
           (level : button_active_level_t) (read_fn tick_fn : option nat)
           (now : Z) : button_error_t * option button_t :=
  match button, read_fn, tick_fn, level with
  | None, _, _, _ | _, None, _, _ | _, _, None, _
  | _, _, _, BUTTON_ACTIVE_MAX => (BUTTON_ERR_INVALID_ARG, button)
  | Some _, Some _, Some _, _ =>
      (BUTTON_OK,
       Some {| last_change_tick := now;
               press_start_tick := now;
               last_hold_tick := now;
               gpio_num := gpio;
               active_level := level;
               last_state := STATE_IDLE;
               last_event := BUTTON_EVENT_NONE;
               is_long_pressed_triggered := false;
               context := None;
               callback := None;
               read_pin_func := read_fn;
               get_tick_func := tick_fn;
               stages := {| configs := None; latches := None; count := 0 |} |})
  end.

Definition Button_ConfigStages (button : option button_t)
           (cfgs : option (list button_stage_config_t))
           (lat : option nat) (cnt : Z)
  : option (button_error_t * option button_t) :=
  match button, cfgs, lat with
  | Some b, Some _, Some _ =>
      if cnt =? 0 then Some (BUTTON_ERR_INVALID_ARG, button)
      else
        match validate_stages cfgs cnt with
        | None => None
        | Some false => Some (BUTTON_ERR_INVALID_STAGES, button)
        | Some true =>
            Some (BUTTON_OK,
                  Some (set_stages
                          {| configs := cfgs; latches := lat; count := cnt |}
                          b))
        end
  | _, _, _ => Some (BUTTON_ERR_INVALID_ARG, button)
  end.

Definition handle_state_idle (button : button_t) (is_pressed : bool)
           (current_tick : Z) : button_t :=
  if is_pressed
  then set_last_change_tick current_tick (set_last_state STATE_DEBOUNCE button)
  else button.

Definition handle_state_debounce (button : button_t) (is_pressed : bool)
           (current_tick : Z) : button_t * list cb_call :=
  let diff := sub32 current_tick (last_change_tick button) in
  if diff >=? BUTTON_DEBOUNCE_TICKS then
    if is_pressed then
      let button := set_last_state STATE_PRESSED button in
      let button := set_last_change_tick current_tick button in
      (button, dispatch button at_debounce BUTTON_EVENT_PRESSED)
    else (set_last_state STATE_IDLE button, [])
  else (button, []).

Definition handle_state_pressed (button : button_t) (is_pressed : bool)
           (current_tick : Z) : button_t * list cb_call :=
  let diff := sub32 current_tick (last_change_tick button) in
  if negb is_pressed then
    let button := set_last_state STATE_IDLE button in
    (button, dispatch button at_pressed_release BUTTON_EVENT_RELEASED)
  else if diff >=? BUTTON_LONG_PRESS_TICKS then
    let button := set_last_state STATE_LONG_PRESSED button in
    let button := set_last_change_tick current_tick button in
    let button := set_press_start_tick current_tick button in
    let button := set_last_hold_tick current_tick button in
    (button, dispatch button at_pressed_long BUTTON_EVENT_LONG_PRESSED)
  else (button, []).

(** Body of the loop at lines 124-126: [latches[i] = false]. *)
Definition clear_body (p : nat) (i : nat) (ram : gmap nat (list bool))
  : option (gmap nat (list bool)) :=
  match ram !! p with
  | Some ls =>
      if decide (i < length ls)%nat
      then Some (<[p := <[i := false]> ls]> ram)
      else None
  | None => None
  end.

(** Body of the loop at lines 139-144.  The latch is read only when the
    threshold test succeeds ([&&] evaluates left to right). *)
Definition stage_body (button : button_t)
           (cfg : list button_stage_config_t) (p : nat)
           (total_pressed_time : Z) (i : nat)
           (s : gmap nat (list bool) * list cb_call)
  : option (gmap nat (list bool) * list cb_call) :=
  let '(ram, tr) := s in
  match cfg !! i with
  | None => None
  | Some c =>
      if total_pressed_time >=? threshold c then
        match ram !! p with
        | None => None
        | Some ls =>
            match ls !! i with
            | None => None
            | Some l =>
                if negb l
                then Some (<[p := <[i := true]> ls]> ram,
                           tr ++ dispatch button (at_stage i) (event c))
                else Some (ram, tr)
            end
        end
      else Some (ram, tr)
  end.

Definition handle_state_long (button : button_t) (ram : gmap nat (list bool))
           (is_pressed : bool) (current_tick : Z)
  : option (button_t * gmap nat (list bool) * list cb_call) :=
  if negb is_pressed then
    let button := set_last_state STATE_IDLE button in
    match
      match latches (stages button) with
      | Some p =>
          for_range (clear_body p) 0 (Z.to_nat (count (stages button))) ram
      | None => Some ram
      end
    with
    | None => None
    | Some ram =>
        Some (button, ram,
              dispatch button at_long_release BUTTON_EVENT_RELEASED)
    end
  else
    let total_pressed_time := sub32 current_tick (press_start_tick button) in
    match
      match configs (stages button), latches (stages button) with
      | Some cfg, Some p =>
          for_range (stage_body button cfg p total_pressed_time)
                    0 (Z.to_nat (count (stages button))) (ram, [])
      | _, _ => Some (ram, [])
      end
    with
    | None => None
    | Some (ram, tr) =>
        if total_pressed_time >=? BUTTON_LONG_PRESS_TICKS then
          if sub32 current_tick (last_hold_tick button) >=? BUTTON_HOLD_TICKS
          then
            let button := set_last_hold_tick current_tick button in
            Some (button, ram,
                  tr ++ dispatch button at_hold BUTTON_EVENT_HOLD)
          else Some (button, ram, tr)
        else Some (button, ram, tr)
    end.

(** The [switch (button->last_state)] of [Button_Update].  The [default]
    branch is taken by no value of [button_state_t]. *)
Definition fsm_switch (button : button_t) (ram : gmap nat (list bool))
           (is_pressed : bool) (current_tick : Z)
  : option (button_t * gmap nat (list bool) * list cb_call) :=
  match last_state button with
  | STATE_IDLE =>
      Some (handle_state_idle button is_pressed current_tick, ram, [])
  | STATE_DEBOUNCE =>
      let '(b, tr) := handle_state_debounce button is_pressed current_tick in
      Some (b, ram, tr)
  | STATE_PRESSED =>
      let '(b, tr) := handle_state_pressed button is_pressed current_tick in
      Some (b, ram, tr)
  | STATE_LONG_PRESSED =>
      handle_state_long button ram is_pressed current_tick
  end.

(** Polarity mapping, line 49. *)
Definition is_pressed_of (level : button_active_level_t) (pin_state : bool)
  : bool :=
  match level with
  | BUTTON_ACTIVE_LOW => negb pin_state
  | _ => pin_state
  end.

(** [pin_state] is what [read_pin_func(gpio_num)] returns and [now] what
    [get_tick_func()] returns on this call. *)
Definition Button_Update (button : option button_t)
           (ram : gmap nat (list bool)) (pin_state : bool) (now : Z)
  : option (button_error_t * option button_t
            * gmap nat (list bool) * list cb_call) :=
  match button with
  | None => Some (BUTTON_ERR_INVALID_ARG, button, ram, [])
  | Some b =>
      match read_pin_func b, get_tick_func b with
      | Some _, Some _ =>
          let is_pressed := is_pressed_of (active_level b) pin_state in
          match fsm_switch b ram is_pressed now with
          | None => None
          | Some (b', ram', tr) => Some (BUTTON_OK, Some b', ram', tr)
          end
      | _, _ => Some (BUTTON_ERR_INVALID_ARG, button, ram, [])
      end
  end.

Definition button_zero : button_t :=
  {| last_change_tick := 0;
     press_start_tick := 0;
     last_hold_tick := 0;
     gpio_num := 0;
     active_level := BUTTON_ACTIVE_LOW;
     last_state := STATE_IDLE;
     last_event := BUTTON_EVENT_NONE;
     is_long_pressed_triggered := false;
     context := None;
     callback := None;
     read_pin_func := None;
     get_tick_func := None;
     stages := {| configs := None; latches := None; count := 0 |} |}.

Definition Button_Deinit (button : option button_t)
  : button_error_t * option button_t :=
  match button with
  | None => (BUTTON_ERR_INVALID_ARG, None)
  | Some _ => (BUTTON_OK, Some button_zero)
  end.

Definition Button_RegisterHandler (button : option button_t)
           (cb ctx : option nat) : button_error_t * option button_t :=
  match button with
  | None => (BUTTON_ERR_INVALID_ARG, None)
  | Some b => (BUTTON_OK, Some (set_handler cb ctx b))
  end.

Definition Button_UnregisterHandler (button : option button_t)
  : button_error_t * option button_t :=
  match button with
  | None => (BUTTON_ERR_INVALID_ARG, None)
  | Some b => (BUTTON_OK, Some (set_handler None None b))
  end.

(** ** Sequences of polls *)

(** A sample is the pair of [is_pressed] and [current_tick] seen by one
    execution of the switch. *)
Fixpoint run (button : button_t) (ram : gmap nat (list bool))
         (samples : list (bool * Z))
  : option (button_t * gmap nat (list bool) * list cb_call) :=
  match samples with
  | [] => Some (button, ram, [])
  | (is_pressed, current_tick) :: rest =>
      match fsm_switch button ram is_pressed current_tick with
      | None => None
      | Some (b1, ram1, tr1) =>
          match run b1 ram1 rest with
          | None => None
          | Some (b2, ram2, tr2) => Some (b2, ram2, tr1 ++ tr2)
          end
      end
  end.

(** ** Reading the stage mechanism *)

(** The stage manager of [b] points to the configuration array [cfg] and to
    the latch array at address [p], whose contents in [ram] are [ls]; both
    arrays hold at least [count] entries. *)
Definition attached (b : button_t) (ram : gmap nat (list bool))
           (cfg : list button_stage_config_t) (p : nat) (ls : list bool)
  : Prop :=
  configs (stages b) = Some cfg /\
  latches (stages b) = Some p /\
  ram !! p = Some ls /\
  (Z.to_nat (count (stages b)) <= length cfg)%nat /\
  (Z.to_nat (count (stages b)) <= length ls)%nat.

(** Stage [i] is due at hold time [total]: configured and reached. *)
Definition due (cfg : list button_stage_config_t) (total : Z) (i : nat)
  : bool :=
  match cfg !! i with
  | Some c => total >=? threshold c
  | None => false
  end.

(** Latch array after the scan has visited the indices below [n]. *)
Definition scan_latches (cfg : list button_stage_config_t) (total : Z)
           (n : nat) (ls : list bool) : list bool :=
  imap (fun i l => if decide (i < n)%nat then l || due cfg total i else l) ls.

(** What the scan does at index [i], given the latch array [ls] it started
    from. *)
Definition stage_calls_at (b : button_t) (cfg : list button_stage_config_t)
           (ls : list bool) (total : Z) (i : nat) : list cb_call :=
  match cfg !! i, ls !! i with
  | Some c, Some false =>
      if total >=? threshold c then dispatch b (at_stage i) (event c) else []
  | _, _ => []
  end.

(** Callback invocations of the scan over the indices below [n], in order. *)
Definition stage_calls (b : button_t) (cfg : list button_stage_config_t)
           (ls : list bool) (total : Z) (n : nat) : list cb_call :=
  flat_map (stage_calls_at b cfg ls total) (seq 0 n).

(** The two tests of the hold repeat, lines 147-148, both succeed. *)
Definition hold_due (b : button_t) (current_tick : Z) : bool :=
  (sub32 current_tick (press_start_tick b) >=? BUTTON_LONG_PRESS_TICKS) &&
  (sub32 current_tick (last_hold_tick b) >=? BUTTON_HOLD_TICKS).

(** Latch array after the clearing loop has visited the indices below [n]. *)
Definition clear_latches (n : nat) (ls : list bool) : list bool :=
  imap (fun i l => if decide (i < n)%nat then false else l) ls.

(** Indices of the stages whose callback invocation appears in a trace. *)
Definition fired_stages (tr : list cb_call) : list nat :=
  omap (fun c => match site c with at_stage i => Some i | _ => None end) tr.

(** Events delivered from the fixed call sites of the state machine (every
    site but the stage scan). *)
Definition fsm_events (tr : list cb_call) : list button_event_t :=
  omap (fun c => match site c with at_stage _ => None | _ => Some (ev c) end)
       tr.

(** Stage [i] has a smaller threshold than stage [j]. *)
Definition thr_lt (cfg : list button_stage_config_t) (i j : nat) : Prop :=
  exists ci cj, cfg !! i = Some ci /\ cfg !! j = Some cj /\
                threshold ci < threshold cj.

(** Thresholds of the first [n] entries: nonzero first, strictly increasing. *)
Definition increasing (cfg : list button_stage_config_t) (n : nat) : Prop :=
  (exists c0, cfg !! 0%nat = Some c0 /\ threshold c0 <> 0) /\
  forall i j, (i < j < n)%nat -> thr_lt cfg i j.

(** ** Reading one poll *)

(** The record after the hold repeat at tick [t], lines 147-154. *)
Definition after_hold (b : button_t) (t : Z) : button_t :=
  if hold_due b t then set_last_hold_tick t b else b.

(** The callback invocation of the hold repeat at tick [t]. *)
Definition hold_calls (b : button_t) (t : Z) : list cb_call :=
  if hold_due b t then dispatch b at_hold BUTTON_EVENT_HOLD else [].

(** Stage [i] fires in a scan started from latches [ls] at hold time
    [total]: its latch is unset and its threshold is reached. *)
Definition fires (cfg : list button_stage_config_t) (ls : list bool)
           (total : Z) (i : nat) : bool :=
  match ls !! i with
  | Some false => due cfg total i
  | _ => false
  end.

(** What the scan invokes when no latch below [n] is set. *)
Definition stage_calls_fresh (b : button_t)
           (cfg : list button_stage_config_t) (total : Z) (n : nat)
  : list cb_call :=
  flat_map (fun i => match cfg !! i with
                     | Some c =>
                         if total >=? threshold c
                         then dispatch b (at_stage i) (event c)
                         else []
                     | None => []
                     end) (seq 0 n).

(** The events a trace delivers, from every call site. *)
Definition events (tr : list cb_call) : list button_event_t := map ev tr.

(** No configured stage of [b] carries the event [e]. *)
Definition no_stage_event (b : button_t) (e : button_event_t) : Prop :=
  forall cfg c, configs (stages b) = Some cfg -> c ∈ cfg -> event c <> e.

(** The invocation delivers Hold, from whatever call site. *)
Definition is_hold (x : cb_call) : bool :=
  bool_decide (ev x = BUTTON_EVENT_HOLD).

Definition is_released (e : button_event_t) : bool :=
  bool_decide (e = BUTTON_EVENT_RELEASED).

(** The events of the state machine while the button stays down. *)
Definition hold_event (e : button_event_t) : Prop :=
  e = BUTTON_EVENT_LONG_PRESSED \/ e = BUTTON_EVENT_HOLD.

(** The events of the state machine from a validated press on. *)
Definition release_event (e : button_event_t) : Prop :=
  hold_event e \/ e = BUTTON_EVENT_RELEASED.

(** ** States of the record and kinds of run *)

(** The press has been validated and not yet released. *)
Definition held (b : button_t) : Prop :=
  last_state b = STATE_PRESSED \/ last_state b = STATE_LONG_PRESSED.

(** No stage manager is attached (the record as [Button_Init] leaves it). *)
Definition unstaged (b : button_t) : Prop :=
  configs (stages b) = None /\ latches (stages b) = None.

(** The stage manager is either not attached, or attached to arrays that
    are large enough. *)
Definition well_formed (b : button_t) (ram : gmap nat (list bool)) : Prop :=
  unstaged b \/ exists cfg p ls, attached b ram cfg p ls.

(** Two records that differ at most in their callback and context fields. *)
Definition same_but_handler (b1 b2 : button_t) : Prop :=
  set_handler None None b1 = set_handler None None b2.

(** A press cycle seen from its validated press on: polls with the button
    held down, closed or not by the poll that sees it released. *)
Definition cycle_samples (samples : list (bool * Z)) : Prop :=
  exists holding closing,
    samples = holding ++ closing /\
    Forall (fun s : bool * Z => s.1 = true) holding /\
    (closing = [] \/ exists t, closing = [(false, t)]).

(** No poll of the run is executed in state LongPressed. *)
Fixpoint avoids_long (b : button_t) (ram : gmap nat (list bool))
         (samples : list (bool * Z)) : Prop :=
  match samples with
  | [] => True
  | (pr, t) :: rest =>
      last_state b <> STATE_LONG_PRESSED /\
      match fsm_switch b ram pr t with
      | Some (b1, ram1, _) => avoids_long b1 ram1 rest
      | None => True
      end
  end.

(** No poll of the run sees the button released in state LongPressed. *)
Fixpoint no_long_release (b : button_t) (ram : gmap nat (list bool))
         (samples : list (bool * Z)) : Prop :=
  match samples with
  | [] => True
  | (pr, t) :: rest =>
      ~ (last_state b = STATE_LONG_PRESSED /\ pr = false) /\
      match fsm_switch b ram pr t with
      | Some (b1, ram1, _) => no_long_release b1 ram1 rest
      | None => True
      end
  end.

(** ** The public interface as a whole *)

(** A call of the public interface on the button, with the values its
    capabilities return during the call. *)
Inductive api_call :=
| call_Init (gpio : Z) (level : button_active_level_t)
            (read_fn tick_fn : option nat) (now : Z)
| call_ConfigStages (cfgs : option (list button_stage_config_t))
                    (lat : option nat) (cnt : Z)
| call_Update (pin_state : bool) (now : Z)
| call_RegisterHandler (cb cx : option nat)
| call_UnregisterHandler
| call_Deinit.

(** The effect of a call on the record, the latch store and the trace. *)
Definition api_step (button : option button_t) (ram : gmap nat (list bool))
           (c : api_call)
  : option (button_error_t * option button_t
            * gmap nat (list bool) * list cb_call) :=
  match c with
  | call_Init gpio level read_fn tick_fn now =>
      let '(e, o) := Button_Init button gpio level read_fn tick_fn now in
      Some (e, o, ram, [])
  | call_ConfigStages cfgs lat cnt =>
      match Button_ConfigStages button cfgs lat cnt with
      | Some (e, o) => Some (e, o, ram, [])
      | None => None
      end
  | call_Update pin_state now => Button_Update button ram pin_state now
  | call_RegisterHandler cb cx =>
      let '(e, o) := Button_RegisterHandler button cb cx in
      Some (e, o, ram, [])
  | call_UnregisterHandler =>
      let '(e, o) := Button_UnregisterHandler button in
      Some (e, o, ram, [])
  | call_Deinit =>
      let '(e, o) := Button_Deinit button in
      Some (e, o, ram, [])
  end.

(** A record that [Button_Init] has produced and that later calls of the
    public interface have mutated, whatever the latch store held at each
    call. *)
Inductive reachable : button_t -> Prop :=
| reachable_init button gpio level read_fn tick_fn now b :
    Button_Init button gpio level read_fn tick_fn now = (BUTTON_OK, Some b) ->
    reachable b
| reachable_step b ram c e b' ram' tr :
    reachable b ->
    api_step (Some b) ram c = Some (e, Some b', ram', tr) ->
    reachable b'.

(** Either no stage is attached, or both arrays are and the thresholds have
    passed [validate_stages]. *)
Definition stage_invariant (b : button_t) : Prop :=
  (count (stages b) = 0 /\
   configs (stages b) = None /\ latches (stages b) = None) \/
  (count (stages b) <> 0 /\
   exists cfg p,
     configs (stages b) = Some cfg /\ latches (stages b) = Some p /\
     validate_stages (Some cfg) (count (stages b)) = Some true).

(** ** Sample records

    A button on pin 4, active low, with two stages at 1500 and 3000 ticks
    whose latches live at address 7. *)

Definition demo_cfg : list button_stage_config_t :=
  [ {| threshold := 1500; event := BUTTON_EVENT_SUPER_LONG_PRESSED |};
    {| threshold := 3000; event := BUTTON_EVENT_SUPER_LONG_PRESSED |} ].

Definition flat_cfg : list button_stage_config_t :=
  [ {| threshold := 100; event := BUTTON_EVENT_LONG_PRESSED |};
    {| threshold := 100; event := BUTTON_EVENT_SUPER_LONG_PRESSED |} ].

Definition demo_ram : gmap nat (list bool) := {[ 7%nat := [false; false] ]}.

Definition demo_ram_set : gmap nat (list bool) := {[ 7%nat := [true; true] ]}.

Definition demo_ram_preset : gmap nat (list bool) :=
  {[ 7%nat := [true; false] ]}.

Definition demo_long : button_t :=
  {| last_change_tick := 1060;
     press_start_tick := 1060;
     last_hold_tick := 1060;
     gpio_num := 4;
     active_level := BUTTON_ACTIVE_LOW;
     last_state := STATE_LONG_PRESSED;
     last_event := BUTTON_EVENT_NONE;
     is_long_pressed_triggered := false;
     context := Some 9%nat;
     callback := Some 1%nat;
     read_pin_func := Some 2%nat;
     get_tick_func := Some 3%nat;
     stages := {| configs := Some demo_cfg; latches := Some 7%nat; count := 2 |} |}.

Definition demo_idle : button_t :=
  set_last_hold_tick 0
    (set_press_start_tick 0
       (set_last_change_tick 0 (set_last_state STATE_IDLE demo_long))).

Definition demo_pressed : button_t :=
  set_last_change_tick 60 (set_last_state STATE_PRESSED demo_idle).

Definition demo_plain : button_t :=
  set_stages {| configs := None; latches := None; count := 0 |} demo_idle.

Definition demo_init : button_t :=
  {| last_change_tick := 0;
     press_start_tick := 0;
     last_hold_tick := 0;
     gpio_num := 4;
     active_level := BUTTON_ACTIVE_LOW;
     last_state := STATE_IDLE;
     last_event := BUTTON_EVENT_NONE;
     is_long_pressed_triggered := false;
     context := None;
     callback := None;
     read_pin_func := Some 2%nat;
     get_tick_func := Some 3%nat;
     stages := {| configs := None; latches := None; count := 0 |} |}.

Definition demo_configured : button_t :=
  set_stages {| configs := Some demo_cfg; latches := Some 7%nat; count := 2 |}
             demo_init.

Definition demo_press : list (bool * Z) :=
  [(true, 10); (true, 60); (true, 1100); (true, 5000)].

(** ** Further readings of the code *)

(** [button->active_level = v] (written by [Button_Init] only). *)
Definition set_active_level (v : button_active_level_t) (b : button_t)
  : button_t :=
  {| last_change_tick := last_change_tick b;
     press_start_tick := press_start_tick b;
     last_hold_tick := last_hold_tick b;
     gpio_num := gpio_num b;
     active_level := v;
     last_state := last_state b;
     last_event := last_event b;
     is_long_pressed_triggered := is_long_pressed_triggered b;
     context := context b;
     callback := callback b;
     read_pin_func := read_pin_func b;
     get_tick_func := get_tick_func b;
     stages := stages b |}.

(** What a consumer of the events knows of the button: up (Idle or
    Debounce), down (Pressed) or down for long (LongPressed). *)
Inductive phase := phase_up | phase_down | phase_long.

Definition phase_of (s : button_state_t) : phase :=
  match s with
  | STATE_IDLE | STATE_DEBOUNCE => phase_up
  | STATE_PRESSED => phase_down
  | STATE_LONG_PRESSED => phase_long
  end.

(** The phase after an event, when the event can come in that phase. *)
Definition phase_step (ph : phase) (e : button_event_t) : option phase :=
  match ph, e with
  | phase_up, BUTTON_EVENT_PRESSED => Some phase_down
  | phase_down, BUTTON_EVENT_RELEASED => Some phase_up
  | phase_down, BUTTON_EVENT_LONG_PRESSED => Some phase_long
  | phase_long, BUTTON_EVENT_HOLD => Some phase_long
  | phase_long, BUTTON_EVENT_RELEASED => Some phase_up
  | _, _ => None
  end.

Fixpoint replay (ph : phase) (evs : list button_event_t) : option phase :=
  match evs with
  | [] => Some ph
  | e :: rest =>
      match phase_step ph e with
      | Some ph' => replay ph' rest
      | None => None
      end
  end.

(** The only fields a poll assigns are the state and the three ticks. *)
Definition same_but_timing (b b' : button_t) : Prop :=
  b' = set_last_hold_tick (last_hold_tick b')
         (set_press_start_tick (press_start_tick b')
            (set_last_change_tick (last_change_tick b')
               (set_last_state (last_state b') b))).

(** A sequence of calls of the public interface on one record. *)
Fixpoint api_run (button : button_t) (ram : gmap nat (list bool))
         (calls : list api_call)
  : option (button_t * gmap nat (list bool) * list cb_call) :=
  match calls with
  | [] => Some (button, ram, [])
  | c :: rest =>
      match api_step (Some button) ram c with
      | Some (_, Some b1, ram1, tr1) =>
          match api_run b1 ram1 rest with
          | Some (b2, ram2, tr2) => Some (b2, ram2, tr1 ++ tr2)
          | None => None
          end
      | _ => None
      end
  end.

(** The caller keeps its side of [Button_ConfigStages]: the count is a
    [uint8_t] value and the arrays passed hold at least [count] entries. *)
Definition call_ok (ram : gmap nat (list bool)) (c : api_call) : Prop :=
  match c with
  | call_ConfigStages cfgs lat cnt =>
      0 <= cnt < 256 /\
      (forall cfg, cfgs = Some cfg -> (Z.to_nat cnt <= length cfg)%nat) /\
      (forall p, lat = Some p ->
                 exists ls, ram !! p = Some ls /\
                            (Z.to_nat cnt <= length ls)%nat)
  | _ => True
  end.

Fixpoint calls_ok (b : button_t) (ram : gmap nat (list bool))
         (calls : list api_call) : Prop :=
  match calls with
  | [] => True
  | c :: rest =>
      call_ok ram c /\
      match api_step (Some b) ram c with
      | Some (_, Some b1, ram1, _) => calls_ok b1 ram1 rest
      | _ => True
      end
  end.

(** The record cannot be polled: a capability is missing (as after
    [Button_Deinit]). *)
Definition uninitialised (b : button_t) : Prop :=
  read_pin_func b = None \/ get_tick_func b = None.

(** A second button, like [demo_long], with its latches at address 8, and
    a store that holds both latch arrays. *)
Definition demo_long8 : button_t :=
  set_stages {| configs := Some demo_cfg; latches := Some 8%nat; count := 2 |}
             demo_long.

Definition demo_ram2 : gmap nat (list bool) :=
  <[8%nat := [false; false]]> demo_ram.

Definition is_init_call (c : api_call) : bool :=
  match c with
  | call_Init _ _ _ _ _ => true
  | _ => false
  end.

(** Calls made on a torn-down record before it is initialised again. *)
Definition demo_calls : list api_call :=
  [ call_ConfigStages (Some demo_cfg) (Some 7%nat) 2;
    call_RegisterHandler (Some 1%nat) (Some 9%nat);
    call_Update false 10;
    call_Update false 60 ].

(** ** Stages that carry an event of the state machine

    [validate_stages] looks at the thresholds only, and line 142 dispatches
    whatever event a stage is configured with.  Three one-stage arrays that
    [Button_ConfigStages] accepts, each on the record [demo_plain] with its
    latch at address 7. *)

Definition hold_stage_cfg : list button_stage_config_t :=
  [ {| threshold := 1020; event := BUTTON_EVENT_HOLD |} ].

Definition pressed_stage_cfg : list button_stage_config_t :=
  [ {| threshold := 100; event := BUTTON_EVENT_PRESSED |} ].

Definition released_stage_cfg : list button_stage_config_t :=
  [ {| threshold := 100; event := BUTTON_EVENT_RELEASED |} ].

Definition one_stage (cfg : list button_stage_config_t) : button_t :=
  set_stages {| configs := Some cfg; latches := Some 7%nat; count := 1 |}
             demo_plain.

Definition one_latch : gmap nat (list bool) := {[ 7%nat := [false] ]}.

(** * Lemmas *)

(** Case analysis on the two tests of the hold repeat, lines 147-148. *)
Ltac hold_tests b t :=
  destruct (sub32 t (press_start_tick b) >=? BUTTON_LONG_PRESS_TICKS);
  [destruct (sub32 t (last_hold_tick b) >=? BUTTON_HOLD_TICKS)|].

(** A trace made of one dispatch from a fixed call site holds no stage
    invocation: closes a goal with [x ∈ dispatch b s e] and
    [site x = at_stage i] among the hypotheses. *)
Ltac not_a_stage Hx :=
  unfold dispatch in Hx; cbn in Hx;
  match type of Hx with
  | _ ∈ match ?c with Some _ => _ | None => _ end =>
      destruct c; [|by apply elem_of_nil in Hx];
      apply list_elem_of_singleton in Hx; by subst
  | _ ∈ [] => by apply elem_of_nil in Hx
  end.

Section Loops.
Context {S : Type} (body : nat -> S -> option S).

Lemma for_range_snoc i n s :
  for_range body i (Datatypes.S n) s =
  match for_range body i n s with
  | Some s' => body (i + n)%nat s'
  | None => None
  end.
Proof.
  revert i s. induction n as [|n IH]; intros i s.
  - cbn. rewrite Nat.add_0_r. destruct (body i s); reflexivity.
  - change (for_range body i (Datatypes.S (Datatypes.S n)) s)
      with (match body i s with
            | Some s' => for_range body (Datatypes.S i) (Datatypes.S n) s'
            | None => None
            end).
    destruct (body i s) as [s'|] eqn:E.
    + rewrite IH. cbn [for_range]. rewrite E.
      replace (i + Datatypes.S n)%nat with (Datatypes.S i + n)%nat by lia.
      reflexivity.
    + cbn [for_range]. rewrite E. reflexivity.
Qed.
End Loops.

Lemma geb_true a b : (a >=? b) = true <-> b <= a.
Proof. rewrite Z.geb_leb. apply Z.leb_le. Qed.

Lemma geb_false a b : (a >=? b) = false <-> a < b.
Proof. rewrite Z.geb_leb. apply Z.leb_gt. Qed.

Lemma scan_latches_length cfg total n ls :
  length (scan_latches cfg total n ls) = length ls.
Proof. apply length_imap. Qed.

Lemma scan_latches_lookup cfg total n ls i :
  scan_latches cfg total n ls !! i =
  (fun l => if decide (i < n)%nat then l || due cfg total i else l)
    <$> ls !! i.
Proof. unfold scan_latches. apply list_lookup_imap. Qed.

Lemma scan_latches_0 cfg total ls : scan_latches cfg total 0 ls = ls.
Proof.
  apply list_eq; intros i. rewrite scan_latches_lookup.
  destruct (ls !! i); cbn; [|done]. case_decide; [lia|done].
Qed.

Lemma scan_latches_S cfg total n ls :
  scan_latches cfg total (Datatypes.S n) ls =
  match ls !! n with
  | Some false =>
      if due cfg total n then <[n := true]> (scan_latches cfg total n ls)
      else scan_latches cfg total n ls
  | _ => scan_latches cfg total n ls
  end.
Proof.
  apply list_eq; intros i. rewrite scan_latches_lookup.
  destruct (ls !! n) as [[|]|] eqn:En.
  - rewrite scan_latches_lookup. destruct (ls !! i) eqn:Ei; cbn; [|done].
    repeat case_decide; try lia; try done.
    assert (i = n) by lia. subst. rewrite En in Ei. by inversion Ei.
  - destruct (due cfg total n) eqn:Ed.
    + destruct (decide (i = n)) as [->|Hne].
      * rewrite list_lookup_insert_eq
          by (rewrite scan_latches_length; by eapply lookup_lt_Some).
        rewrite En. cbn. case_decide; [|lia]. by rewrite Ed.
      * rewrite list_lookup_insert_ne by done. rewrite scan_latches_lookup.
        destruct (ls !! i); cbn; [|done].
        repeat case_decide; try lia; done.
    + rewrite scan_latches_lookup. destruct (ls !! i) eqn:Ei; cbn; [|done].
      repeat case_decide; try lia; try done.
      assert (i = n) by lia. subst. rewrite En in Ei. inversion Ei; subst.
      by rewrite Ed.
  - rewrite scan_latches_lookup. destruct (ls !! i) eqn:Ei; cbn; [|done].
    repeat case_decide; try lia; try done.
    assert (i = n) by lia. subst. congruence.
Qed.

Lemma stage_calls_S b cfg ls total n :
  stage_calls b cfg ls total (Datatypes.S n) =
  stage_calls b cfg ls total n ++ stage_calls_at b cfg ls total n.
Proof.
  unfold stage_calls. rewrite seq_S, flat_map_app. cbn.
  by rewrite app_nil_r.
Qed.

(** The stage scan in closed form. *)
Lemma stage_scan_closed b cfg p total ram ls n tr :
  ram !! p = Some ls ->
  (n <= length cfg)%nat ->
  (n <= length ls)%nat ->
  for_range (stage_body b cfg p total) 0 n (ram, tr) =
  Some (<[p := scan_latches cfg total n ls]> ram,
        tr ++ stage_calls b cfg ls total n).
Proof.
  intros Hp. induction n as [|n IH]; intros Hc Hl.
  - cbn. rewrite scan_latches_0, app_nil_r, insert_id; done.
  - rewrite for_range_snoc, IH by lia. cbn [Nat.add].
    destruct (lookup_lt_is_Some_2 cfg n) as [c Ec]; [lia|].
    destruct (lookup_lt_is_Some_2 ls n) as [l El]; [lia|].
    unfold stage_body. rewrite Ec.
    rewrite scan_latches_S, stage_calls_S, El.
    unfold stage_calls_at, due. rewrite Ec, El.
    destruct (total >=? threshold c) eqn:Ege.
    + rewrite lookup_insert_eq.
      replace (scan_latches cfg total n ls !! n) with (Some l).
      2:{ rewrite scan_latches_lookup, El. cbn. case_decide; [lia|done]. }
      destruct l; cbn.
      * by rewrite app_nil_r.
      * by rewrite insert_insert_eq, app_assoc.
    + destruct l; by rewrite app_nil_r.
Qed.

Lemma clear_latches_length n ls : length (clear_latches n ls) = length ls.
Proof. apply length_imap. Qed.

Lemma clear_latches_lookup n ls i :
  clear_latches n ls !! i =
  (fun l => if decide (i < n)%nat then false else l) <$> ls !! i.
Proof. unfold clear_latches. apply list_lookup_imap. Qed.

Lemma clear_latches_0 ls : clear_latches 0 ls = ls.
Proof.
  apply list_eq; intros i. rewrite clear_latches_lookup.
  destruct (ls !! i); cbn; [|done]. case_decide; [lia|done].
Qed.

Lemma clear_latches_S n ls :
  <[n := false]> (clear_latches n ls) = clear_latches (Datatypes.S n) ls.
Proof.
  apply list_eq; intros i. rewrite clear_latches_lookup.
  destruct (decide (i = n)) as [->|Hne].
  - destruct (ls !! n) eqn:En.
    + rewrite list_lookup_insert_eq
        by (rewrite clear_latches_length; by eapply lookup_lt_Some).
      cbn. case_decide; [done|lia].
    + rewrite list_insert_ge
        by (rewrite clear_latches_length; by apply lookup_ge_None).
      by rewrite clear_latches_lookup, En.
  - rewrite list_lookup_insert_ne by done. rewrite clear_latches_lookup.
    destruct (ls !! i); cbn; [|done]. repeat case_decide; try lia; done.
Qed.

(** The latch-clearing loop in closed form. *)
Lemma clear_loop_closed p ram ls n :
  ram !! p = Some ls ->
  (n <= length ls)%nat ->
  for_range (clear_body p) 0 n ram = Some (<[p := clear_latches n ls]> ram).
Proof.
  intros Hp. induction n as [|n IH]; intros Hl.
  - cbn. rewrite clear_latches_0, insert_id; done.
  - rewrite for_range_snoc, IH by lia. cbn [Nat.add].
    unfold clear_body. rewrite lookup_insert_eq, clear_latches_length.
    case_decide; [|lia].
    by rewrite insert_insert_eq, clear_latches_S.
Qed.

(** *** One poll in state LongPressed *)

Lemma long_release_closed b ram cfg p ls t :
  attached b ram cfg p ls ->
  handle_state_long b ram false t =
  Some (set_last_state STATE_IDLE b,
        <[p := clear_latches (Z.to_nat (count (stages b))) ls]> ram,
        dispatch b at_long_release BUTTON_EVENT_RELEASED).
Proof.
  intros (Hc & Hl & Hp & Hn1 & Hn2).
  unfold handle_state_long. cbn [negb set_last_state stages].
  rewrite Hl, (clear_loop_closed p ram ls) by done. reflexivity.
Qed.

Lemma long_pressed_closed b ram cfg p ls t :
  attached b ram cfg p ls ->
  handle_state_long b ram true t =
  Some (after_hold b t,
        <[p := scan_latches cfg (sub32 t (press_start_tick b))
                 (Z.to_nat (count (stages b))) ls]> ram,
        stage_calls b cfg ls (sub32 t (press_start_tick b))
                    (Z.to_nat (count (stages b)))
        ++ hold_calls b t).
Proof.
  intros (Hc & Hl & Hp & Hn1 & Hn2).
  unfold handle_state_long. cbn [negb].
  rewrite Hc, Hl, (stage_scan_closed b cfg p _ ram ls) by done.
  unfold after_hold, hold_calls, hold_due. cbn [app].
  destruct (sub32 t (press_start_tick b) >=? BUTTON_LONG_PRESS_TICKS);
    cbn [andb]; [|by rewrite app_nil_r].
  destruct (sub32 t (last_hold_tick b) >=? BUTTON_HOLD_TICKS);
    [reflexivity|by rewrite app_nil_r].
Qed.

(** *** Validation of a stage configuration *)

Lemma thr_lt_trans cfg i j k : thr_lt cfg i j -> thr_lt cfg j k -> thr_lt cfg i k.
Proof.
  intros (ci & cj & Hi & Hj & H1) (cj' & ck & Hj' & Hk & H2).
  exists ci, ck. repeat split; try done.
  rewrite Hj in Hj'. inversion Hj'; subst. lia.
Qed.

Lemma thr_lt_irrefl cfg i : ~ thr_lt cfg i i.
Proof. intros (ci & cj & Hi & Hj & H). rewrite Hi in Hj. inversion Hj; subst. lia. Qed.

Lemma validate_loop_true cfg i n :
  validate_loop cfg i n = Some true <->
  forall k, (i <= k < i + n)%nat -> thr_lt cfg (k - 1) k.
Proof.
  revert i. induction n as [|n IH]; intros i; cbn [validate_loop].
  - split; [intros _ k Hk; lia|done].
  - destruct (cfg !! i) as [ci|] eqn:Ei.
    2:{ split; [done|]. intros H. destruct (H i) as (? & ? & ? & ? & ?); [lia|].
        congruence. }
    destruct (cfg !! (i - 1)%nat) as [cp|] eqn:Ep.
    2:{ split; [done|]. intros H. destruct (H i) as (? & ? & ? & ? & ?); [lia|].
        congruence. }
    destruct (threshold ci <=? threshold cp) eqn:Ele.
    + apply Z.leb_le in Ele. split; [done|]. intros H.
      destruct (H i) as (a & c & Ha & Hc & Hlt); [lia|].
      rewrite Ep in Ha. rewrite Ei in Hc. inversion Ha; inversion Hc; subst. lia.
    + apply Z.leb_gt in Ele. rewrite IH. split; intros H k Hk.
      * destruct (decide (k = i)) as [->|Hne].
        -- exists cp, ci. done.
        -- apply H. lia.
      * apply H. lia.
Qed.

Lemma validate_loop_total cfg i n :
  (1 <= i)%nat -> (i + n <= length cfg)%nat ->
  is_Some (validate_loop cfg i n).
Proof.
  revert i. induction n as [|n IH]; intros i Hi Hl; cbn [validate_loop].
  - by eexists.
  - destruct (lookup_lt_is_Some_2 cfg i) as [ci ->]; [lia|].
    destruct (lookup_lt_is_Some_2 cfg (i - 1)) as [cp ->]; [lia|].
    destruct (threshold ci <=? threshold cp); [by eexists|].
    apply IH; lia.
Qed.

Lemma adjacent_increasing cfg n :
  (forall k, (1 <= k < n)%nat -> thr_lt cfg (k - 1) k) ->
  forall i j, (i < j < n)%nat -> thr_lt cfg i j.
Proof.
  intros Hadj i j. induction j as [|j IH]; intros Hij; [lia|].
  destruct (decide (i = j)) as [->|Hne].
  - specialize (Hadj (Datatypes.S j)). cbn in Hadj.
    rewrite Nat.sub_0_r in Hadj. apply Hadj. lia.
  - eapply thr_lt_trans; [apply IH; lia|].
    specialize (Hadj (Datatypes.S j)). cbn in Hadj.
    rewrite Nat.sub_0_r in Hadj. apply Hadj. lia.
Qed.

(** [validate_stages] accepts exactly the configurations with a nonzero
    first threshold and strictly increasing thresholds. *)
Lemma validate_stages_true cfg cnt :
  0 < cnt ->
  validate_stages (Some cfg) cnt = Some true <->
  increasing cfg (Z.to_nat cnt).
Proof.
  intros Hc. unfold validate_stages, increasing.
  destruct (cnt =? 0) eqn:E0; [apply Z.eqb_eq in E0; lia|].
  destruct (cfg !! 0%nat) as [c0|] eqn:Ec0.
  2:{ split; [done|]. by intros [(c & ? & ?) _]. }
  destruct (threshold c0 =? 0) eqn:Et.
  { apply Z.eqb_eq in Et. split; [done|]. intros [(c & Hc0 & Hne) _].
    inversion Hc0; subst. done. }
  apply Z.eqb_neq in Et. rewrite validate_loop_true. split.
  - intros H. split; [by exists c0|].
    apply adjacent_increasing. intros k Hk. apply H. lia.
  - intros [_ H] k Hk. apply H. lia.
Qed.

Lemma validate_stages_total cfg cnt :
  0 <= cnt ->
  (Z.to_nat cnt <= length cfg)%nat ->
  is_Some (validate_stages (Some cfg) cnt).
Proof.
  intros Hc Hl. cbn.
  destruct (cnt =? 0) eqn:E0; [by eexists|].
  apply Z.eqb_neq in E0.
  destruct (lookup_lt_is_Some_2 cfg 0) as [c0 ->]; [lia|].
  destruct (threshold c0 =? 0); [by eexists|].
  apply validate_loop_total; lia.
Qed.

(** *** Which stages a trace shows *)

Lemma fired_stages_app tr1 tr2 :
  fired_stages (tr1 ++ tr2) = fired_stages tr1 ++ fired_stages tr2.
Proof. apply omap_app. Qed.

Lemma fsm_events_app tr1 tr2 :
  fsm_events (tr1 ++ tr2) = fsm_events tr1 ++ fsm_events tr2.
Proof. apply omap_app. Qed.

Lemma fired_stages_dispatch_stage b i e :
  fired_stages (dispatch b (at_stage i) e) =
  match callback b with Some _ => [i] | None => [] end.
Proof. unfold dispatch. by destruct (callback b). Qed.

Lemma fired_stages_dispatch_fsm b s e :
  (forall i, s <> at_stage i) -> fired_stages (dispatch b s e) = [].
Proof.
  intros Hs. unfold dispatch. destruct (callback b); [|done].
  cbn. destruct s; try done. by destruct (Hs i).
Qed.

Lemma fired_stage_calls_at b cfg ls total i :
  fired_stages (stage_calls_at b cfg ls total i) =
  match callback b with
  | Some _ => if fires cfg ls total i then [i] else []
  | None => []
  end.
Proof.
  unfold stage_calls_at, fires, due.
  destruct (cfg !! i) as [c|], (ls !! i) as [[|]|];
    try (by destruct (callback b)).
  destruct (total >=? threshold c).
  - rewrite fired_stages_dispatch_stage. by destruct (callback b).
  - by destruct (callback b).
Qed.

Lemma filter_seq_S (f : nat -> bool) n :
  List.filter f (seq 0 (Datatypes.S n)) =
  List.filter f (seq 0 n) ++ (if f n then [n] else []).
Proof. rewrite seq_S, List.filter_app. cbn. by destruct (f n). Qed.

(** With a handler registered, the scan invokes it for exactly the stages
    that fire, in ascending index order. *)
Lemma fired_stage_calls b cfg ls total n :
  fired_stages (stage_calls b cfg ls total n) =
  match callback b with
  | Some _ => List.filter (fires cfg ls total) (seq 0 n)
  | None => []
  end.
Proof.
  induction n as [|n IH].
  - cbn. by destruct (callback b).
  - rewrite stage_calls_S, fired_stages_app, IH, fired_stage_calls_at.
    rewrite filter_seq_S. destruct (callback b); [done|by rewrite app_nil_r].
Qed.

Lemma filter_seq_sorted (f : nat -> bool) n :
  StronglySorted lt (List.filter f (seq 0 n)).
Proof.
  induction n as [|n IH]; [constructor|].
  rewrite filter_seq_S. apply StronglySorted_app_2; [|done|].
  - intros x y Hx Hy. apply list_elem_of_In, List.filter_In in Hx.
    destruct Hx as [Hx _]. apply List.in_seq in Hx.
    destruct (f n); [|by apply elem_of_nil in Hy].
    apply list_elem_of_singleton in Hy. lia.
  - destruct (f n); repeat constructor.
Qed.

Lemma fired_stage_calls_elem b cfg ls total n j :
  j ∈ fired_stages (stage_calls b cfg ls total n) ->
  (j < n)%nat /\ fires cfg ls total j = true.
Proof.
  rewrite fired_stage_calls. destruct (callback b).
  - intros H. apply list_elem_of_In, List.filter_In in H.
    destruct H as [H ?]. apply List.in_seq in H. split; [lia|done].
  - intros H. by apply elem_of_nil in H.
Qed.

Lemma fired_stage_calls_sorted b cfg ls total n :
  StronglySorted lt (fired_stages (stage_calls b cfg ls total n)).
Proof.
  rewrite fired_stage_calls. destruct (callback b); [|constructor].
  apply filter_seq_sorted.
Qed.

Lemma fired_hold_calls b t : fired_stages (hold_calls b t) = [].
Proof.
  unfold hold_calls. destruct (hold_due b t); [|done].
  by apply fired_stages_dispatch_fsm.
Qed.

Lemma fires_spec cfg ls total i :
  fires cfg ls total i = true <->
  ls !! i = Some false /\
  exists c, cfg !! i = Some c /\ threshold c <= total.
Proof.
  unfold fires, due. destruct (ls !! i) as [[|]|]; try (split; [done|]; by intros [? _]).
  destruct (cfg !! i) as [c|].
  - rewrite geb_true. split.
    + intros H. split; [done|]. by exists c.
    + intros [_ (c' & Hc & H)]. by inversion Hc; subst.
  - split; [done|]. by intros [_ (c' & ? & _)].
Qed.

Lemma strongly_sorted_lookup {A} (R : relation A) (l : list A) a c x y :
  StronglySorted R l -> (a < c)%nat ->
  l !! a = Some x -> l !! c = Some y -> R x y.
Proof.
  intros Hs. revert a c. induction Hs as [|z l Hs IH Hall]; intros a c Hac Ha Hc.
  - by rewrite lookup_nil in Ha.
  - destruct c as [|c]; [lia|]. cbn in Hc. destruct a as [|a]; cbn in Ha.
    + inversion Ha; subst. rewrite Forall_forall in Hall.
      apply Hall. by eapply list_elem_of_lookup_2.
    + eapply IH; [|done..]. lia.
Qed.

Lemma strongly_sorted_irrefl_NoDup {A} (R : relation A) (l : list A) :
  (forall x, ~ R x x) -> StronglySorted R l -> NoDup l.
Proof.
  intros Hirr Hs. induction Hs as [|z l Hs IH Hall]; constructor; [|done].
  intros Hin. rewrite Forall_forall in Hall. by apply (Hirr z), Hall.
Qed.

(** *** Polls while the button is held *)

Lemma fsm_events_hold_calls b t : Forall hold_event (fsm_events (hold_calls b t)).
Proof.
  unfold hold_calls, dispatch.
  destruct (hold_due b t), (callback b); cbn; try constructor.
  - by right.
  - constructor.
Qed.

Lemma fsm_events_stage_calls b cfg ls total n :
  fsm_events (stage_calls b cfg ls total n) = [].
Proof.
  induction n as [|n IH]; [done|].
  rewrite stage_calls_S, fsm_events_app, IH. cbn.
  unfold stage_calls_at, dispatch.
  destruct (cfg !! n) as [c|], (ls !! n) as [[|]|]; try done.
  by destruct (total >=? threshold c), (callback b).
Qed.

Lemma attached_insert b b' ram cfg p ls ls' :
  attached b ram cfg p ls ->
  stages b' = stages b -> length ls' = length ls ->
  attached b' (<[p := ls']> ram) cfg p ls'.
Proof.
  intros (Hc & Hl & Hp & Hn1 & Hn2) Hs Hlen. unfold attached.
  rewrite Hs, Hlen, lookup_insert_eq. done.
Qed.

(** One poll with the button held down, from state Pressed or LongPressed. *)
Lemma holding_step b ram cfg p ls t :
  attached b ram cfg p ls -> held b ->
  exists b1 ls1 tr1,
    fsm_switch b ram true t = Some (b1, <[p := ls1]> ram, tr1) /\
    held b1 /\ stages b1 = stages b /\
    callback b1 = callback b /\ context b1 = context b /\
    length ls1 = length ls /\
    (forall j, ls !! j = Some true -> ls1 !! j = Some true) /\
    (forall j, ls1 !! j = Some false -> ls !! j = Some false) /\
    (forall j, j ∈ fired_stages tr1 ->
               (j < Z.to_nat (count (stages b)))%nat /\
               ls !! j = Some false /\ ls1 !! j = Some true) /\
    (forall i j, i ∈ fired_stages tr1 ->
                 (j < Z.to_nat (count (stages b)))%nat ->
                 ls1 !! j = Some false -> thr_lt cfg i j) /\
    StronglySorted lt (fired_stages tr1) /\
    Forall hold_event (fsm_events tr1).
Proof.
  intros Hatt [Hst|Hst].
  - (* Pressed: the latches are not touched *)
    pose proof Hatt as (Hc & Hl & Hp & Hn1 & Hn2).
    unfold fsm_switch, handle_state_pressed. rewrite Hst. cbn [negb].
    destruct (sub32 t (last_change_tick b) >=? BUTTON_LONG_PRESS_TICKS).
    + eexists _, ls, _. rewrite insert_id by done.
      split; [reflexivity|].
      rewrite fired_stages_dispatch_fsm by done.
      split_and!; try done; try (by constructor); try (by right);
        try (intros ? Hi; by apply elem_of_nil in Hi);
        try (intros ? ? Hi; by apply elem_of_nil in Hi).
      unfold dispatch. cbn. destruct (callback b); cbn; repeat constructor.
    + eexists b, ls, []. rewrite insert_id by done.
      split; [reflexivity|].
      split_and!; try done; try (by constructor); try (by left);
        try (intros ? Hi; by apply elem_of_nil in Hi);
        try (intros ? ? Hi; by apply elem_of_nil in Hi).
  - (* LongPressed: stage scan, then hold repeat *)
    pose proof Hatt as (Hc & Hl & Hp & Hn1 & Hn2).
    set (total := sub32 t (press_start_tick b)).
    set (n := Z.to_nat (count (stages b))) in *.
    exists (after_hold b t), (scan_latches cfg total n ls),
      (stage_calls b cfg ls total n ++ hold_calls b t).
    unfold fsm_switch. rewrite Hst.
    split; [by apply long_pressed_closed|].
    rewrite fired_stages_app, fired_hold_calls, app_nil_r.
    assert (Hfalse : forall j, (j < n)%nat ->
              scan_latches cfg total n ls !! j = Some false ->
              ls !! j = Some false /\ due cfg total j = false).
    { intros j Hj. rewrite scan_latches_lookup.
      destruct (ls !! j) as [l|]; cbn; [|done].
      case_decide; [|lia]. intros [= H0].
      apply orb_false_iff in H0 as [-> ?]. done. }
    unfold after_hold. split_and!.
    + unfold held. destruct (hold_due b t); by right.
    + by destruct (hold_due b t).
    + by destruct (hold_due b t).
    + by destruct (hold_due b t).
    + apply scan_latches_length.
    + intros j Hj. rewrite scan_latches_lookup, Hj. cbn. by case_decide.
    + intros j. rewrite scan_latches_lookup.
      destruct (ls !! j) as [l|]; cbn; [|done].
      case_decide; [|done]. intros [= H0].
      by apply orb_false_iff in H0 as [-> _].
    + intros j Hj. apply fired_stage_calls_elem in Hj as [Hj Hf].
      split; [done|]. rewrite scan_latches_lookup. unfold fires in Hf.
      destruct (ls !! j) as [[|]|]; try done. cbn.
      case_decide; [|lia]. by rewrite Hf.
    + intros i j Hi Hj Hls.
      apply fired_stage_calls_elem in Hi as [Hi Hf].
      apply fires_spec in Hf as (_ & ci & Hci & Hle).
      apply Hfalse in Hls as [_ Hd]; [|done].
      destruct (lookup_lt_is_Some_2 cfg j) as [cj Hcj]; [lia|].
      unfold due in Hd. rewrite Hcj in Hd. apply geb_false in Hd.
      exists ci, cj. split_and!; [done..|lia].
    + apply fired_stage_calls_sorted.
    + rewrite fsm_events_app, fsm_events_stage_calls. cbn.
      apply fsm_events_hold_calls.
Qed.

Lemma strongly_sorted_weaken {A} (R R' : relation A) (l : list A) :
  StronglySorted R l ->
  (forall x y, x ∈ l -> y ∈ l -> R x y -> R' x y) ->
  StronglySorted R' l.
Proof.
  intros Hs. induction Hs as [|z l Hs IH Hall]; intros Himp; constructor.
  - apply IH. intros x y Hx Hy. apply Himp; by right.
  - rewrite Forall_forall in *. intros y Hy.
    apply Himp; [by left|by right|by apply Hall].
Qed.

(** Any number of polls with the button held down, from state Pressed or
    LongPressed: the run is defined, latches only go up, a stage that fires
    had its latch unset at the start, and stages fire in threshold order. *)
Lemma run_holding samples :
  forall b ram cfg p ls,
    attached b ram cfg p ls -> held b ->
    Forall (fun s : bool * Z => s.1 = true) samples ->
    exists b' ls' tr,
      run b ram samples = Some (b', <[p := ls']> ram, tr) /\
      held b' /\ stages b' = stages b /\
      callback b' = callback b /\ context b' = context b /\
      length ls' = length ls /\
      (forall j, ls !! j = Some true -> ls' !! j = Some true) /\
      (forall j, ls' !! j = Some false -> ls !! j = Some false) /\
      (forall j, j ∈ fired_stages tr ->
                 (j < Z.to_nat (count (stages b)))%nat /\
                 ls !! j = Some false /\ ls' !! j = Some true) /\
      (increasing cfg (Z.to_nat (count (stages b))) ->
       StronglySorted (thr_lt cfg) (fired_stages tr)) /\
      Forall hold_event (fsm_events tr).
Proof.
  induction samples as [|[pr t] rest IH]; intros b ram cfg p ls Hatt Hheld Hall.
  - exists b, ls, []. cbn. destruct Hatt as (_ & _ & Hp & _).
    rewrite insert_id by done.
    split_and!; try done; try (by constructor).
    intros j Hj. by apply elem_of_nil in Hj.
  - inversion Hall as [|? ? Hpr Hrest]; subst. cbn in Hpr. subst pr.
    destruct (holding_step b ram cfg p ls t Hatt Hheld)
      as (b1 & ls1 & tr1 & Hstep & Hheld1 & Hst1 & Hcb1 & Hctx1 & Hlen1
          & Hup1 & Hdown1 & Hfired1 & Hcross1 & Hsort1 & Hev1).
    assert (Hatt1 : attached b1 (<[p := ls1]> ram) cfg p ls1)
      by (by eapply attached_insert).
    destruct (IH b1 _ cfg p ls1 Hatt1 Hheld1 Hrest)
      as (b2 & ls2 & tr2 & Hrun & Hheld2 & Hst2 & Hcb2 & Hctx2 & Hlen2
          & Hup2 & Hdown2 & Hfired2 & Hsort2 & Hev2).
    rewrite insert_insert_eq in Hrun. rewrite Hst1 in *.
    exists b2, ls2, (tr1 ++ tr2). cbn [run]. rewrite Hstep, Hrun.
    rewrite fired_stages_app, fsm_events_app.
    split_and!; try done; try congruence.
    + auto.
    + auto.
    + intros j Hj. apply elem_of_app in Hj as [Hj|Hj].
      * apply Hfired1 in Hj as (? & ? & ?). auto.
      * apply Hfired2 in Hj as (? & ? & ?). auto.
    + intros Hinc. apply StronglySorted_app_2.
      * intros i j Hi Hj. apply Hfired2 in Hj as (Hj & Hj1 & _).
        by apply (Hcross1 i j).
      * eapply strongly_sorted_weaken; [exact Hsort1|].
        intros x y Hx Hy Hlt. apply Hinc.
        apply Hfired1 in Hy as (? & _). lia.
      * auto.
    + by apply Forall_app.
Qed.

Lemma run_app samples1 samples2 :
  forall b ram,
    run b ram (samples1 ++ samples2) =
    match run b ram samples1 with
    | None => None
    | Some (b1, ram1, tr1) =>
        match run b1 ram1 samples2 with
        | None => None
        | Some (b2, ram2, tr2) => Some (b2, ram2, tr1 ++ tr2)
        end
    end.
Proof.
  induction samples1 as [|[pr t] rest IH]; intros b ram.
  - cbn. by destruct (run b ram samples2) as [[[? ?] ?]|].
  - cbn. destruct (fsm_switch b ram pr t) as [[[b1 ram1] tr1]|]; [|done].
    rewrite IH. destruct (run b1 ram1 rest) as [[[b2 ram2] tr2]|]; [|done].
    destruct (run b2 ram2 samples2) as [[[b3 ram3] tr3]|]; [|done].
    by rewrite app_assoc.
Qed.

Lemma run_one b ram pr t :
  run b ram [(pr, t)] =
  match fsm_switch b ram pr t with
  | None => None
  | Some (b1, ram1, tr1) => Some (b1, ram1, tr1)
  end.
Proof.
  cbn. destruct (fsm_switch b ram pr t) as [[[b1 ram1] tr1]|]; [|done].
  by rewrite app_nil_r.
Qed.

(** The poll that sees the button released, from Pressed or LongPressed. *)
Lemma release_step b ram cfg p ls t :
  attached b ram cfg p ls -> held b ->
  exists s ls',
    fsm_switch b ram false t =
    Some (set_last_state STATE_IDLE b, <[p := ls']> ram,
          dispatch b s BUTTON_EVENT_RELEASED) /\
    (last_state b = STATE_PRESSED /\ s = at_pressed_release /\ ls' = ls \/
     last_state b = STATE_LONG_PRESSED /\ s = at_long_release /\
     ls' = clear_latches (Z.to_nat (count (stages b))) ls).
Proof.
  intros Hatt [Hst|Hst].
  - exists at_pressed_release, ls. destruct Hatt as (_ & _ & Hp & _).
    rewrite insert_id by done. unfold fsm_switch. rewrite Hst.
    split; [reflexivity|]. by left.
  - exists at_long_release, (clear_latches (Z.to_nat (count (stages b))) ls).
    unfold fsm_switch. rewrite Hst.
    split; [by eapply long_release_closed|]. by right.
Qed.

Lemma run_cycle samples b ram cfg p ls :
  attached b ram cfg p ls -> held b -> cycle_samples samples ->
  exists b' ls' tr,
    run b ram samples = Some (b', <[p := ls']> ram, tr) /\
    stages b' = stages b /\ length ls' = length ls /\
    (forall j, j ∈ fired_stages tr ->
               (j < Z.to_nat (count (stages b)))%nat /\ ls !! j = Some false) /\
    (increasing cfg (Z.to_nat (count (stages b))) ->
     StronglySorted (thr_lt cfg) (fired_stages tr)).
Proof.
  intros Hatt Hheld (holding & closing & -> & Hall & Hclose).
  destruct (run_holding holding b ram cfg p ls Hatt Hheld Hall)
    as (b1 & ls1 & tr1 & Hrun & Hheld1 & Hst1 & Hcb1 & Hctx1 & Hlen1
        & Hup1 & Hdown1 & Hfired1 & Hsort1 & Hev1).
  rewrite run_app, Hrun.
  destruct Hclose as [->|[t ->]].
  - exists b1, ls1, tr1. cbn. rewrite app_nil_r.
    split_and!; try done. intros j Hj. by apply Hfired1 in Hj as (? & ? & ?).
  - assert (Hatt1 : attached b1 (<[p := ls1]> ram) cfg p ls1)
      by (by eapply attached_insert).
    destruct (release_step b1 _ cfg p ls1 t Hatt1 Hheld1)
      as (s & ls2 & Hrel & Hcase).
    rewrite run_one, Hrel, insert_insert_eq.
    exists (set_last_state STATE_IDLE b1), ls2,
      (tr1 ++ dispatch b1 s BUTTON_EVENT_RELEASED).
    assert (Hs : forall i, s <> at_stage i)
      by (intros i; destruct Hcase as [(_ & -> & _)|(_ & -> & _)]; done).
    rewrite fired_stages_app, fired_stages_dispatch_fsm, app_nil_r by done.
    split_and!; try done.
    + destruct Hcase as [(_ & _ & ->)|(_ & _ & ->)]; [done|].
      by rewrite clear_latches_length.
    + intros j Hj. by apply Hfired1 in Hj as (? & ? & ?).
Qed.

(** * The stage scan *)

(** C1.  In state LongPressed with the button still pressed, a poll visits
    the configured stages in ascending index order and, for every stage whose
    latch is unset and whose threshold is at most
    [total = current_tick - press_start_tick], sets the latch and dispatches
    the stage's event; all such stages fire in that same poll.  Over a press
    cycle with a validated configuration every stage fires at most once, and
    a stage that fires before another has the smaller threshold. *)
Theorem stage_scan_fires_once_in_threshold_order b ram cfg p ls :
  attached b ram cfg p ls ->
  let n := Z.to_nat (count (stages b)) in
  (last_state b = STATE_LONG_PRESSED ->
   forall t,
     let total := sub32 t (press_start_tick b) in
     exists b',
       fsm_switch b ram true t =
       Some (b', <[p := scan_latches cfg total n ls]> ram,
             stage_calls b cfg ls total n ++ hold_calls b t) /\
       (forall i c l,
           (i < n)%nat -> cfg !! i = Some c -> ls !! i = Some l ->
           scan_latches cfg total n ls !! i
           = Some (l || (threshold c <=? total))) /\
       (forall i, (n <= i)%nat -> scan_latches cfg total n ls !! i = ls !! i) /\
       fired_stages (stage_calls b cfg ls total n ++ hold_calls b t) =
       match callback b with
       | Some _ => List.filter (fires cfg ls total) (seq 0 n)
       | None => []
       end) /\
  (held b -> increasing cfg n ->
   forall samples,
     cycle_samples samples ->
     exists b' ram' tr,
       run b ram samples = Some (b', ram', tr) /\
       NoDup (fired_stages tr) /\
       forall a c i j,
         (a < c)%nat ->
         fired_stages tr !! a = Some i -> fired_stages tr !! c = Some j ->
         thr_lt cfg i j).
Proof.
  intros Hatt n. split.
  - intros Hst t total. exists (after_hold b t). split_and!.
    + unfold fsm_switch. rewrite Hst. by apply long_pressed_closed.
    + intros i c l Hi Hc Hl. rewrite scan_latches_lookup, Hl. cbn.
      case_decide; [|lia]. unfold due. rewrite Hc. by rewrite Z.geb_leb.
    + intros i Hi. rewrite scan_latches_lookup.
      destruct (ls !! i); cbn; [|done]. case_decide; [lia|done].
    + by rewrite fired_stages_app, fired_hold_calls, app_nil_r,
        fired_stage_calls.
  - intros Hheld Hinc samples Hcyc.
    destruct (run_cycle samples b ram cfg p ls Hatt Hheld Hcyc)
      as (b' & ls' & tr & Hrun & _ & _ & _ & Hsort).
    exists b', (<[p := ls']> ram), tr. specialize (Hsort Hinc).
    split_and!; [done| |].
    + eapply strongly_sorted_irrefl_NoDup; [|exact Hsort].
      apply thr_lt_irrefl.
    + intros a c i j Hac Hi Hj. by eapply strongly_sorted_lookup.
Qed.

Lemma demo_long_attached : attached demo_long demo_ram demo_cfg 7 [false; false].
Proof. unfold attached. cbn. split_and!; try reflexivity; lia. Qed.

Lemma stage_scan_fires_once_in_threshold_order_witness :
  attached demo_long demo_ram demo_cfg 7 [false; false] /\
  exists b' tr,
    fsm_switch demo_long demo_ram true 4100
    = Some (b', <[7%nat := [true; true]]> demo_ram, tr) /\
    fired_stages tr = [0%nat; 1%nat].
Proof.
  split; [exact demo_long_attached|].
  destruct (stage_scan_fires_once_in_threshold_order
              demo_long demo_ram demo_cfg 7 [false; false] demo_long_attached)
    as [Hpoll _].
  destruct (Hpoll eq_refl 4100) as (b' & Hs & _ & _ & Hf).
  exists b'. eexists. split; [exact Hs|exact Hf].
Defined.

(** * The hold repeat *)

Lemma long_pressed_unstaged b ram t :
  unstaged b ->
  handle_state_long b ram true t = Some (after_hold b t, ram, hold_calls b t).
Proof.
  intros [Hc Hl]. unfold handle_state_long. cbn [negb]. rewrite Hc.
  unfold after_hold, hold_calls, hold_due. cbn [app].
  destruct (sub32 t (press_start_tick b) >=? BUTTON_LONG_PRESS_TICKS);
    cbn [andb]; [|done].
  by destruct (sub32 t (last_hold_tick b) >=? BUTTON_HOLD_TICKS).
Qed.

Lemma long_release_unstaged b ram t :
  unstaged b ->
  handle_state_long b ram false t =
  Some (set_last_state STATE_IDLE b, ram,
        dispatch b at_long_release BUTTON_EVENT_RELEASED).
Proof.
  intros [Hc Hl]. unfold handle_state_long. cbn [negb set_last_state stages].
  by rewrite Hl.
Qed.

Lemma stage_calls_elem b cfg ls total n x :
  x ∈ stage_calls b cfg ls total n ->
  exists i c, (i < n)%nat /\ cfg !! i = Some c /\
              site x = at_stage i /\ ev x = event c.
Proof.
  induction n as [|n IH]; [intros H; by apply elem_of_nil in H|].
  rewrite stage_calls_S. intros [H|H]%elem_of_app.
  - destruct (IH H) as (i & c & ? & ? & ? & ?). exists i, c. split_and!; auto.
  - unfold stage_calls_at, dispatch in H.
    destruct (cfg !! n) as [c|] eqn:Ec, (ls !! n) as [[|]|];
      try (by apply elem_of_nil in H).
    destruct (total >=? threshold c), (callback b);
      try (by apply elem_of_nil in H).
    apply list_elem_of_singleton in H. subst x. exists n, c. cbn. auto.
Qed.

Lemma after_hold_stages b t : stages (after_hold b t) = stages b.
Proof. unfold after_hold. by destruct (hold_due b t). Qed.

Lemma after_hold_state b t : last_state (after_hold b t) = last_state b.
Proof. unfold after_hold. by destruct (hold_due b t). Qed.

(** One poll in LongPressed with the button still pressed, attached or
    not: the stage part of the trace, then the hold part. *)
Lemma long_pressed_poll b ram t :
  well_formed b ram -> last_state b = STATE_LONG_PRESSED ->
  exists ram' stage_tr,
    fsm_switch b ram true t =
    Some (after_hold b t, ram', stage_tr ++ hold_calls b t) /\
    well_formed (after_hold b t) ram' /\
    fsm_events stage_tr = [] /\
    forall x, x ∈ stage_tr ->
      exists cfg i c, configs (stages b) = Some cfg /\ cfg !! i = Some c /\
                      site x = at_stage i /\ ev x = event c.
Proof.
  intros [Hun|(cfg & p & ls & Hatt)] Hst; unfold fsm_switch; rewrite Hst.
  - exists ram, []. rewrite long_pressed_unstaged by done.
    split_and!; try done.
    + left. unfold unstaged. by rewrite after_hold_stages.
    + intros x Hx. by apply elem_of_nil in Hx.
  - eexists _, _. rewrite (long_pressed_closed b ram cfg p ls) by done.
    split_and!; [reflexivity| | |].
    + right. exists cfg, p. eexists. eapply attached_insert; [done| |].
      * apply after_hold_stages.
      * apply scan_latches_length.
    + apply fsm_events_stage_calls.
    + intros x Hx. apply stage_calls_elem in Hx as (i & c & ? & ? & ? & ?).
      exists cfg, i, c. destruct Hatt as (? & _). auto.
Qed.

Lemma filter_none {A} (f : A -> bool) (l : list A) :
  (forall x, x ∈ l -> f x = false) -> List.filter f l = [].
Proof.
  induction l as [|a l IH]; intros H; [done|]. cbn.
  rewrite (H a) by by left. apply IH. intros x Hx. apply H. by right.
Qed.

Lemma fsm_events_dispatch b s e :
  (forall i, s <> at_stage i) ->
  fsm_events (dispatch b s e) =
  match callback b with Some _ => [e] | None => [] end.
Proof.
  intros Hs. unfold dispatch. destruct (callback b); [|done].
  cbn. destruct s; try done. by destruct (Hs i).
Qed.

Lemma filter_hold_calls b t : List.filter is_hold (hold_calls b t) = hold_calls b t.
Proof.
  unfold hold_calls, dispatch. by destruct (hold_due b t), (callback b).
Qed.

(** C2.  In state LongPressed with the button still pressed, a poll at
    which [total = current_tick - press_start_tick] has reached
    LONG_PRESS_TICKS and [current_tick - last_hold_tick] has reached
    HOLD_TICKS sets [last_hold_tick] to [current_tick] and dispatches exactly
    one Hold; a poll at which [current_tick - last_hold_tick] is below
    HOLD_TICKS (or [total] below LONG_PRESS_TICKS) dispatches none and keeps
    [last_hold_tick]; so no Hold is dispatched by any number of polls taken
    less than HOLD_TICKS after the recorded one.  On entry to LongPressed
    both ticks are the entry tick, so the first Hold comes with the first
    poll at which [total] has reached LONG_PRESS_TICKS.  This is the claim
    as amended: the Hold counted is that of the hold repeat (line 151), and
    it is every Hold the poll delivers when no stage is configured with the
    Hold event; a stage that carries Hold is dispatched by the stage scan
    at its threshold, whatever the cadence. *)
Theorem hold_repeat_cadence b ram :
  well_formed b ram -> last_state b = STATE_LONG_PRESSED ->
  (forall t,
      let total := sub32 t (press_start_tick b) in
      let since := sub32 t (last_hold_tick b) in
      exists b' ram' stage_tr hold_tr,
        fsm_switch b ram true t = Some (b', ram', stage_tr ++ hold_tr) /\
        fsm_events stage_tr = [] /\
        (BUTTON_LONG_PRESS_TICKS <= total -> BUTTON_HOLD_TICKS <= since ->
         last_hold_tick b' = t /\
         hold_tr = dispatch b at_hold BUTTON_EVENT_HOLD /\
         fsm_events (stage_tr ++ hold_tr) =
         match callback b with
         | Some _ => [BUTTON_EVENT_HOLD]
         | None => []
         end) /\
        (since < BUTTON_HOLD_TICKS \/ total < BUTTON_LONG_PRESS_TICKS ->
         last_hold_tick b' = last_hold_tick b /\ hold_tr = [] /\
         fsm_events (stage_tr ++ hold_tr) = []) /\
        (last_hold_tick b = press_start_tick b ->
         BUTTON_LONG_PRESS_TICKS <= total ->
         hold_tr = dispatch b at_hold BUTTON_EVENT_HOLD) /\
        (no_stage_event b BUTTON_EVENT_HOLD ->
         List.filter is_hold (stage_tr ++ hold_tr) = hold_tr)) /\
  (forall samples,
      Forall (fun s : bool * Z =>
                s.1 = true /\
                sub32 s.2 (last_hold_tick b) < BUTTON_HOLD_TICKS) samples ->
      exists b' ram' tr,
        run b ram samples = Some (b', ram', tr) /\
        last_hold_tick b' = last_hold_tick b /\
        fsm_events tr = []) /\
  (forall b0 t0,
      last_state b0 = STATE_PRESSED ->
      BUTTON_LONG_PRESS_TICKS <= sub32 t0 (last_change_tick b0) ->
      exists b1 tr,
        handle_state_pressed b0 true t0 = (b1, tr) /\
        last_state b1 = STATE_LONG_PRESSED /\
        press_start_tick b1 = t0 /\ last_hold_tick b1 = t0).
Proof.
  intros Hwf Hst. split_and!.
  - intros t total since.
    destruct (long_pressed_poll b ram t Hwf Hst)
      as (ram' & stage_tr & Hs & _ & Hev & Hstage).
    exists (after_hold b t), ram', stage_tr, (hold_calls b t).
    rewrite fsm_events_app, Hev. cbn [app].
    unfold after_hold, hold_calls, hold_due. fold total since.
    split; [done|]. split; [done|]. split_and!.
    + intros H1 H2. apply geb_true in H1, H2. rewrite H1, H2. cbn.
      split_and!; [done..|]. by apply fsm_events_dispatch.
    + intros [H|H]; apply geb_false in H; rewrite H;
        rewrite ?andb_false_r; done.
    + intros Heq H1.
      assert (H2 : BUTTON_HOLD_TICKS <= since).
      { subst total since. rewrite Heq.
        unfold BUTTON_HOLD_TICKS, BUTTON_LONG_PRESS_TICKS in *. lia. }
      apply geb_true in H1, H2. by rewrite H1, H2.
    + intros Hno. rewrite List.filter_app.
      rewrite (filter_none is_hold stage_tr).
      * cbn. apply filter_hold_calls.
      * intros x Hx. apply Hstage in Hx as (cfg & i & c & Hc & Hi & _ & He).
        unfold is_hold. rewrite He. apply bool_decide_eq_false.
        apply (Hno cfg c Hc). by eapply list_elem_of_lookup_2.
  - intros samples. revert b ram Hwf Hst.
    induction samples as [|[pr t] rest IH]; intros b ram Hwf Hst Hall.
    + by exists b, ram, [].
    + inversion Hall as [|? ? [Hpr Hlt] Hrest]; subst. cbn in Hpr, Hlt.
      subst pr.
      destruct (long_pressed_poll b ram t Hwf Hst)
        as (ram1 & stage_tr & Hs & Hwf1 & Hev & _).
      assert (Hnot : hold_due b t = false).
      { unfold hold_due. apply geb_false in Hlt. rewrite Hlt.
        apply andb_false_r. }
      unfold after_hold, hold_calls in Hs, Hwf1. rewrite Hnot in Hs, Hwf1.
      destruct (IH b ram1 Hwf1 Hst Hrest) as (b2 & ram2 & tr2 & Hrun & Hh & Hev2).
      exists b2, ram2, ((stage_tr ++ []) ++ tr2). cbn [run].
      rewrite Hs, Hrun. split_and!; [done..|].
      by rewrite !fsm_events_app, Hev, Hev2.
  - intros b0 t0 H0 Hge. unfold handle_state_pressed. cbn [negb].
    apply geb_true in Hge. rewrite Hge. by eexists _, _.
Qed.

Lemma demo_long_well_formed : well_formed demo_long demo_ram.
Proof. right. exists demo_cfg, 7%nat, [false; false]. apply demo_long_attached. Qed.

Lemma demo_cfg_events b e :
  configs (stages b) = Some demo_cfg ->
  e <> BUTTON_EVENT_SUPER_LONG_PRESSED -> no_stage_event b e.
Proof.
  intros Hb He cfg c Hc Hin. rewrite Hb in Hc. injection Hc as <-.
  unfold demo_cfg in Hin.
  repeat (apply elem_of_cons in Hin as [->|Hin]; [cbn; congruence|]).
  by apply elem_of_nil in Hin.
Qed.

Lemma hold_repeat_cadence_witness :
  well_formed demo_long demo_ram /\
  last_state demo_long = STATE_LONG_PRESSED /\
  no_stage_event demo_long BUTTON_EVENT_HOLD /\
  exists b' ram' tr,
    fsm_switch demo_long demo_ram true 2100 = Some (b', ram', tr) /\
    last_hold_tick b' = 2100 /\
    fsm_events tr = [BUTTON_EVENT_HOLD] /\
    List.filter is_hold tr = dispatch demo_long at_hold BUTTON_EVENT_HOLD.
Proof.
  assert (Hno : no_stage_event demo_long BUTTON_EVENT_HOLD)
    by (by apply demo_cfg_events).
  split; [exact demo_long_well_formed|]. split; [reflexivity|].
  split; [exact Hno|].
  destruct (hold_repeat_cadence demo_long demo_ram
              demo_long_well_formed eq_refl) as [Hpoll _].
  destruct (Hpoll 2100)
    as (b' & ram' & stage_tr & hold_tr & Hs & _ & Hfire & _ & _ & Hall).
  destruct Hfire as (Hh & Htr & Hev); [vm_compute; discriminate..|].
  exists b', ram', (stage_tr ++ hold_tr). split; [exact Hs|].
  split; [exact Hh|]. split; [exact Hev|].
  rewrite <- Htr. exact (Hall Hno).
Defined.

(** C2, the claim as first stated fails.  The array [hold_stage_cfg], one
    stage at 1020 ticks carrying the Hold event, is accepted by
    [Button_ConfigStages].  After a press validated at 60 and a long press
    entered at 1060, a Hold at 2070 and a poll at 2085, only 15 ticks later,
    delivers Hold again: the stage scan of line 142 dispatches it, 1025
    ticks into the long press.  Polled at 2100 instead of 2070, the same
    button delivers two Holds in that one poll, one from the stage scan and
    one from the hold repeat. *)
Lemma hold_repeat_cadence_counterexample :
  Button_ConfigStages (Some demo_plain) (Some hold_stage_cfg) (Some 7%nat) 1
  = Some (BUTTON_OK, Some (one_stage hold_stage_cfg)) /\
  last_state (one_stage hold_stage_cfg) = STATE_IDLE /\
  (exists b1 ram1 tr1 b2 ram2 tr2,
      run (one_stage hold_stage_cfg) one_latch
          [(true, 10); (true, 60); (true, 1060); (true, 2070)]
      = Some (b1, ram1, tr1) /\
      last_state b1 = STATE_LONG_PRESSED /\
      sub32 2085 (press_start_tick b1) = 1025 /\
      sub32 2085 (last_hold_tick b1) = 15 /\
      fsm_switch b1 ram1 true 2085 = Some (b2, ram2, tr2) /\
      events tr2 = [BUTTON_EVENT_HOLD]) /\
  (exists b1 ram1 tr1 b2 ram2 tr2,
      run (one_stage hold_stage_cfg) one_latch
          [(true, 10); (true, 60); (true, 1060)]
      = Some (b1, ram1, tr1) /\
      last_state b1 = STATE_LONG_PRESSED /\
      sub32 2100 (press_start_tick b1) = 1040 /\
      sub32 2100 (last_hold_tick b1) = 1040 /\
      fsm_switch b1 ram1 true 2100 = Some (b2, ram2, tr2) /\
      events tr2 = [BUTTON_EVENT_HOLD; BUTTON_EVENT_HOLD]).
Proof.
  split; [reflexivity|]. split; [reflexivity|]. split.
  - eexists _, _, _, _, _, _.
    split; [vm_compute; reflexivity|].
    split; [reflexivity|]. split; [reflexivity|]. split; [reflexivity|].
    split; [vm_compute; reflexivity|]. reflexivity.
  - eexists _, _, _, _, _, _.
    split; [vm_compute; reflexivity|].
    split; [reflexivity|]. split; [reflexivity|]. split; [reflexivity|].
    split; [vm_compute; reflexivity|]. reflexivity.
Qed.

(** * Debounce and release *)

Lemma attached_stages b b' ram cfg p ls :
  stages b' = stages b -> attached b ram cfg p ls -> attached b' ram cfg p ls.
Proof. unfold attached. by intros ->. Qed.

Lemma well_formed_stages b b' ram :
  stages b' = stages b -> well_formed b ram -> well_formed b' ram.
Proof.
  intros Hs [[? ?]|(cfg & p & ls & Hatt)].
  - left. unfold unstaged. by rewrite Hs.
  - right. exists cfg, p, ls. by eapply attached_stages.
Qed.

(** One poll with the button held down, stage manager attached or not. *)
Lemma held_poll b ram t :
  well_formed b ram -> held b ->
  exists b1 ram1 tr1,
    fsm_switch b ram true t = Some (b1, ram1, tr1) /\
    well_formed b1 ram1 /\ held b1 /\
    callback b1 = callback b /\
    Forall hold_event (fsm_events tr1).
Proof.
  intros Hwf [Hst|Hst].
  - unfold fsm_switch, handle_state_pressed. rewrite Hst. cbn [negb].
    destruct (sub32 t (last_change_tick b) >=? BUTTON_LONG_PRESS_TICKS).
    + eexists _, _, _. split; [reflexivity|]. split_and!.
      * by eapply well_formed_stages.
      * by right.
      * done.
      * rewrite fsm_events_dispatch by done. cbn.
        destruct (callback b); repeat constructor.
    + exists b, ram, []. split_and!; try done; try (by left); by constructor.
  - destruct (long_pressed_poll b ram t Hwf Hst)
      as (ram1 & stage_tr & Hs & Hwf1 & Hev & _).
    exists (after_hold b t), ram1, (stage_tr ++ hold_calls b t).
    split_and!; try done.
    + right. by rewrite after_hold_state.
    + unfold after_hold. by destruct (hold_due b t).
    + rewrite fsm_events_app, Hev. apply fsm_events_hold_calls.
Qed.

(** The poll that sees the button released, stage manager attached or not:
    one Released is dispatched and the state is Idle. *)
Lemma released_poll b ram t :
  well_formed b ram -> held b ->
  exists s ram1,
    fsm_switch b ram false t =
    Some (set_last_state STATE_IDLE b, ram1,
          dispatch b s BUTTON_EVENT_RELEASED) /\
    (last_state b = STATE_PRESSED /\ s = at_pressed_release /\ ram1 = ram \/
     last_state b = STATE_LONG_PRESSED /\ s = at_long_release) /\
    well_formed (set_last_state STATE_IDLE b) ram1.
Proof.
  intros [Hun|(cfg & p & ls & Hatt)] Hheld.
  - destruct Hheld as [Hst|Hst]; unfold fsm_switch; rewrite Hst.
    + exists at_pressed_release, ram. split_and!; [done|by left|by left].
    + exists at_long_release, ram. rewrite long_release_unstaged by done.
      split_and!; [done|by right|by left].
  - destruct (release_step b ram cfg p ls t Hatt Hheld)
      as (s & ls' & Hs & Hcase).
    exists s, (<[p := ls']> ram). split_and!; [done| |].
    + destruct Hcase as [(? & ? & ->)|(? & ? & _)]; [left|by right].
      destruct Hatt as (_ & _ & Hp & _). by rewrite insert_id.
    + right. exists cfg, p, ls'. eapply attached_insert; [done..|].
      destruct Hcase as [(_ & _ & ->)|(_ & _ & ->)]; [done|].
      apply clear_latches_length.
Qed.

(** Any number of polls with the button held down. *)
Lemma run_held samples :
  forall b ram,
    well_formed b ram -> held b ->
    Forall (fun s : bool * Z => s.1 = true) samples ->
    exists b' ram' tr,
      run b ram samples = Some (b', ram', tr) /\
      well_formed b' ram' /\ held b' /\
      callback b' = callback b /\
      Forall hold_event (fsm_events tr).
Proof.
  induction samples as [|[pr t] rest IH]; intros b ram Hwf Hheld Hall.
  - exists b, ram, []. split_and!; try done; by constructor.
  - inversion Hall as [|? ? Hpr Hrest]; subst. cbn in Hpr. subst pr.
    destruct (held_poll b ram t Hwf Hheld)
      as (b1 & ram1 & tr1 & Hs & Hwf1 & Hheld1 & Hcb1 & Hev1).
    destruct (IH b1 ram1 Hwf1 Hheld1 Hrest)
      as (b2 & ram2 & tr2 & Hrun & Hwf2 & Hheld2 & Hcb2 & Hev2).
    exists b2, ram2, (tr1 ++ tr2). cbn [run]. rewrite Hs, Hrun.
    split_and!; try done; [congruence|].
    rewrite fsm_events_app. by apply Forall_app.
Qed.

Lemma run_idle_released samples :
  forall b ram,
    last_state b = STATE_IDLE ->
    Forall (fun s : bool * Z => s.1 = false) samples ->
    run b ram samples = Some (b, ram, []).
Proof.
  induction samples as [|[pr t] rest IH]; intros b ram Hst Hall; [done|].
  inversion Hall as [|? ? Hpr Hrest]; subst. cbn in Hpr. subst pr.
  cbn [run]. unfold fsm_switch. rewrite Hst. cbn.
  by rewrite IH.
Qed.

Lemma run_debounce_wait samples :
  forall b ram,
    last_state b = STATE_DEBOUNCE ->
    Forall (fun s : bool * Z =>
              sub32 s.2 (last_change_tick b) < BUTTON_DEBOUNCE_TICKS) samples ->
    run b ram samples = Some (b, ram, []).
Proof.
  induction samples as [|[pr t] rest IH]; intros b ram Hst Hall; [done|].
  inversion Hall as [|? ? Hlt Hrest]; subst. cbn in Hlt.
  cbn [run]. unfold fsm_switch, handle_state_debounce. rewrite Hst.
  apply geb_false in Hlt. rewrite Hlt. by rewrite IH.
Qed.

(** A poll in a state other than LongPressed does not touch the latches
    and invokes the callback for no stage. *)
Lemma other_states_frame b ram pr t :
  last_state b <> STATE_LONG_PRESSED ->
  exists b1 tr1,
    fsm_switch b ram pr t = Some (b1, ram, tr1) /\
    stages b1 = stages b /\ callback b1 = callback b /\
    context b1 = context b /\ fired_stages tr1 = [].
Proof.
  intros Hst. unfold fsm_switch.
  destruct (last_state b) eqn:E; [| | |done].
  - unfold handle_state_idle. destruct pr; by eexists _, _.
  - unfold handle_state_debounce.
    destruct (sub32 t (last_change_tick b) >=? BUTTON_DEBOUNCE_TICKS);
      [destruct pr|]; eexists _, _; (split; [reflexivity|]);
      split_and!; try done.
    by apply fired_stages_dispatch_fsm.
  - unfold handle_state_pressed. destruct pr; cbn [negb].
    + destruct (sub32 t (last_change_tick b) >=? BUTTON_LONG_PRESS_TICKS);
        eexists _, _; (split; [reflexivity|]); split_and!; try done.
      by apply fired_stages_dispatch_fsm.
    + eexists _, _. split; [reflexivity|]. split_and!; try done.
      by apply fired_stages_dispatch_fsm.
Qed.

(** A poll leaves the stage fields of the record alone. *)
Lemma fsm_switch_stages b ram pr t b' ram' tr :
  fsm_switch b ram pr t = Some (b', ram', tr) -> stages b' = stages b.
Proof.
  unfold fsm_switch. destruct (last_state b).
  - unfold handle_state_idle. destruct pr; by intros [= <- _ _].
  - unfold handle_state_debounce.
    destruct (sub32 t (last_change_tick b) >=? BUTTON_DEBOUNCE_TICKS);
      [destruct pr|]; by intros [= <- _ _].
  - unfold handle_state_pressed. destruct pr; cbn [negb].
    + destruct (sub32 t (last_change_tick b) >=? BUTTON_LONG_PRESS_TICKS);
        by intros [= <- _ _].
    + by intros [= <- _ _].
  - unfold handle_state_long. destruct pr; cbn [negb].
    + destruct (match configs (stages b) with Some _ => _ | None => _ end)
        as [[r tr0]|]; [|done].
      destruct (sub32 t (press_start_tick b) >=? BUTTON_LONG_PRESS_TICKS);
        [|by intros [= <- _ _]].
      destruct (sub32 t (last_hold_tick b) >=? BUTTON_HOLD_TICKS);
        by intros [= <- _ _].
    + destruct (match latches _ with Some _ => _ | None => _ end); [|done].
      by intros [= <- _ _].
Qed.

(** The stage scan invokes the callback with configured events only. *)
Lemma stage_scan_sites b cfg p total n :
  forall i ram tr ram' tr',
    for_range (stage_body b cfg p total) i n (ram, tr) = Some (ram', tr') ->
    forall x, x ∈ tr' ->
      x ∈ tr \/
      exists j c, cfg !! j = Some c /\ site x = at_stage j /\ ev x = event c.
Proof.
  induction n as [|n IH]; intros i ram tr ram' tr'.
  - cbn. intros [= _ <-]. auto.
  - cbn [for_range]. unfold stage_body at 1.
    destruct (cfg !! i) as [c|] eqn:Ec; [|done].
    destruct (total >=? threshold c); [|apply IH].
    destruct (ram !! p) as [ls|]; [|done].
    destruct (ls !! i) as [[|]|]; [apply IH| |done].
    intros H x Hx. destruct (IH _ _ _ _ _ H x Hx) as [Hin|?]; [|by right].
    apply elem_of_app in Hin as [?|Hin]; [by left|right].
    unfold dispatch in Hin. destruct (callback b); [|by apply elem_of_nil in Hin].
    apply list_elem_of_singleton in Hin. subst x. by exists i, c.
Qed.

(** Whatever a poll invokes from the stage scan carries the event of the
    configured stage. *)
Lemma fsm_switch_stage_events b ram pr t b' ram' tr :
  fsm_switch b ram pr t = Some (b', ram', tr) ->
  forall x i, x ∈ tr -> site x = at_stage i ->
    exists cfg c, configs (stages b) = Some cfg /\ c ∈ cfg /\ ev x = event c.
Proof.
  intros Hs x i Hx Hsite.
  destruct (decide (last_state b = STATE_LONG_PRESSED)) as [Hst|Hst].
  - unfold fsm_switch, handle_state_long in Hs. rewrite Hst in Hs.
    destruct pr; cbn [negb] in Hs.
    + destruct (configs (stages b)) as [cfg|] eqn:Ec,
               (latches (stages b)) as [p|] eqn:El.
      * destruct (for_range _ _ _ _) as [[r tr0]|] eqn:Escan; [|done].
        assert (Hin : x ∈ tr0).
        { destruct (sub32 t (press_start_tick b) >=? BUTTON_LONG_PRESS_TICKS);
            [|by inversion Hs; subst].
          destruct (sub32 t (last_hold_tick b) >=? BUTTON_HOLD_TICKS);
            inversion Hs; subst; [|done].
          apply elem_of_app in Hx as [?|Hx]; [done|].
          unfold dispatch in Hx. cbn in Hx.
          destruct (callback b); [|by apply elem_of_nil in Hx].
          apply list_elem_of_singleton in Hx. by subst x. }
        destruct (stage_scan_sites _ _ _ _ _ _ _ _ _ _ Escan x Hin)
          as [Hnil|(j & c & Hc & _ & He)]; [by apply elem_of_nil in Hnil|].
        exists cfg, c. split_and!; [done| |done].
        by eapply list_elem_of_lookup_2.
      * exfalso. hold_tests b t; inversion Hs; subst; not_a_stage Hx.
      * exfalso. hold_tests b t; inversion Hs; subst; not_a_stage Hx.
      * exfalso. hold_tests b t; inversion Hs; subst; not_a_stage Hx.
    + exfalso.
      destruct (match latches _ with Some _ => _ | None => _ end); [|done].
      inversion Hs; subst. not_a_stage Hx.
  - exfalso.
    destruct (other_states_frame b ram pr t Hst) as (b1 & tr1 & Hs1 & _ & _ & _ & Hf).
    rewrite Hs in Hs1. inversion Hs1; subst.
    assert (i ∈ fired_stages tr1); [|rewrite Hf in *; by eapply elem_of_nil].
    apply list_elem_of_omap. exists x. by rewrite Hsite.
Qed.

Lemma run_stage_events samples :
  forall b ram b' ram' tr,
    run b ram samples = Some (b', ram', tr) ->
    stages b' = stages b /\
    forall x i, x ∈ tr -> site x = at_stage i ->
      exists cfg c, configs (stages b) = Some cfg /\ c ∈ cfg /\ ev x = event c.
Proof.
  induction samples as [|[pr t] rest IH]; intros b ram b' ram' tr.
  - cbn. intros [= <- _ <-]. split; [done|].
    intros x i Hx. by apply elem_of_nil in Hx.
  - cbn [run].
    destruct (fsm_switch b ram pr t) as [[[b1 ram1] tr1]|] eqn:Es; [|done].
    destruct (run b1 ram1 rest) as [[[b2 ram2] tr2]|] eqn:Er; [|done].
    intros [= <- _ <-]. apply IH in Er as [Hst2 Hev2].
    pose proof (fsm_switch_stages _ _ _ _ _ _ _ Es) as Hst1.
    split; [congruence|].
    intros x i [Hx|Hx]%elem_of_app Hsite.
    + by eapply fsm_switch_stage_events.
    + rewrite <- Hst1. by eapply Hev2.
Qed.

Lemma fsm_events_elem tr x :
  x ∈ tr -> (forall i, site x <> at_stage i) -> ev x ∈ fsm_events tr.
Proof.
  intros Hx Hs. apply list_elem_of_omap. exists x. split; [done|].
  destruct (site x) eqn:E; try done. by destruct (Hs i).
Qed.

(** When no stage carries [e], the trace delivers [e] as often as the
    state machine's own call sites do. *)
Lemma events_without_stage e tr :
  (forall x i, x ∈ tr -> site x = at_stage i -> ev x <> e) ->
  List.filter (fun e' => bool_decide (e' = e)) (events tr) =
  List.filter (fun e' => bool_decide (e' = e)) (fsm_events tr).
Proof.
  induction tr as [|x tr IH]; intros H; [done|].
  unfold events, fsm_events. cbn.
  assert (IH' : List.filter (fun e' => bool_decide (e' = e)) (events tr) =
                List.filter (fun e' => bool_decide (e' = e)) (fsm_events tr)).
  { apply IH. intros y i Hy. apply H. by right. }
  unfold events, fsm_events in IH'.
  destruct (site x) eqn:Es; cbn; rewrite ?IH'; try done.
  rewrite bool_decide_eq_false_2; [done|].
  eapply H; [by left|done].
Qed.

(** A press cycle from its validated press on: the run is defined and the
    state machine's own call sites deliver LongPressed, Hold and Released
    only. *)
Lemma run_cycle_events samples b ram :
  well_formed b ram -> held b -> cycle_samples samples ->
  exists b' ram' tr,
    run b ram samples = Some (b', ram', tr) /\
    Forall release_event (fsm_events tr).
Proof.
  intros Hwf Hheld (holding & closing & -> & Hall & Hclose).
  destruct (run_held holding b ram Hwf Hheld Hall)
    as (b1 & ram1 & tr1 & Hrun & Hwf1 & Hheld1 & Hcb1 & Hev1).
  assert (Hev1' : Forall release_event (fsm_events tr1)).
  { eapply Forall_impl; [exact Hev1|]. intros e He. by left. }
  rewrite run_app, Hrun. destruct Hclose as [->|[t ->]].
  - exists b1, ram1, (tr1 ++ []). split; [done|]. by rewrite app_nil_r.
  - destruct (released_poll b1 ram1 t Hwf1 Hheld1)
      as (s & ram2 & Hs & Hcase & _).
    rewrite run_one, Hs. eexists _, _, _. split; [reflexivity|].
    rewrite fsm_events_app. apply Forall_app. split; [done|].
    rewrite fsm_events_dispatch
      by (intros i; destruct Hcase as [(_ & -> & _)|(_ & ->)]; done).
    destruct (callback b1); constructor; [by right|constructor].
Qed.

(** C3.  Starting from Idle: once a pressed sample at tick [t0] has started
    the debounce, polls taken less than DEBOUNCE_TICKS after [t0] change
    nothing; if the first poll at or after DEBOUNCE_TICKS sees the button
    not pressed, the state is Idle again and no callback was invoked at all
    (so no Pressed); if it sees the button pressed, exactly one Pressed is
    dispatched by the debounce, and the rest of that press dispatches no
    further Pressed from the state machine's own call sites.  This is the
    claim as amended: it is the only Pressed of that press when no stage is
    configured with the Pressed event; a stage that carries Pressed is
    dispatched by the stage scan at its threshold. *)
Theorem debounce_law b ram pre t0 mid t1 :
  last_state b = STATE_IDLE ->
  Forall (fun s : bool * Z => s.1 = false) pre ->
  Forall (fun s : bool * Z => sub32 s.2 t0 < BUTTON_DEBOUNCE_TICKS) mid ->
  BUTTON_DEBOUNCE_TICKS <= sub32 t1 t0 ->
  (exists b',
      run b ram (pre ++ (true, t0) :: mid ++ [(false, t1)])
      = Some (b', ram, []) /\
      last_state b' = STATE_IDLE) /\
  (exists b',
      run b ram (pre ++ (true, t0) :: mid ++ [(true, t1)])
      = Some (b', ram, dispatch b at_debounce BUTTON_EVENT_PRESSED) /\
      last_state b' = STATE_PRESSED /\
      fsm_events (dispatch b at_debounce BUTTON_EVENT_PRESSED) =
      match callback b with
      | Some _ => [BUTTON_EVENT_PRESSED]
      | None => []
      end /\
      (well_formed b ram ->
       forall rest,
         cycle_samples rest ->
         exists b2 ram2 tr2,
           run b' ram rest = Some (b2, ram2, tr2) /\
           (BUTTON_EVENT_PRESSED ∉ fsm_events tr2) /\
           (no_stage_event b BUTTON_EVENT_PRESSED ->
            BUTTON_EVENT_PRESSED ∉ events tr2))).
Proof.
  intros Hst Hpre Hmid Hge.
  set (bd := handle_state_idle b true t0).
  assert (Hbd : last_state bd = STATE_DEBOUNCE) by done.
  assert (Hstart : forall last,
             run b ram (pre ++ (true, t0) :: mid ++ [last]) =
             match fsm_switch bd ram last.1 last.2 with
             | None => None
             | Some (b', ram', tr) => Some (b', ram', tr)
             end).
  { intros [pr t]. rewrite run_app, run_idle_released by done.
    cbn [run]. unfold fsm_switch at 1. rewrite Hst. fold bd.
    rewrite run_app, run_debounce_wait by done. rewrite run_one.
    cbn [fst snd]. by destruct (fsm_switch bd ram pr t) as [[[? ?] ?]|]. }
  apply geb_true in Hge. split.
  - rewrite Hstart. cbn [fst snd].
    unfold fsm_switch, handle_state_debounce. rewrite Hbd.
    change (last_change_tick bd) with t0. rewrite Hge.
    by eexists.
  - rewrite Hstart. cbn [fst snd].
    unfold fsm_switch, handle_state_debounce. rewrite Hbd.
    change (last_change_tick bd) with t0. rewrite Hge.
    eexists. split; [reflexivity|]. split; [done|].
    split; [by apply fsm_events_dispatch|].
    intros Hwf rest Hcyc.
    destruct (run_cycle_events rest
                (set_last_change_tick t1 (set_last_state STATE_PRESSED bd))
                ram) as (b2 & ram2 & tr2 & Hrun & Hev); [|by left|done|].
    { by eapply well_formed_stages. }
    exists b2, ram2, tr2. split; [done|].
    assert (Hnot : BUTTON_EVENT_PRESSED ∉ fsm_events tr2).
    { intros Hin. rewrite Forall_forall in Hev.
      by destruct (Hev _ Hin) as [[?|?]|?]. }
    split; [done|].
    intros Hno Hin. apply list_elem_of_In, in_map_iff in Hin.
    destruct Hin as (x & He & Hx%list_elem_of_In).
    apply run_stage_events in Hrun as [_ Hstage].
    destruct (site x) as [| | | |i|] eqn:Es;
      try (apply Hnot; rewrite <- He; apply fsm_events_elem;
           [done|intros i; by rewrite Es]).
    destruct (Hstage x i Hx Es) as (cfg & c & Hc & Hin & Hev').
    apply (Hno cfg c Hc Hin). congruence.
Qed.

Lemma debounce_law_witness :
  last_state demo_idle = STATE_IDLE /\
  BUTTON_DEBOUNCE_TICKS <= sub32 60 10 /\
  well_formed demo_idle demo_ram /\
  no_stage_event demo_idle BUTTON_EVENT_PRESSED /\
  exists b',
    run demo_idle demo_ram
        ([(false, 0)] ++ (true, 10) :: [(true, 30)] ++ [(true, 60)])
    = Some (b', demo_ram,
            dispatch demo_idle at_debounce BUTTON_EVENT_PRESSED) /\
    last_state b' = STATE_PRESSED /\
    exists b2 ram2 tr2,
      run b' demo_ram ([(true, 1100); (true, 2700)] ++ [(false, 2800)])
      = Some (b2, ram2, tr2) /\
      (BUTTON_EVENT_PRESSED ∉ events tr2).
Proof.
  assert (Hwf : well_formed demo_idle demo_ram)
    by (eapply well_formed_stages; [|exact demo_long_well_formed]; done).
  assert (Hno : no_stage_event demo_idle BUTTON_EVENT_PRESSED)
    by (by apply demo_cfg_events).
  split; [reflexivity|]. split; [vm_compute; discriminate|].
  split; [exact Hwf|]. split; [exact Hno|].
  destruct (debounce_law demo_idle demo_ram [(false, 0)] 10 [(true, 30)] 60)
    as [_ (b' & Hrun & Hst & _ & Hrest)].
  - reflexivity.
  - repeat constructor.
  - repeat constructor.
  - vm_compute; discriminate.
  - exists b'. split; [exact Hrun|]. split; [exact Hst|].
    destruct (Hrest Hwf ([(true, 1100); (true, 2700)] ++ [(false, 2800)]))
      as (b2 & ram2 & tr2 & Hrun2 & _ & Hall).
    + exists [(true, 1100); (true, 2700)], [(false, 2800)].
      split; [reflexivity|]. split; [repeat constructor|].
      right. by exists 2800.
    + exists b2, ram2, tr2. split; [exact Hrun2|exact (Hall Hno)].
Defined.

(** C3, the claim as first stated fails.  The array [pressed_stage_cfg],
    one stage at 100 ticks carrying the Pressed event, is accepted by
    [Button_ConfigStages].  With the button sampled pressed at 10, 60, 1060
    and 1200, one press delivers Pressed twice: from the debounce at 60 and
    from the stage scan at 1200, 140 ticks into the long press. *)
Lemma debounce_law_counterexample :
  Button_ConfigStages (Some demo_plain) (Some pressed_stage_cfg)
                      (Some 7%nat) 1
  = Some (BUTTON_OK, Some (one_stage pressed_stage_cfg)) /\
  last_state (one_stage pressed_stage_cfg) = STATE_IDLE /\
  BUTTON_DEBOUNCE_TICKS <= sub32 60 10 /\
  exists b' ram' tr,
    run (one_stage pressed_stage_cfg) one_latch
        [(true, 10); (true, 60); (true, 1060); (true, 1200)]
    = Some (b', ram', tr) /\
    last_state b' = STATE_LONG_PRESSED /\
    events tr = [BUTTON_EVENT_PRESSED; BUTTON_EVENT_LONG_PRESSED;
                 BUTTON_EVENT_PRESSED] /\
    map site tr = [at_debounce; at_pressed_long; at_stage 0].
Proof.
  split; [reflexivity|]. split; [reflexivity|].
  split; [vm_compute; discriminate|].
  eexists _, _, _. split; [vm_compute; reflexivity|].
  split; [reflexivity|]. split; reflexivity.
Qed.

(** C4.  A press cycle (from a validated press, state Pressed or
    LongPressed, through any number of polls with the button held, to the
    poll that sees it released) dispatches exactly one Released: none while
    the button is held, one on the releasing poll, from Pressed as from
    LongPressed, and that poll leaves the state Idle.  States Idle and
    Debounce dispatch no Released.  This is the claim as amended: the count
    is over the state machine's own call sites, and it is the count over
    every call site when no stage is configured with the Released event; a
    stage that carries Released is dispatched by the stage scan at its
    threshold, while the button is still down. *)
Theorem one_released_per_cycle b ram holding t :
  well_formed b ram -> held b ->
  Forall (fun s : bool * Z => s.1 = true) holding ->
  (exists b1 ram1 tr1 s ram2,
      run b ram holding = Some (b1, ram1, tr1) /\
      held b1 /\
      Forall hold_event (fsm_events tr1) /\
      fsm_switch b1 ram1 false t =
      Some (set_last_state STATE_IDLE b1, ram2,
            dispatch b1 s BUTTON_EVENT_RELEASED) /\
      (last_state b1 = STATE_PRESSED /\ s = at_pressed_release \/
       last_state b1 = STATE_LONG_PRESSED /\ s = at_long_release) /\
      run b ram (holding ++ [(false, t)]) =
      Some (set_last_state STATE_IDLE b1, ram2,
            tr1 ++ dispatch b1 s BUTTON_EVENT_RELEASED) /\
      last_state (set_last_state STATE_IDLE b1) = STATE_IDLE /\
      List.filter is_released
                  (fsm_events (tr1 ++ dispatch b1 s BUTTON_EVENT_RELEASED)) =
      match callback b with
      | Some _ => [BUTTON_EVENT_RELEASED]
      | None => []
      end /\
      (no_stage_event b BUTTON_EVENT_RELEASED ->
       List.filter is_released
                   (events (tr1 ++ dispatch b1 s BUTTON_EVENT_RELEASED)) =
       match callback b with
       | Some _ => [BUTTON_EVENT_RELEASED]
       | None => []
       end)) /\
  (forall b0 ram0 pr t0,
      last_state b0 = STATE_IDLE \/ last_state b0 = STATE_DEBOUNCE ->
      exists b' tr,
        fsm_switch b0 ram0 pr t0 = Some (b', ram0, tr) /\
        BUTTON_EVENT_RELEASED ∉ fsm_events tr).
Proof.
  intros Hwf Hheld Hall. split.
  - destruct (run_held holding b ram Hwf Hheld Hall)
      as (b1 & ram1 & tr1 & Hrun & Hwf1 & Hheld1 & Hcb1 & Hev1).
    destruct (released_poll b1 ram1 t Hwf1 Hheld1)
      as (s & ram2 & Hs & Hcase & _).
    exists b1, ram1, tr1, s, ram2.
    assert (Hsite : forall i, s <> at_stage i)
      by (intros i; destruct Hcase as [(_ & -> & _)|(_ & ->)]; done).
    assert (Hfull : run b ram (holding ++ [(false, t)]) =
                    Some (set_last_state STATE_IDLE b1, ram2,
                          tr1 ++ dispatch b1 s BUTTON_EVENT_RELEASED))
      by (by rewrite run_app, Hrun, run_one, Hs).
    assert (Hone : List.filter is_released
                     (fsm_events (tr1 ++ dispatch b1 s BUTTON_EVENT_RELEASED)) =
                   match callback b with
                   | Some _ => [BUTTON_EVENT_RELEASED]
                   | None => []
                   end).
    { rewrite fsm_events_app, List.filter_app, fsm_events_dispatch by done.
      rewrite (filter_none is_released (fsm_events tr1)).
      - rewrite Hcb1. by destruct (callback b).
      - intros e He. rewrite Forall_forall in Hev1.
        destruct (Hev1 e He) as [->| ->]; done. }
    split_and!; try done.
    + destruct Hcase as [(? & ? & _)|(? & ?)]; auto.
    + intros Hno. rewrite <- Hone.
      apply (events_without_stage BUTTON_EVENT_RELEASED).
      apply run_stage_events in Hfull as [_ Hstage].
      intros x i Hx Hsx.
      destruct (Hstage x i Hx Hsx) as (cfg & c & Hc & Hin & ->).
      by apply (Hno cfg c).
  - intros b0 ram0 pr t0 [H0|H0]; unfold fsm_switch; rewrite H0.
    + eexists _, _. split; [reflexivity|]. apply not_elem_of_nil.
    + unfold handle_state_debounce.
      destruct (sub32 t0 (last_change_tick b0) >=? BUTTON_DEBOUNCE_TICKS).
      * destruct pr.
        -- eexists _, _. split; [reflexivity|].
           rewrite fsm_events_dispatch by done.
           destruct (callback _); [|apply not_elem_of_nil].
           by intros ?%list_elem_of_singleton.
        -- eexists _, _. split; [reflexivity|]. apply not_elem_of_nil.
      * eexists _, _. split; [reflexivity|]. apply not_elem_of_nil.
Qed.

Lemma demo_pressed_well_formed : well_formed demo_pressed demo_ram.
Proof.
  eapply well_formed_stages; [|exact demo_long_well_formed]. reflexivity.
Qed.

Lemma one_released_per_cycle_witness :
  well_formed demo_pressed demo_ram /\
  held demo_pressed /\
  no_stage_event demo_pressed BUTTON_EVENT_RELEASED /\
  exists b' ram' tr,
    run demo_pressed demo_ram ([(true, 500); (true, 1100)] ++ [(false, 1150)])
    = Some (b', ram', tr) /\
    last_state b' = STATE_IDLE /\
    List.filter is_released (fsm_events tr) = [BUTTON_EVENT_RELEASED] /\
    List.filter is_released (events tr) = [BUTTON_EVENT_RELEASED].
Proof.
  assert (Hno : no_stage_event demo_pressed BUTTON_EVENT_RELEASED)
    by (by apply demo_cfg_events).
  split; [exact demo_pressed_well_formed|]. split; [by left|].
  split; [exact Hno|].
  destruct (one_released_per_cycle demo_pressed demo_ram
              [(true, 500); (true, 1100)] 1150 demo_pressed_well_formed)
    as [(b1 & ram1 & tr1 & s & ram2 & _ & _ & _ & _ & _ & Hrun & Hst & Hone
         & Hall) _].
  - by left.
  - repeat constructor.
  - eexists _, _, _. split; [exact Hrun|]. split; [exact Hst|].
    split; [exact Hone|exact (Hall Hno)].
Defined.

(** C4, the claim as first stated fails.  The array [released_stage_cfg],
    one stage at 100 ticks carrying the Released event, is accepted by
    [Button_ConfigStages].  From the validated press at 60, the cycle held
    at 1060 and 1200 and released at 1300 delivers Released twice: from the
    stage scan at 1200 while the button is still down, and from the release
    at 1300. *)
Lemma one_released_per_cycle_counterexample :
  Button_ConfigStages (Some demo_plain) (Some released_stage_cfg)
                      (Some 7%nat) 1
  = Some (BUTTON_OK, Some (one_stage released_stage_cfg)) /\
  exists b0 ram0 tr0 b' ram' tr,
    run (one_stage released_stage_cfg) one_latch [(true, 10); (true, 60)]
    = Some (b0, ram0, tr0) /\
    last_state b0 = STATE_PRESSED /\
    events tr0 = [BUTTON_EVENT_PRESSED] /\
    run b0 ram0 [(true, 1060); (true, 1200); (false, 1300)]
    = Some (b', ram', tr) /\
    last_state b' = STATE_IDLE /\
    events tr = [BUTTON_EVENT_LONG_PRESSED; BUTTON_EVENT_RELEASED;
                 BUTTON_EVENT_RELEASED] /\
    map site tr = [at_pressed_long; at_stage 0; at_long_release].
Proof.
  split; [reflexivity|].
  eexists _, _, _, _, _, _. split; [vm_compute; reflexivity|].
  split; [reflexivity|]. split; [reflexivity|].
  split; [vm_compute; reflexivity|].
  split; [reflexivity|]. split; reflexivity.
Qed.

(** * Latches *)

Lemma run_avoiding_long samples :
  forall b ram,
    avoids_long b ram samples ->
    exists b' tr,
      run b ram samples = Some (b', ram, tr) /\
      stages b' = stages b /\ callback b' = callback b /\
      context b' = context b /\ fired_stages tr = [].
Proof.
  induction samples as [|[pr t] rest IH]; intros b ram Hav.
  - by exists b, [].
  - destruct Hav as [Hst Hav].
    destruct (other_states_frame b ram pr t Hst)
      as (b1 & tr1 & Hs & Hst1 & Hcb1 & Hctx1 & Hf1).
    rewrite Hs in Hav.
    destruct (IH b1 ram Hav) as (b2 & tr2 & Hrun & Hst2 & Hcb2 & Hctx2 & Hf2).
    exists b2, (tr1 ++ tr2). cbn [run]. rewrite Hs, Hrun.
    split_and!; try congruence.
    by rewrite fired_stages_app, Hf1, Hf2.
Qed.

Lemma clear_latches_below n ls i :
  (i < n)%nat -> (n <= length ls)%nat -> clear_latches n ls !! i = Some false.
Proof.
  intros Hi Hn. rewrite clear_latches_lookup.
  destruct (lookup_lt_is_Some_2 ls i) as [l ->]; [lia|].
  cbn. case_decide; [done|lia].
Qed.

Lemma clear_latches_above n ls i :
  (n <= i)%nat -> clear_latches n ls !! i = ls !! i.
Proof.
  intros Hi. rewrite clear_latches_lookup.
  destruct (ls !! i); cbn; [|done]. case_decide; [lia|done].
Qed.

Lemma clear_latches_all n ls :
  length ls = n -> clear_latches n ls = replicate n false.
Proof.
  intros Hn. apply list_eq. intros i.
  destruct (decide (i < n)%nat).
  - rewrite clear_latches_below by lia.
    symmetry. by apply lookup_replicate_2.
  - rewrite clear_latches_above by lia.
    rewrite (lookup_ge_None_2 ls) by lia.
    symmetry. apply lookup_ge_None_2. rewrite length_replicate. lia.
Qed.

Lemma stage_calls_unlatched b cfg ls total n :
  (forall i, (i < n)%nat -> ls !! i = Some false) ->
  stage_calls b cfg ls total n = stage_calls_fresh b cfg total n.
Proof.
  induction n as [|n IH]; intros Hls; [done|].
  rewrite stage_calls_S, IH by (intros i Hi; apply Hls; lia).
  unfold stage_calls_fresh. rewrite seq_S, flat_map_app. cbn.
  unfold stage_calls_at. rewrite Hls by lia. by rewrite app_nil_r.
Qed.

(** C5.  Under any poll a latch goes from unset to set only in state
    LongPressed with the button pressed, for a stage below [count] whose
    threshold is reached (the stage scan), and from set to unset only in
    state LongPressed with the button released, the poll that moves to Idle.
    That poll clears every latch below [count] (the whole array when it has
    [count] entries).  Polls outside LongPressed keep the latches, so at the
    next LongPressed poll every stage whose threshold is reached is
    dispatched again, none suppressed.  No other call of the public
    interface touches the latch store. *)
Theorem latches_set_by_scan_cleared_on_release b ram cfg p ls :
  attached b ram cfg p ls ->
  let n := Z.to_nat (count (stages b)) in
  (forall pr t,
      exists b' ls' tr,
        fsm_switch b ram pr t = Some (b', <[p := ls']> ram, tr) /\
        length ls' = length ls /\
        (forall i, ls !! i = Some false -> ls' !! i = Some true ->
                   last_state b = STATE_LONG_PRESSED /\ pr = true /\
                   (i < n)%nat /\
                   due cfg (sub32 t (press_start_tick b)) i = true) /\
        (forall i, ls !! i = Some true -> ls' !! i = Some false ->
                   last_state b = STATE_LONG_PRESSED /\ pr = false /\
                   last_state b' = STATE_IDLE)) /\
  (last_state b = STATE_LONG_PRESSED ->
   forall t,
     exists b1,
       fsm_switch b ram false t =
       Some (b1, <[p := clear_latches n ls]> ram,
             dispatch b at_long_release BUTTON_EVENT_RELEASED) /\
       last_state b1 = STATE_IDLE /\
       (forall i, (i < n)%nat -> clear_latches n ls !! i = Some false) /\
       (forall i, (n <= i)%nat -> clear_latches n ls !! i = ls !! i) /\
       (length ls = n -> clear_latches n ls = replicate n false) /\
       forall samples,
         avoids_long b1 (<[p := clear_latches n ls]> ram) samples ->
         exists b2 tr,
           run b1 (<[p := clear_latches n ls]> ram) samples =
           Some (b2, <[p := clear_latches n ls]> ram, tr) /\
           fired_stages tr = [] /\
           (last_state b2 = STATE_LONG_PRESSED ->
            forall t',
              let total := sub32 t' (press_start_tick b2) in
              exists b3 ram3,
                fsm_switch b2 (<[p := clear_latches n ls]> ram) true t' =
                Some (b3, ram3,
                      stage_calls_fresh b2 cfg total n ++ hold_calls b2 t'))) /\
  (forall button c e o ram' tr,
      api_step button ram c = Some (e, o, ram', tr) ->
      (forall pin now, c <> call_Update pin now) ->
      ram' = ram).
Proof.
  intros Hatt n. pose proof Hatt as (Hc & Hl & Hp & Hn1 & Hn2). split_and!.
  - intros pr t. destruct (decide (last_state b = STATE_LONG_PRESSED)) as [Hst|Hst].
    + destruct pr; unfold fsm_switch; rewrite Hst.
      * eexists _, _, _. split; [by apply long_pressed_closed|].
        split; [apply scan_latches_length|]. fold n. split.
        -- intros i Hi. rewrite scan_latches_lookup, Hi. cbn.
           case_decide; [|done]. intros [= Hd]. done.
        -- intros i Hi. rewrite scan_latches_lookup, Hi. cbn.
           by case_decide.
      * eexists _, _, _. split; [by eapply long_release_closed|].
        split; [apply clear_latches_length|]. fold n. split.
        -- intros i Hi. rewrite clear_latches_lookup, Hi. cbn.
           by case_decide.
        -- intros i Hi _. done.
    + destruct (other_states_frame b ram pr t Hst) as (b1 & tr1 & Hs & _).
      exists b1, ls, tr1. rewrite insert_id by done.
      split; [done|]. split; [done|]. split; intros i Hi Hi'; congruence.
  - intros Hst t. unfold fsm_switch at 1. rewrite Hst.
    eexists. split; [by eapply long_release_closed|]. fold n.
    split; [done|].
    split; [intros i Hi; apply clear_latches_below; [done|lia]|].
    split; [intros i Hi; by apply clear_latches_above|].
    split; [apply clear_latches_all|].
    intros samples Hav.
    destruct (run_avoiding_long samples _ _ Hav)
      as (b2 & tr & Hrun & Hst2 & _ & _ & Hf).
    exists b2, tr. split; [done|]. split; [done|].
    intros Hlong t'.
    assert (Hatt2 : attached b2 (<[p := clear_latches n ls]> ram) cfg p
                             (clear_latches n ls)).
    { eapply attached_insert; [exact Hatt|done|apply clear_latches_length]. }
    eexists _, _. unfold fsm_switch. rewrite Hlong.
    rewrite (long_pressed_closed b2 _ cfg p (clear_latches n ls)) by done.
    rewrite stage_calls_unlatched.
    + cbn in Hst2. rewrite Hst2. reflexivity.
    + intros i Hi. apply clear_latches_below; [|fold n; lia].
      cbn in Hst2. rewrite Hst2 in Hi. done.
  - intros button c e o ram' tr Hstep Hc'. destruct c; cbn [api_step] in Hstep.
    + destruct (Button_Init _ _ _ _ _ _). by inversion Hstep.
    + destruct (Button_ConfigStages _ _ _ _) as [[? ?]|]; by inversion Hstep.
    + by destruct (Hc' pin_state now).
    + destruct (Button_RegisterHandler _ _ _). by inversion Hstep.
    + destruct (Button_UnregisterHandler _). by inversion Hstep.
    + destruct (Button_Deinit _). by inversion Hstep.
Qed.

Lemma demo_long_attached_set :
  attached demo_long demo_ram_set demo_cfg 7 [true; true].
Proof. unfold attached. cbn. split_and!; try reflexivity; lia. Qed.

Lemma latches_set_by_scan_cleared_on_release_witness :
  attached demo_long demo_ram_set demo_cfg 7 [true; true] /\
  exists b1,
    fsm_switch demo_long demo_ram_set false 1150 =
    Some (b1, <[7%nat := [false; false]]> demo_ram_set,
          dispatch demo_long at_long_release BUTTON_EVENT_RELEASED) /\
    last_state b1 = STATE_IDLE.
Proof.
  split; [exact demo_long_attached_set|].
  destruct (latches_set_by_scan_cleared_on_release
              demo_long demo_ram_set demo_cfg 7 [true; true]
              demo_long_attached_set) as (_ & Hrel & _).
  destruct (Hrel eq_refl 1150) as (b1 & Hs & Hst & _).
  exists b1. split; [exact Hs|exact Hst].
Defined.

(** * Configuration *)

Lemma validate_stages_decides cfg cnt :
  0 < cnt -> (Z.to_nat cnt <= length cfg)%nat ->
  (increasing cfg (Z.to_nat cnt) /\ validate_stages (Some cfg) cnt = Some true) \/
  (~ increasing cfg (Z.to_nat cnt) /\
   validate_stages (Some cfg) cnt = Some false).
Proof.
  intros Hc Hl.
  destruct (validate_stages_total cfg cnt) as [[|] Hr]; [lia|done| |].
  - left. split; [|done]. by apply validate_stages_true.
  - right. split; [|done]. intros Hinc.
    apply validate_stages_true in Hinc; [|done]. congruence.
Qed.

(** C6.  [Button_ConfigStages] returns InvalidArgument when the button,
    configs or latches pointer is null or the count is zero; otherwise
    InvalidStages when the first threshold is zero or some threshold is not
    above its predecessor; every failure returns the record as it was; a
    success returns the record with the stage fields replaced by the new
    configs, latches and count, and nothing else changed. *)
Theorem config_stages_all_or_nothing button cfgs lat cnt :
  (button = None \/ cfgs = None \/ lat = None \/ cnt = 0 ->
   Button_ConfigStages button cfgs lat cnt
   = Some (BUTTON_ERR_INVALID_ARG, button)) /\
  (forall b cfg p,
      button = Some b -> cfgs = Some cfg -> lat = Some p ->
      0 < cnt -> (Z.to_nat cnt <= length cfg)%nat ->
      ((exists c0, cfg !! 0%nat = Some c0 /\ threshold c0 = 0) ->
       Button_ConfigStages button cfgs lat cnt
       = Some (BUTTON_ERR_INVALID_STAGES, button)) /\
      ((exists i ci cp,
           (1 <= i < Z.to_nat cnt)%nat /\
           cfg !! i = Some ci /\ cfg !! (i - 1)%nat = Some cp /\
           threshold ci <= threshold cp) ->
       Button_ConfigStages button cfgs lat cnt
       = Some (BUTTON_ERR_INVALID_STAGES, button)) /\
      (~ increasing cfg (Z.to_nat cnt) ->
       Button_ConfigStages button cfgs lat cnt
       = Some (BUTTON_ERR_INVALID_STAGES, button)) /\
      (increasing cfg (Z.to_nat cnt) ->
       Button_ConfigStages button cfgs lat cnt
       = Some (BUTTON_OK,
               Some (set_stages
                       {| configs := cfgs; latches := lat; count := cnt |}
                       b)))) /\
  (forall e button',
      Button_ConfigStages button cfgs lat cnt = Some (e, button') ->
      e <> BUTTON_OK ->
      button' = button /\
      (e = BUTTON_ERR_INVALID_ARG \/ e = BUTTON_ERR_INVALID_STAGES)) /\
  (forall button',
      Button_ConfigStages button cfgs lat cnt = Some (BUTTON_OK, button') ->
      exists b b',
        button = Some b /\ button' = Some b' /\
        stages b' = {| configs := cfgs; latches := lat; count := cnt |} /\
        b' = set_stages (stages b') b).
Proof.
  split_and!.
  - intros H. unfold Button_ConfigStages.
    destruct button as [b|], cfgs as [cfg|], lat as [p|]; try done.
    destruct H as [H|[H|[H|H]]]; try done. subst. done.
  - intros b cfg p -> -> -> Hc Hl.
    assert (Hnz : (cnt =? 0) = false) by (apply Z.eqb_neq; lia).
    unfold Button_ConfigStages. rewrite Hnz.
    destruct (validate_stages_decides cfg cnt Hc Hl) as [[Hinc ->]|[Hinc ->]];
      split_and!; try done.
    + intros (c0 & H0 & Hz). destruct Hinc as [(c & Hc0 & Hne) _]. congruence.
    + intros (i & ci & cp & Hi & Hci & Hcp & Hle).
      destruct Hinc as [_ Hinc].
      destruct (Hinc (i - 1)%nat i) as (a & c & Ha & Hc' & Hlt); [lia|].
      rewrite Hcp in Ha. rewrite Hci in Hc'. inversion Ha; inversion Hc'; subst.
      lia.
  - intros e button' H Hne. unfold Button_ConfigStages in H.
    destruct button as [b|], cfgs as [cfg|], lat as [p|];
      try (inversion H; subst; by auto).
    destruct (cnt =? 0); [inversion H; subst; by auto|].
    destruct (validate_stages (Some cfg) cnt) as [[|]|];
      inversion H; subst; by auto.
  - intros button' H. unfold Button_ConfigStages in H.
    destruct button as [b|], cfgs as [cfg|], lat as [p|]; try done.
    destruct (cnt =? 0); [done|].
    destruct (validate_stages (Some cfg) cnt) as [[|]|]; try done.
    inversion H; subst. by eexists _, _.
Qed.

Lemma config_stages_all_or_nothing_witness :
  (0 < 2 /\ (Z.to_nat 2 <= length flat_cfg)%nat) /\
  Button_ConfigStages (Some demo_idle) (Some flat_cfg) (Some 8%nat) 2
  = Some (BUTTON_ERR_INVALID_STAGES, Some demo_idle).
Proof.
  split; [split; [reflexivity|cbn; lia]|].
  destruct (config_stages_all_or_nothing
              (Some demo_idle) (Some flat_cfg) (Some 8%nat) 2)
    as (_ & Hcfg & _).
  destruct (Hcfg demo_idle flat_cfg 8%nat eq_refl eq_refl eq_refl)
    as (_ & Hflat & _); [reflexivity|cbn; lia|].
  apply Hflat. exists 1%nat. eexists _, _.
  split; [cbn; lia|]. split; [reflexivity|]. split; [reflexivity|].
  cbn. lia.
Defined.

(** * Tick arithmetic *)

Lemma sub32_true_difference T0 T1 :
  0 <= T1 - T0 < 2 ^ 32 ->
  sub32 (T1 mod 2 ^ 32) (T0 mod 2 ^ 32) = T1 - T0.
Proof.
  intros H. unfold sub32. rewrite <- Zminus_mod. by apply Z.mod_small.
Qed.

Lemma sub32_range a b : 0 <= sub32 a b < 2 ^ 32.
Proof. unfold sub32. apply Z.mod_pos_bound. lia. Qed.

(** C7.  Let [T0 <= T1] be the true times of a recorded reading and of the
    current reading of the tick counter, less than 2^32 apart, so that the
    counter shows [T0 mod 2^32] and [T1 mod 2^32] (it may have wrapped in
    between).  The unsigned difference the handlers compute is [T1 - T0],
    and the debounce test, the long-press test, the stage thresholds and the
    hold-repeat test all decide as they would on [T1 - T0]. *)
Theorem elapsed_is_true_difference_modulo_wrap T0 T1 :
  0 <= T1 - T0 < 2 ^ 32 ->
  let now := T1 mod 2 ^ 32 in
  let recorded := T0 mod 2 ^ 32 in
  sub32 now recorded = (now - recorded) mod 2 ^ 32 /\
  0 <= sub32 now recorded < 2 ^ 32 /\
  sub32 now recorded = T1 - T0 /\
  (forall b pr,
      last_change_tick b = recorded ->
      (T1 - T0 < BUTTON_DEBOUNCE_TICKS ->
       handle_state_debounce b pr now = (b, [])) /\
      (BUTTON_DEBOUNCE_TICKS <= T1 - T0 ->
       last_state (handle_state_debounce b pr now).1 =
       if pr then STATE_PRESSED else STATE_IDLE)) /\
  (forall b,
      last_change_tick b = recorded ->
      (T1 - T0 < BUTTON_LONG_PRESS_TICKS ->
       handle_state_pressed b true now = (b, [])) /\
      (BUTTON_LONG_PRESS_TICKS <= T1 - T0 ->
       last_state (handle_state_pressed b true now).1 = STATE_LONG_PRESSED)) /\
  (forall b ram cfg p ls,
      attached b ram cfg p ls ->
      press_start_tick b = recorded ->
      handle_state_long b ram true now =
      Some (after_hold b now,
            <[p := scan_latches cfg (T1 - T0)
                     (Z.to_nat (count (stages b))) ls]> ram,
            stage_calls b cfg ls (T1 - T0) (Z.to_nat (count (stages b)))
            ++ hold_calls b now)) /\
  (forall b ram,
      well_formed b ram ->
      last_state b = STATE_LONG_PRESSED ->
      last_hold_tick b = recorded ->
      BUTTON_LONG_PRESS_TICKS <= sub32 now (press_start_tick b) ->
      exists b' ram' tr,
        fsm_switch b ram true now = Some (b', ram', tr) /\
        (BUTTON_HOLD_TICKS <= T1 - T0 ->
         last_hold_tick b' = now /\
         fsm_events tr =
         match callback b with Some _ => [BUTTON_EVENT_HOLD] | None => [] end) /\
        (T1 - T0 < BUTTON_HOLD_TICKS ->
         last_hold_tick b' = recorded /\ fsm_events tr = [])).
Proof.
  intros H now recorded.
  pose proof (sub32_true_difference T0 T1 H) as Hsub. fold now recorded in Hsub.
  split_and!.
  - done.
  - apply sub32_range.
  - apply sub32_range.
  - done.
  - intros b pr Hb. unfold handle_state_debounce. rewrite Hb, Hsub. split.
    + intros Hlt. apply geb_false in Hlt. by rewrite Hlt.
    + intros Hge. apply geb_true in Hge. rewrite Hge. by destruct pr.
  - intros b Hb. unfold handle_state_pressed. rewrite Hb, Hsub. cbn [negb].
    split.
    + intros Hlt. apply geb_false in Hlt. by rewrite Hlt.
    + intros Hge. apply geb_true in Hge. by rewrite Hge.
  - intros b ram cfg p ls Hatt Hb.
    rewrite (long_pressed_closed b ram cfg p ls) by done.
    by rewrite Hb, Hsub.
  - intros b ram Hwf Hst Hb Hlong.
    destruct (long_pressed_poll b ram now Hwf Hst)
      as (ram' & stage_tr & Hs & _ & Hev & _).
    exists (after_hold b now), ram', (stage_tr ++ hold_calls b now).
    split; [done|]. rewrite fsm_events_app, Hev. cbn [app].
    unfold after_hold, hold_calls, hold_due. rewrite Hb, Hsub.
    apply geb_true in Hlong. rewrite Hlong. cbn [andb]. split.
    + intros Hge. apply geb_true in Hge. rewrite Hge.
      split; [done|]. by apply fsm_events_dispatch.
    + intros Hlt. apply geb_false in Hlt. by rewrite Hlt.
Qed.

Lemma elapsed_is_true_difference_modulo_wrap_witness :
  0 <= (2 ^ 32 + 45) - (2 ^ 32 - 10) < 2 ^ 32 /\
  sub32 45 4294967286 = 55 /\
  last_state
    (handle_state_debounce
       (set_last_change_tick 4294967286
          (set_last_state STATE_DEBOUNCE demo_idle)) true 45).1
  = STATE_PRESSED.
Proof.
  assert (H : 0 <= (2 ^ 32 + 45) - (2 ^ 32 - 10) < 2 ^ 32) by lia.
  split; [exact H|].
  destruct (elapsed_is_true_difference_modulo_wrap
              (2 ^ 32 - 10) (2 ^ 32 + 45) H) as (_ & _ & Hsub & Hdeb & _).
  split; [exact Hsub|].
  destruct (Hdeb (set_last_change_tick 4294967286
                    (set_last_state STATE_DEBOUNCE demo_idle)) true eq_refl)
    as [_ Hge].
  apply Hge. vm_compute. discriminate.
Defined.

(** * Handler registration *)

(** The latches after the stage scan do not depend on the handler. *)
Lemma stage_scan_handler b1 b2 cfg p total n :
  forall i ram tr1 tr2,
    fst <$> for_range (stage_body b1 cfg p total) i n (ram, tr1) =
    fst <$> for_range (stage_body b2 cfg p total) i n (ram, tr2).
Proof.
  induction n as [|n IH]; intros i ram tr1 tr2; [done|].
  cbn [for_range]. unfold stage_body at 1 3.
  destruct (cfg !! i) as [c|]; [|done].
  destruct (total >=? threshold c); [|apply IH].
  destruct (ram !! p) as [ls|]; [|done].
  destruct (ls !! i) as [[|]|]; [apply IH|apply IH|done].
Qed.

(** Without a handler the stage scan invokes nothing. *)
Lemma stage_scan_no_handler b cfg p total n :
  callback b = None ->
  forall i ram ram' tr,
    for_range (stage_body b cfg p total) i n (ram, []) = Some (ram', tr) ->
    tr = [].
Proof.
  intros Hcb. induction n as [|n IH]; intros i ram ram' tr.
  - cbn. by intros [= _ <-].
  - cbn [for_range]. unfold stage_body at 1.
    destruct (cfg !! i) as [c|]; [|done].
    destruct (total >=? threshold c); [|apply IH].
    destruct (ram !! p) as [ls|]; [|done].
    destruct (ls !! i) as [[|]|]; [apply IH| |done].
    unfold dispatch. rewrite Hcb. apply IH.
Qed.

Lemma dispatch_no_handler b s e : callback b = None -> dispatch b s e = [].
Proof. intros H. unfold dispatch. by rewrite H. Qed.

(** A poll on a record with another handler: same latches, same record up
    to the handler fields, undefined in the same cases. *)
Lemma fsm_switch_set_handler b cb cx ram pr t :
  match fsm_switch b ram pr t,
        fsm_switch (set_handler cb cx b) ram pr t with
  | Some (b1, ram1, _), Some (b2, ram2, _) =>
      b2 = set_handler cb cx b1 /\ ram2 = ram1
  | None, None => True
  | _, _ => False
  end.
Proof.
  unfold fsm_switch. cbn [set_handler last_state].
  destruct (last_state b).
  - unfold handle_state_idle. by destruct pr.
  - unfold handle_state_debounce. cbn [set_handler last_change_tick].
    destruct (sub32 t (last_change_tick b) >=? BUTTON_DEBOUNCE_TICKS);
      [|done]. by destruct pr.
  - unfold handle_state_pressed. cbn [set_handler last_change_tick].
    destruct pr; cbn [negb]; [|done].
    by destruct (sub32 t (last_change_tick b) >=? BUTTON_LONG_PRESS_TICKS).
  - unfold handle_state_long.
    cbn [set_handler set_last_state stages press_start_tick last_hold_tick].
    destruct pr; cbn [negb].
    + destruct (configs (stages b)) as [cfg|], (latches (stages b)) as [p|].
      * pose proof (stage_scan_handler b (set_handler cb cx b) cfg p
                      (sub32 t (press_start_tick b))
                      (Z.to_nat (count (stages b))) 0 ram [] []) as Hscan.
        destruct (for_range (stage_body b cfg p _) _ _ _) as [[r1 tr1]|],
                 (for_range (stage_body (set_handler cb cx b) cfg p _) _ _ _)
                   as [[r2 tr2]|]; cbn in Hscan; try done.
        inversion Hscan; subst. by hold_tests b t.
      * by hold_tests b t.
      * by hold_tests b t.
      * by hold_tests b t.
    + destruct (latches (stages b)) as [p|]; [|done].
      by destruct (for_range (clear_body p) _ _ _).
Qed.

(** Without a handler a poll invokes nothing. *)
Lemma fsm_switch_no_handler b ram pr t b' ram' tr :
  callback b = None ->
  fsm_switch b ram pr t = Some (b', ram', tr) -> tr = [].
Proof.
  intros Hcb. unfold fsm_switch. destruct (last_state b).
  - by intros [= _ _ <-].
  - unfold handle_state_debounce.
    destruct (sub32 t (last_change_tick b) >=? BUTTON_DEBOUNCE_TICKS);
      [destruct pr|]; intros [= _ _ <-]; try done.
    by apply dispatch_no_handler.
  - unfold handle_state_pressed. destruct pr; cbn [negb].
    + destruct (sub32 t (last_change_tick b) >=? BUTTON_LONG_PRESS_TICKS);
        intros [= _ _ <-]; try done.
      by apply dispatch_no_handler.
    + intros [= _ _ <-]. by apply dispatch_no_handler.
  - unfold handle_state_long. destruct pr; cbn [negb].
    + assert (Hscan : forall r tr0,
                 match configs (stages b), latches (stages b) with
                 | Some cfg, Some p =>
                     for_range
                       (stage_body b cfg p (sub32 t (press_start_tick b))) 0
                       (Z.to_nat (count (stages b))) (ram, [])
                 | _, _ => Some (ram, [])
                 end = Some (r, tr0) -> tr0 = []).
      { intros r tr0.
        destruct (configs (stages b)) as [cfg|], (latches (stages b)) as [p|];
          try (by intros [= _ <-]).
        by apply stage_scan_no_handler. }
      destruct (match configs (stages b) with Some _ => _ | None => _ end)
        as [[r tr0]|]; [|done].
      rewrite (Hscan r tr0 eq_refl).
      destruct (sub32 t (press_start_tick b) >=? BUTTON_LONG_PRESS_TICKS);
        [|by intros [= _ _ <-]].
      destruct (sub32 t (last_hold_tick b) >=? BUTTON_HOLD_TICKS);
        intros [= _ _ <-]; [|done].
      by apply dispatch_no_handler.
    + destruct (match latches _ with Some _ => _ | None => _ end); [|done].
      intros [= _ _ <-]. by apply dispatch_no_handler.
Qed.

Lemma set_handler_own b : set_handler (callback b) (context b) b = b.
Proof. by destruct b. Qed.

Lemma same_but_handler_eq b1 b2 :
  same_but_handler b1 b2 ->
  b2 = set_handler (callback b2) (context b2) b1.
Proof.
  unfold same_but_handler, set_handler. destruct b1, b2; cbn.
  intros [=]. by subst.
Qed.

Lemma same_but_handler_set b cb cx : same_but_handler b (set_handler cb cx b).
Proof. done. Qed.

Lemma fsm_switch_keeps_handler b ram pr t b' ram' tr :
  fsm_switch b ram pr t = Some (b', ram', tr) ->
  callback b' = callback b /\ context b' = context b.
Proof.
  intros H.
  pose proof (fsm_switch_set_handler b (callback b) (context b) ram pr t) as Hh.
  rewrite set_handler_own, H in Hh. destruct Hh as [Hb _].
  split; [by rewrite Hb at 1|by rewrite Hb at 1].
Qed.

Lemma fsm_switch_total b ram pr t :
  well_formed b ram -> is_Some (fsm_switch b ram pr t).
Proof.
  intros Hwf.
  destruct (decide (last_state b = STATE_LONG_PRESSED)) as [Hst|Hst].
  - destruct pr.
    + destruct (long_pressed_poll b ram t Hwf Hst) as (? & ? & -> & _).
      by eexists.
    + destruct (released_poll b ram t Hwf (or_intror Hst)) as (? & ? & -> & _).
      by eexists.
  - destruct (other_states_frame b ram pr t Hst) as (? & ? & -> & _).
    by eexists.
Qed.

(** Polls on two records that differ only in their handler. *)
Lemma fsm_switch_same_but_handler b1 b2 ram pr t :
  same_but_handler b1 b2 ->
  match fsm_switch b1 ram pr t, fsm_switch b2 ram pr t with
  | Some (c1, ram1, _), Some (c2, ram2, _) =>
      same_but_handler c1 c2 /\ ram1 = ram2
  | None, None => True
  | _, _ => False
  end.
Proof.
  intros Hsame. rewrite (same_but_handler_eq b1 b2 Hsame).
  pose proof (fsm_switch_set_handler b1 (callback b2) (context b2) ram pr t)
    as Hh.
  destruct (fsm_switch b1 ram pr t) as [[[c1 r1] tr1]|],
           (fsm_switch (set_handler _ _ b1) ram pr t) as [[[c2 r2] tr2]|];
    try done.
  destruct Hh as [-> ->]. split; [apply same_but_handler_set|done].
Qed.

(** C8.  [Button_UnregisterHandler] on a record nulls the callback and the
    context and nothing else.  For two records that differ only in those
    two fields, [Button_Update] on the same pin level and tick returns the
    same code, leaves the same latches and leaves records that again differ
    only in those two fields (each keeps its own handler); with no callback
    registered it invokes nothing.  The same holds along any sequence of
    polls. *)
Theorem unregistered_poll_mutates_alike :
  (forall b,
      exists b',
        Button_UnregisterHandler (Some b) = (BUTTON_OK, Some b') /\
        callback b' = None /\ context b' = None /\
        same_but_handler b b') /\
  (forall b1 b2 ram pin now,
      same_but_handler b1 b2 ->
      match Button_Update (Some b1) ram pin now,
            Button_Update (Some b2) ram pin now with
      | Some (e1, o1, ram1, tr1), Some (e2, o2, ram2, tr2) =>
          e1 = e2 /\ ram1 = ram2 /\
          (callback b2 = None -> tr2 = []) /\
          exists c1 c2,
            o1 = Some c1 /\ o2 = Some c2 /\ same_but_handler c1 c2 /\
            callback c1 = callback b1 /\ context c1 = context b1 /\
            callback c2 = callback b2 /\ context c2 = context b2
      | None, None => True
      | _, _ => False
      end) /\
  (forall samples b1 b2 ram,
      same_but_handler b1 b2 -> callback b2 = None ->
      match run b1 ram samples, run b2 ram samples with
      | Some (c1, ram1, _), Some (c2, ram2, tr2) =>
          same_but_handler c1 c2 /\ ram1 = ram2 /\
          callback c2 = None /\ tr2 = []
      | None, None => True
      | _, _ => False
      end) /\
  (forall b ram pin now,
      well_formed b ram -> is_Some (Button_Update (Some b) ram pin now)).
Proof.
  split_and!.
  - intros b. eexists. split; [reflexivity|]. done.
  - intros b1 b2 ram pin now Hsame.
    assert (Hr : read_pin_func b2 = read_pin_func b1)
      by apply (f_equal read_pin_func (eq_sym Hsame)).
    assert (Hg : get_tick_func b2 = get_tick_func b1)
      by apply (f_equal get_tick_func (eq_sym Hsame)).
    assert (Ha : active_level b2 = active_level b1)
      by apply (f_equal active_level (eq_sym Hsame)).
    unfold Button_Update. rewrite Hr, Hg, Ha.
    destruct (read_pin_func b1), (get_tick_func b1);
      try (split_and!; try done; by exists b1, b2).
    pose proof (fsm_switch_same_but_handler b1 b2 ram
                  (is_pressed_of (active_level b1) pin) now Hsame) as Hh.
    destruct (fsm_switch b1 ram _ now) as [[[c1 r1] tr1]|] eqn:E1,
             (fsm_switch b2 ram _ now) as [[[c2 r2] tr2]|] eqn:E2; try done.
    destruct Hh as [Hs ->].
    apply fsm_switch_keeps_handler in E1 as H1.
    apply fsm_switch_keeps_handler in E2 as H2.
    split_and!; try done.
    + intros Hcb. by eapply fsm_switch_no_handler.
    + exists c1, c2. by destruct H1, H2.
  - induction samples as [|[pr t] rest IH]; intros b1 b2 ram Hsame Hcb.
    + done.
    + cbn [run].
      pose proof (fsm_switch_same_but_handler b1 b2 ram pr t Hsame) as Hh.
      destruct (fsm_switch b1 ram pr t) as [[[c1 r1] tr1]|] eqn:E1,
               (fsm_switch b2 ram pr t) as [[[c2 r2] tr2]|] eqn:E2; try done.
      destruct Hh as [Hs ->].
      apply fsm_switch_keeps_handler in E2 as H2. destruct H2 as [H2 _].
      rewrite Hcb in H2.
      specialize (IH c1 c2 r2 Hs H2).
      destruct (run c1 r2 rest) as [[[d1 s1] u1]|],
               (run c2 r2 rest) as [[[d2 s2] u2]|]; try done.
      destruct IH as (? & ? & ? & ->). split_and!; try done.
      rewrite app_nil_r. exact (fsm_switch_no_handler _ _ _ _ _ _ _ Hcb E2).
  - intros b ram pin now Hwf. unfold Button_Update.
    destruct (read_pin_func b), (get_tick_func b); try by eexists.
    destruct (fsm_switch_total b ram
                (is_pressed_of (active_level b) pin) now Hwf)
      as [[[c r] tr] ->].
    by eexists.
Qed.

Lemma unregistered_poll_mutates_alike_witness :
  same_but_handler demo_long (set_handler None None demo_long) /\
  match Button_Update (Some demo_long) demo_ram false 4100,
        Button_Update (Some (set_handler None None demo_long))
                      demo_ram false 4100 with
  | Some (e1, _, ram1, _), Some (e2, _, ram2, tr2) =>
      e1 = e2 /\ ram1 = ram2 /\ tr2 = []
  | _, _ => False
  end.
Proof.
  split; [reflexivity|].
  destruct unregistered_poll_mutates_alike as (_ & Hpoll & _).
  specialize (Hpoll demo_long (set_handler None None demo_long)
                    demo_ram false 4100 eq_refl).
  destruct (Button_Update (Some demo_long) demo_ram false 4100)
    as [[[[e1 o1] r1] t1]|] eqn:E1;
    [|vm_compute in E1; discriminate].
  destruct (Button_Update (Some (set_handler None None demo_long))
                          demo_ram false 4100)
    as [[[[e2 o2] r2] t2]|]; [|exact Hpoll].
  destruct Hpoll as (He & Hr & Hn & _).
  split; [exact He|]. split; [exact Hr|]. apply Hn. reflexivity.
Defined.

(** * Latches set before the configuration is attached *)

(** Up to the first release from LongPressed, latches only go up and a
    stage that fires had its latch unset at the start. *)
Lemma run_before_release samples :
  forall b ram cfg p ls,
    attached b ram cfg p ls ->
    no_long_release b ram samples ->
    exists b' ls' tr,
      run b ram samples = Some (b', <[p := ls']> ram, tr) /\
      attached b' (<[p := ls']> ram) cfg p ls' /\
      stages b' = stages b /\
      (forall j, ls !! j = Some true -> ls' !! j = Some true) /\
      (forall j, j ∈ fired_stages tr -> ls !! j = Some false).
Proof.
  induction samples as [|[pr t] rest IH]; intros b ram cfg p ls Hatt Hno.
  - exists b, ls, []. pose proof Hatt as (_ & _ & Hp & _).
    rewrite insert_id by done. split_and!; try done.
    intros j Hj. by apply elem_of_nil in Hj.
  - destruct Hno as [Hnr Hno].
    assert (Hstep : exists b1 ls1 tr1,
               fsm_switch b ram pr t = Some (b1, <[p := ls1]> ram, tr1) /\
               stages b1 = stages b /\ length ls1 = length ls /\
               (forall j, ls !! j = Some true -> ls1 !! j = Some true) /\
               (forall j, j ∈ fired_stages tr1 -> ls !! j = Some false)).
    { destruct (decide (last_state b = STATE_LONG_PRESSED)) as [Hst|Hst].
      - destruct pr; [|by destruct Hnr].
        destruct (holding_step b ram cfg p ls t Hatt (or_intror Hst))
          as (b1 & ls1 & tr1 & Hs & _ & Hst1 & _ & _ & Hlen & Hup & _
              & Hf & _).
        exists b1, ls1, tr1. split_and!; try done.
        intros j Hj. by apply Hf in Hj as (_ & ? & _).
      - destruct (other_states_frame b ram pr t Hst)
          as (b1 & tr1 & Hs & Hst1 & _ & _ & Hf).
        exists b1, ls, tr1. pose proof Hatt as (_ & _ & Hp & _).
        rewrite insert_id by done. split_and!; try done.
        rewrite Hf. intros j Hj. by apply elem_of_nil in Hj. }
    destruct Hstep as (b1 & ls1 & tr1 & Hs & Hst1 & Hlen1 & Hup1 & Hf1).
    rewrite Hs in Hno.
    assert (Hatt1 : attached b1 (<[p := ls1]> ram) cfg p ls1)
      by (by eapply attached_insert).
    destruct (IH b1 _ cfg p ls1 Hatt1 Hno)
      as (b2 & ls2 & tr2 & Hrun & Hatt2 & Hst2 & Hup2 & Hf2).
    rewrite insert_insert_eq in Hrun, Hatt2.
    exists b2, ls2, (tr1 ++ tr2). cbn [run]. rewrite Hs, Hrun.
    split_and!; try done; try congruence.
    + auto.
    + intros j. rewrite fired_stages_app. intros [Hj|Hj]%elem_of_app.
      * by apply Hf1.
      * apply Hf2 in Hj. destruct (ls !! j) as [[|]|] eqn:E.
        -- apply Hup1 in E. congruence.
        -- done.
        -- apply lookup_ge_None in E. apply lookup_lt_Some in Hj. lia.
Qed.

Lemma validate_stages_length cfg cnt :
  validate_stages (Some cfg) cnt = Some true ->
  (Z.to_nat cnt <= length cfg)%nat.
Proof.
  unfold validate_stages. destruct (cnt =? 0); [done|].
  destruct (cfg !! 0%nat) as [c0|] eqn:E0; [|done].
  destruct (threshold c0 =? 0); [done|].
  intros H. rewrite validate_loop_true in H.
  apply lookup_lt_Some in E0.
  destruct (decide (Z.to_nat cnt <= 1)%nat); [lia|].
  destruct (H (Z.to_nat cnt - 1)%nat) as (_ & c & _ & Hc & _); [lia|].
  apply lookup_lt_Some in Hc. lia.
Qed.

Lemma config_stages_ok_attached b cfg p cnt b' ram ls :
  Button_ConfigStages (Some b) (Some cfg) (Some p) cnt
  = Some (BUTTON_OK, Some b') ->
  ram !! p = Some ls -> (Z.to_nat cnt <= length ls)%nat ->
  attached b' ram cfg p ls /\ count (stages b') = cnt /\
  b' = set_stages (stages b') b.
Proof.
  unfold Button_ConfigStages. destruct (cnt =? 0); [done|].
  destruct (validate_stages (Some cfg) cnt) as [[|]|] eqn:Ev; try done.
  intros [= <-] Hp Hl. apply validate_stages_length in Ev.
  unfold attached. cbn. done.
Qed.

(** C9.  [Button_ConfigStages] changes nothing but the three stage fields
    of the record: the latch store is as before.  So a latch that is already
    set when the configuration is attached stays set, and its stage is not
    dispatched, in every poll up to the first one that sees the button
    released in state LongPressed; that poll clears every latch below
    [count]. *)
Theorem config_keeps_latches_preset_suppresses :
  (forall button ram cfgs lat cnt e o ram' tr,
      api_step button ram (call_ConfigStages cfgs lat cnt)
      = Some (e, o, ram', tr) ->
      ram' = ram /\ tr = [] /\
      forall b b', button = Some b -> o = Some b' ->
                   b' = set_stages (stages b') b) /\
  (forall b ram cfg p ls cnt b' i,
      Button_ConfigStages (Some b) (Some cfg) (Some p) cnt
      = Some (BUTTON_OK, Some b') ->
      ram !! p = Some ls -> (Z.to_nat cnt <= length ls)%nat ->
      ls !! i = Some true ->
      forall samples,
        no_long_release b' ram samples ->
        exists b2 ls2 tr,
          run b' ram samples = Some (b2, <[p := ls2]> ram, tr) /\
          (i ∉ fired_stages tr) /\
          ls2 !! i = Some true /\
          (last_state b2 = STATE_LONG_PRESSED ->
           forall t,
             exists b3 ls3,
               fsm_switch b2 (<[p := ls2]> ram) false t =
               Some (b3, <[p := ls3]> ram,
                     dispatch b2 at_long_release BUTTON_EVENT_RELEASED) /\
               forall j, (j < Z.to_nat cnt)%nat -> ls3 !! j = Some false)).
Proof.
  split.
  - intros button ram cfgs lat cnt e o ram' tr. cbn [api_step].
    destruct (Button_ConfigStages button cfgs lat cnt) as [[e' o']|] eqn:E;
      [|done].
    intros [= -> -> <- <-]. split; [done|]. split; [done|].
    intros b b' -> ->. unfold Button_ConfigStages in E.
    destruct cfgs as [cfg|], lat as [p|];
      try (inversion E; subst; by destruct b').
    destruct (cnt =? 0); [inversion E; subst; by destruct b'|].
    destruct (validate_stages (Some cfg) cnt) as [[|]|];
      inversion E; subst; [done|by destruct b'].
  - intros b ram cfg p ls cnt b' i Hcfg Hp Hl Hi samples Hno.
    destruct (config_stages_ok_attached b cfg p cnt b' ram ls Hcfg Hp Hl)
      as (Hatt & Hcnt & _).
    destruct (run_before_release samples b' ram cfg p ls Hatt Hno)
      as (b2 & ls2 & tr & Hrun & Hatt2 & Hst2 & Hup & Hf).
    exists b2, ls2, tr. split_and!; [done| |by apply Hup|].
    + intros Hin. apply Hf in Hin. congruence.
    + intros Hlong t. unfold fsm_switch. rewrite Hlong.
      rewrite (long_release_closed b2 _ cfg p ls2) by done.
      rewrite insert_insert_eq. eexists _, _. split; [reflexivity|].
      intros j Hj. rewrite Hst2, Hcnt. apply clear_latches_below; [done|].
      destruct Hatt2 as (_ & _ & _ & _ & H2). by rewrite Hst2, Hcnt in H2.
Qed.

Lemma config_keeps_latches_preset_suppresses_witness :
  Button_ConfigStages (Some demo_plain) (Some demo_cfg) (Some 7%nat) 2
  = Some (BUTTON_OK, Some demo_idle) /\
  no_long_release demo_idle demo_ram_preset demo_press /\
  exists b2 ls2 tr,
    run demo_idle demo_ram_preset demo_press
    = Some (b2, <[7%nat := ls2]> demo_ram_preset, tr) /\
    (0%nat ∉ fired_stages tr) /\ ls2 !! 0%nat = Some true.
Proof.
  assert (Hcfg : Button_ConfigStages (Some demo_plain) (Some demo_cfg)
                                     (Some 7%nat) 2
                 = Some (BUTTON_OK, Some demo_idle)) by reflexivity.
  assert (Hno : no_long_release demo_idle demo_ram_preset demo_press).
  { vm_compute. repeat split; intros [_ H]; discriminate H. }
  split; [exact Hcfg|]. split; [exact Hno|].
  destruct config_keeps_latches_preset_suppresses as [_ Hpre].
  assert (Hlen : (Z.to_nat 2 <= length [true; false])%nat) by (cbn; lia).
  destruct (Hpre demo_plain demo_ram_preset demo_cfg 7%nat [true; false] 2
                 demo_idle 0%nat Hcfg eq_refl Hlen eq_refl demo_press Hno)
    as (b2 & ls2 & tr & Hrun & Hnf & Hl & _).
  exists b2, ls2, tr. split; [exact Hrun|]. split; [exact Hnf|exact Hl].
Defined.

(** * Records reachable through the public interface *)

Lemma Button_Init_invariant button gpio level read_fn tick_fn now b :
  Button_Init button gpio level read_fn tick_fn now = (BUTTON_OK, Some b) ->
  stage_invariant b /\ last_state b = STATE_IDLE /\ callback b = None /\
  last_change_tick b = now /\ press_start_tick b = now /\
  last_hold_tick b = now.
Proof.
  unfold Button_Init.
  destruct button, read_fn, tick_fn, level; intros [= <-]; cbn;
    (split; [by left|done]).
Qed.

Lemma api_step_invariant b ram c e b' ram' tr :
  stage_invariant b ->
  api_step (Some b) ram c = Some (e, Some b', ram', tr) ->
  stage_invariant b'.
Proof.
  intros Hinv. destruct c; cbn [api_step].
  - destruct (Button_Init _ _ _ _ _ _) as [e0 o] eqn:E.
    intros [= -> -> _ _]. unfold Button_Init in E.
    destruct read_fn, tick_fn, level; inversion E; subst; try done;
      by left.
  - destruct (Button_ConfigStages _ _ _ _) as [[e0 o]|] eqn:E; [|done].
    intros [= -> -> _ _]. unfold Button_ConfigStages in E.
    destruct cfgs as [cfg|], lat as [p|];
      try (inversion E; by subst).
    destruct (cnt =? 0) eqn:E0; [inversion E; by subst|].
    destruct (validate_stages (Some cfg) cnt) as [[|]|] eqn:Ev;
      inversion E; subst; [|done].
    right. cbn. split; [by apply Z.eqb_neq|]. by exists cfg, p.
  - unfold Button_Update.
    destruct (read_pin_func b), (get_tick_func b);
      try (intros [= _ <- _ _]; done).
    destruct (fsm_switch b ram _ now) as [[[c r] tr0]|] eqn:E; [|done].
    intros [= _ <- _ _]. apply fsm_switch_stages in E.
    unfold stage_invariant. by rewrite E.
  - intros [= _ <- _ _]. done.
  - intros [= _ <- _ _]. done.
  - intros [= _ <- _ _]. by left.
Qed.

Lemma reachable_invariant b : reachable b -> stage_invariant b.
Proof.
  induction 1 as [? ? ? ? ? ? b Hinit|b ram c e b' ram' tr _ IH Hstep].
  - by apply Button_Init_invariant in Hinit as [? _].
  - by eapply api_step_invariant.
Qed.

(** With [count = 0] neither loop of [handle_state_long] is entered. *)
Lemma zero_count_poll b ram pr t :
  count (stages b) = 0 ->
  exists b' tr,
    fsm_switch b ram pr t = Some (b', ram, tr) /\
    count (stages b') = 0 /\ fired_stages tr = [] /\
    (last_state b = STATE_LONG_PRESSED ->
     if pr
     then b' = after_hold b t /\ tr = hold_calls b t
     else b' = set_last_state STATE_IDLE b /\
          tr = dispatch b at_long_release BUTTON_EVENT_RELEASED).
Proof.
  intros H0.
  destruct (decide (last_state b = STATE_LONG_PRESSED)) as [Hst|Hst].
  - unfold fsm_switch, handle_state_long. rewrite Hst.
    cbn [set_last_state stages]. rewrite H0. cbn [Z.to_nat for_range].
    destruct pr; cbn [negb].
    + exists (after_hold b t), (hold_calls b t).
      unfold after_hold, hold_calls, hold_due.
      destruct (configs (stages b)), (latches (stages b));
        destruct (sub32 t (press_start_tick b) >=? BUTTON_LONG_PRESS_TICKS),
                 (sub32 t (last_hold_tick b) >=? BUTTON_HOLD_TICKS);
        cbn [andb app]; split_and!; try done;
        by apply fired_stages_dispatch_fsm.
    + eexists _, _.
      destruct (latches (stages b)); (split; [reflexivity|]);
        split_and!; try done; by apply fired_stages_dispatch_fsm.
  - destruct (other_states_frame b ram pr t Hst)
      as (b1 & tr1 & Hs & Hst1 & _ & _ & Hf).
    exists b1, tr1. split_and!; try done. by rewrite Hst1.
Qed.

Lemma zero_count_run samples :
  forall b ram,
    count (stages b) = 0 ->
    exists b' tr,
      run b ram samples = Some (b', ram, tr) /\
      count (stages b') = 0 /\ fired_stages tr = [].
Proof.
  induction samples as [|[pr t] rest IH]; intros b ram H0.
  - by exists b, [].
  - destruct (zero_count_poll b ram pr t H0) as (b1 & tr1 & Hs & H1 & Hf1 & _).
    destruct (IH b1 ram H1) as (b2 & tr2 & Hrun & H2 & Hf2).
    exists b2, (tr1 ++ tr2). cbn [run]. rewrite Hs, Hrun.
    split_and!; try done. by rewrite fired_stages_app, Hf1, Hf2.
Qed.

(** C10.  For a record made by [Button_Init] and mutated only through the
    public interface: when [stages.count] is positive, [stages.configs] and
    [stages.latches] are non-null and the first [count] thresholds are
    strictly increasing with a nonzero first one (when it is zero both
    pointers are null).  With [count = 0] a poll enters neither the stage
    scan nor the latch-clearing loop: it is defined, leaves the latch store
    alone, invokes the callback for no stage, and in state LongPressed does
    just the hold repeat or the release. *)
Theorem reachable_stage_invariant b :
  reachable b ->
  (0 < count (stages b) ->
   exists cfg p,
     configs (stages b) = Some cfg /\ latches (stages b) = Some p /\
     (Z.to_nat (count (stages b)) <= length cfg)%nat /\
     increasing cfg (Z.to_nat (count (stages b)))) /\
  (count (stages b) = 0 ->
   configs (stages b) = None /\ latches (stages b) = None /\
   (forall ram pr t,
       exists b' tr,
         fsm_switch b ram pr t = Some (b', ram, tr) /\
         fired_stages tr = [] /\
         (last_state b = STATE_LONG_PRESSED ->
          if pr
          then b' = after_hold b t /\ tr = hold_calls b t
          else b' = set_last_state STATE_IDLE b /\
               tr = dispatch b at_long_release BUTTON_EVENT_RELEASED)) /\
   (forall ram samples,
       exists b' tr,
         run b ram samples = Some (b', ram, tr) /\ fired_stages tr = [])).
Proof.
  intros Hreach. apply reachable_invariant in Hreach as Hinv. split.
  - intros Hpos. destruct Hinv as [(H0 & _)|(_ & cfg & p & Hc & Hl & Hv)];
      [lia|].
    exists cfg, p. split_and!; try done.
    + by apply validate_stages_length.
    + by apply validate_stages_true.
  - intros H0. destruct Hinv as [(_ & Hc & Hl)|(Hne & _)]; [|done].
    split_and!; try done.
    + intros ram pr t.
      destruct (zero_count_poll b ram pr t H0) as (b' & tr & Hs & _ & Hf & Hl').
      by exists b', tr.
    + intros ram samples.
      destruct (zero_count_run samples b ram H0) as (b' & tr & Hrun & _ & Hf).
      by exists b', tr.
Qed.

Lemma demo_configured_reachable : reachable demo_configured.
Proof.
  apply (reachable_step demo_init ∅ (call_ConfigStages (Some demo_cfg) (Some 7%nat) 2)
                        BUTTON_OK demo_configured ∅ []).
  - by apply (reachable_init (Some button_zero) 4 BUTTON_ACTIVE_LOW
                             (Some 2%nat) (Some 3%nat) 0).
  - reflexivity.
Qed.

Lemma reachable_stage_invariant_witness :
  reachable demo_configured /\
  0 < count (stages demo_configured) /\
  exists cfg p,
    configs (stages demo_configured) = Some cfg /\
    latches (stages demo_configured) = Some p /\
    increasing cfg (Z.to_nat (count (stages demo_configured))).
Proof.
  split; [exact demo_configured_reachable|]. split; [reflexivity|].
  destruct (reachable_stage_invariant demo_configured
                                      demo_configured_reachable) as [Hpos _].
  destruct (Hpos eq_refl) as (cfg & p & Hc & Hl & _ & Hinc).
  exists cfg, p. split; [exact Hc|]. split; [exact Hl|exact Hinc].
Defined.

(** * The scenario of the specification

    Active low (a low pin level is a press), first press sampled at tick
    10: Debounce, no event; still pressed at tick 60: Pressed, one Pressed
    event; still pressed at tick 1100: LongPressed, one LongPressed event;
    released at tick 1150: Idle, one Released event, every latch cleared. *)

Example scenario_debounce :
  Button_Update (Some demo_idle) demo_ram_set false 10 =
  Some (BUTTON_OK,
        Some (set_last_change_tick 10 (set_last_state STATE_DEBOUNCE demo_idle)),
        demo_ram_set, []).
Proof. reflexivity. Qed.

Example scenario_pressed :
  Button_Update
    (Some (set_last_change_tick 10 (set_last_state STATE_DEBOUNCE demo_idle)))
    demo_ram_set false 60 =
  Some (BUTTON_OK, Some demo_pressed, demo_ram_set,
        dispatch demo_idle at_debounce BUTTON_EVENT_PRESSED).
Proof. reflexivity. Qed.

Example scenario_long_pressed :
  Button_Update (Some demo_pressed) demo_ram_set false 1100 =
  Some (BUTTON_OK,
        Some (set_last_hold_tick 1100
                (set_press_start_tick 1100
                   (set_last_change_tick 1100
                      (set_last_state STATE_LONG_PRESSED demo_pressed)))),
        demo_ram_set,
        dispatch demo_idle at_pressed_long BUTTON_EVENT_LONG_PRESSED).
Proof. reflexivity. Qed.

Example scenario_released :
  Button_Update
    (Some (set_last_hold_tick 1100
             (set_press_start_tick 1100
                (set_last_change_tick 1100
                   (set_last_state STATE_LONG_PRESSED demo_pressed)))))
    demo_ram_set true 1150 =
  Some (BUTTON_OK,
        Some (set_last_state STATE_IDLE
                (set_last_hold_tick 1100
                   (set_press_start_tick 1100
                      (set_last_change_tick 1100 demo_pressed)))),
        <[7%nat := [false; false]]> demo_ram_set,
        dispatch demo_idle at_long_release BUTTON_EVENT_RELEASED).
Proof.
  unfold Button_Update, fsm_switch. cbn -[handle_state_long].
  rewrite (long_release_closed _ demo_ram_set demo_cfg 7%nat [true; true]).
  - reflexivity.
  - eapply attached_stages; [|exact demo_long_attached_set]. reflexivity.
Qed.

(** * Beyond the stated claims: helper lemmas *)

Lemma dispatch_target b s e x :
  x ∈ dispatch b s e ->
  callback b = Some (fn x) /\ ctx x = context b /\ site x = s /\ ev x = e.
Proof.
  unfold dispatch. destruct (callback b); [|by intros ?%elem_of_nil].
  intros ->%list_elem_of_singleton. done.
Qed.

(** Every invocation added by the stage scan goes to the registered
    callback with the registered context. *)
Lemma stage_scan_target b cfg p total n :
  forall i ram tr ram' tr',
    for_range (stage_body b cfg p total) i n (ram, tr) = Some (ram', tr') ->
    forall x, x ∈ tr' ->
      x ∈ tr \/
      ((exists j, site x = at_stage j) /\
       callback b = Some (fn x) /\ ctx x = context b).
Proof.
  induction n as [|n IH]; intros i ram tr ram' tr'.
  - cbn. intros [= _ <-]. auto.
  - cbn [for_range]. unfold stage_body at 1.
    destruct (cfg !! i) as [c|] eqn:Ec; [|done].
    destruct (total >=? threshold c); [|apply IH].
    destruct (ram !! p) as [ls|]; [|done].
    destruct (ls !! i) as [[|]|]; [apply IH| |done].
    intros H x Hx. destruct (IH _ _ _ _ _ H x Hx) as [Hin|?]; [|by right].
    apply elem_of_app in Hin as [?|Hin]; [by left|right].
    apply dispatch_target in Hin as (? & ? & ? & _). split; [by exists i|done].
Qed.

(** What a poll in LongPressed with the button pressed returns, when it
    returns. *)
Lemma long_pressed_inv b ram t b' ram' tr :
  last_state b = STATE_LONG_PRESSED ->
  fsm_switch b ram true t = Some (b', ram', tr) ->
  b' = after_hold b t /\
  exists stage_tr,
    tr = stage_tr ++ hold_calls b t /\
    forall x, x ∈ stage_tr ->
      (exists j, site x = at_stage j) /\
      callback b = Some (fn x) /\ ctx x = context b.
Proof.
  intros Hst. unfold fsm_switch, handle_state_long. rewrite Hst. cbn [negb].
  destruct (match configs (stages b) with Some _ => _ | None => _ end)
    as [[r tr0]|] eqn:E; [|done].
  assert (Htr0 : forall x, x ∈ tr0 ->
            (exists j, site x = at_stage j) /\
            callback b = Some (fn x) /\ ctx x = context b).
  { destruct (configs (stages b)) as [cfg|], (latches (stages b)) as [p|];
      try (inversion E; subst; intros x Hx; by apply elem_of_nil in Hx).
    intros x Hx.
    destruct (stage_scan_target _ _ _ _ _ _ _ _ _ _ E x Hx) as [Hnil|?];
      [by apply elem_of_nil in Hnil|done]. }
  unfold after_hold, hold_calls, hold_due.
  hold_tests b t; cbn [andb]; intros [= <- _ <-]; (split; [done|]).
  - by exists tr0.
  - exists tr0. by rewrite app_nil_r.
  - exists tr0. by rewrite app_nil_r.
Qed.

Lemma long_release_inv b ram t b' ram' tr :
  last_state b = STATE_LONG_PRESSED ->
  fsm_switch b ram false t = Some (b', ram', tr) ->
  b' = set_last_state STATE_IDLE b /\
  tr = dispatch b at_long_release BUTTON_EVENT_RELEASED.
Proof.
  intros Hst. unfold fsm_switch, handle_state_long. rewrite Hst. cbn [negb].
  destruct (match latches _ with Some _ => _ | None => _ end); [|done].
  by intros [= <- _ <-].
Qed.

Lemma fsm_switch_well_formed b ram pr t b' ram' tr :
  well_formed b ram ->
  fsm_switch b ram pr t = Some (b', ram', tr) ->
  well_formed b' ram'.
Proof.
  intros Hwf Hs.
  destruct (decide (last_state b = STATE_LONG_PRESSED)) as [Hst|Hst].
  - destruct pr.
    + destruct (long_pressed_poll b ram t Hwf Hst) as (r & str & Hs' & Hwf' & _).
      rewrite Hs in Hs'. by inversion Hs'; subst.
    + destruct (released_poll b ram t Hwf (or_intror Hst))
        as (s & r & Hs' & _ & Hwf').
      rewrite Hs in Hs'. by inversion Hs'; subst.
  - destruct (other_states_frame b ram pr t Hst) as (b1 & tr1 & Hs' & Hst1 & _).
    rewrite Hs in Hs'. inversion Hs'; subst.
    by eapply well_formed_stages.
Qed.

(** On a well-formed record every sequence of polls is defined. *)
Lemma run_total samples :
  forall b ram,
    well_formed b ram ->
    exists b' ram' tr,
      run b ram samples = Some (b', ram', tr) /\ well_formed b' ram'.
Proof.
  induction samples as [|[pr t] rest IH]; intros b ram Hwf.
  - by exists b, ram, [].
  - destruct (fsm_switch_total b ram pr t Hwf) as [[[b1 ram1] tr1] Hs].
    pose proof (fsm_switch_well_formed _ _ _ _ _ _ _ Hwf Hs) as Hwf1.
    destruct (IH b1 ram1 Hwf1) as (b2 & ram2 & tr2 & Hrun & Hwf2).
    exists b2, ram2, (tr1 ++ tr2). cbn [run]. by rewrite Hs, Hrun.
Qed.

Lemma run_cons_inv b ram pr t rest b2 ram2 tr :
  run b ram ((pr, t) :: rest) = Some (b2, ram2, tr) ->
  exists b1 ram1 tr1 tr2,
    fsm_switch b ram pr t = Some (b1, ram1, tr1) /\
    run b1 ram1 rest = Some (b2, ram2, tr2) /\ tr = tr1 ++ tr2.
Proof.
  cbn [run].
  destruct (fsm_switch b ram pr t) as [[[b1 ram1] tr1]|]; [|done].
  destruct (run b1 ram1 rest) as [[[b2' ram2'] tr2]|] eqn:Er; [|done].
  intros [= <- <- <-]. by exists b1, ram1, tr1, tr2.
Qed.

Lemma fsm_events_stage_only tr :
  (forall x, x ∈ tr -> exists j, site x = at_stage j) -> fsm_events tr = [].
Proof.
  induction tr as [|x tr IH]; intros H; [done|].
  unfold fsm_events. cbn. destruct (H x) as [j ->]; [by left|].
  apply IH. intros y Hy. apply H. by right.
Qed.

(** A poll assigns the state and the three ticks, nothing else. *)
Lemma poll_frame b ram pr t b' ram' tr :
  fsm_switch b ram pr t = Some (b', ram', tr) -> same_but_timing b b'.
Proof.
  destruct (decide (last_state b = STATE_LONG_PRESSED)) as [Hst|Hst].
  - destruct pr; intros Hs.
    + apply long_pressed_inv in Hs as [-> _]; [|done].
      unfold same_but_timing, after_hold.
      destruct (hold_due b t); by destruct b.
    + apply long_release_inv in Hs as [-> _]; [|done].
      unfold same_but_timing. by destruct b.
  - unfold fsm_switch. destruct (last_state b) eqn:E; [| | |done].
    + unfold handle_state_idle. destruct pr; intros [= <- _ _];
        unfold same_but_timing; destruct b; cbn in *; by subst.
    + unfold handle_state_debounce.
      destruct (sub32 t (last_change_tick b) >=? BUTTON_DEBOUNCE_TICKS);
        [destruct pr|]; intros [= <- _ _];
        unfold same_but_timing; destruct b; cbn in *; by subst.
    + unfold handle_state_pressed. destruct pr; cbn [negb];
        [destruct (sub32 t (last_change_tick b) >=? BUTTON_LONG_PRESS_TICKS)|];
        intros [= <- _ _];
        unfold same_but_timing; destruct b; cbn in *; by subst.
Qed.

(** Whatever a poll invokes is the registered callback, with the
    registered context. *)
Lemma poll_target b ram pr t b' ram' tr x :
  fsm_switch b ram pr t = Some (b', ram', tr) -> x ∈ tr ->
  callback b = Some (fn x) /\ ctx x = context b.
Proof.
  destruct (decide (last_state b = STATE_LONG_PRESSED)) as [Hst|Hst].
  - destruct pr; intros Hs Hx.
    + apply long_pressed_inv in Hs as (_ & stage_tr & -> & Hstage); [|done].
      apply elem_of_app in Hx as [Hx|Hx]; [by apply Hstage in Hx as [_ ?]|].
      unfold hold_calls in Hx.
      destruct (hold_due b t); [|by apply elem_of_nil in Hx].
      by apply dispatch_target in Hx as (? & ? & _).
    + apply long_release_inv in Hs as [_ ->]; [|done].
      by apply dispatch_target in Hx as (? & ? & _).
  - unfold fsm_switch. destruct (last_state b) eqn:E; [| | |done].
    + intros [= _ _ <-] Hx. by apply elem_of_nil in Hx.
    + unfold handle_state_debounce.
      destruct (sub32 t (last_change_tick b) >=? BUTTON_DEBOUNCE_TICKS);
        [destruct pr|]; intros [= _ _ <-] Hx;
        try (by apply elem_of_nil in Hx).
      by apply dispatch_target in Hx as (? & ? & _).
    + unfold handle_state_pressed. destruct pr; cbn [negb];
        [destruct (sub32 t (last_change_tick b) >=? BUTTON_LONG_PRESS_TICKS)|];
        intros [= _ _ <-] Hx; try (by apply elem_of_nil in Hx);
        by apply dispatch_target in Hx as (? & ? & _).
Qed.

(** With a handler registered, the events of a poll take the consumer from
    the phase before the poll to the phase after it. *)
Lemma poll_replay b ram pr t b' ram' tr :
  is_Some (callback b) ->
  fsm_switch b ram pr t = Some (b', ram', tr) ->
  replay (phase_of (last_state b)) (fsm_events tr)
  = Some (phase_of (last_state b')).
Proof.
  intros [f Hf].
  destruct (decide (last_state b = STATE_LONG_PRESSED)) as [Hst|Hst].
  - destruct pr; intros Hs.
    + apply long_pressed_inv in Hs as (-> & stage_tr & -> & Hstage); [|done].
      rewrite fsm_events_app, fsm_events_stage_only
        by (intros x Hx; by apply Hstage in Hx as [? _]).
      rewrite after_hold_state, Hst. unfold hold_calls, dispatch.
      rewrite Hf. by destruct (hold_due b t).
    + apply long_release_inv in Hs as [-> ->]; [|done].
      rewrite Hst. unfold dispatch. by rewrite Hf.
  - unfold fsm_switch. destruct (last_state b) eqn:E; [| | |done].
    + unfold handle_state_idle. destruct pr; intros [= <- _ <-]; cbn;
        by rewrite ?E.
    + unfold handle_state_debounce, dispatch. cbn [callback set_last_state
        set_last_change_tick]. rewrite Hf.
      destruct (sub32 t (last_change_tick b) >=? BUTTON_DEBOUNCE_TICKS);
        [destruct pr|]; intros [= <- _ <-]; cbn; by rewrite ?E.
    + unfold handle_state_pressed, dispatch. cbn [callback set_last_state
        set_last_change_tick set_press_start_tick set_last_hold_tick].
      rewrite Hf. destruct pr; cbn [negb];
        [destruct (sub32 t (last_change_tick b) >=? BUTTON_LONG_PRESS_TICKS)|];
        intros [= <- _ <-]; cbn; by rewrite ?E.
Qed.

Lemma replay_app ph evs1 evs2 :
  replay ph (evs1 ++ evs2) =
  match replay ph evs1 with
  | Some ph' => replay ph' evs2
  | None => None
  end.
Proof.
  revert ph. induction evs1 as [|e evs1 IH]; intros ph; [done|].
  cbn. destruct (phase_step ph e); [apply IH|done].
Qed.

Lemma same_but_timing_trans b1 b2 b3 :
  same_but_timing b1 b2 -> same_but_timing b2 b3 -> same_but_timing b1 b3.
Proof.
  unfold same_but_timing. destruct b1, b2, b3; cbn.
  intros [=] [=]. by subst.
Qed.

Lemma same_but_timing_refl b : same_but_timing b b.
Proof. unfold same_but_timing. by destruct b. Qed.

Lemma demo_idle_well_formed : well_formed demo_idle demo_ram.
Proof.
  eapply well_formed_stages; [|exact demo_long_well_formed]. reflexivity.
Qed.

(** * Beyond the stated claims: the polls *)

(** X1.  On a well-formed record any sequence of polls is defined, and it
    changes nothing of the record but the state and the three ticks: pin,
    polarity, capabilities, handler, context, stage manager and the two
    fields [last_event] and [is_long_pressed_triggered] are as before. *)
Theorem polls_assign_state_and_ticks_only b ram samples :
  well_formed b ram ->
  exists b' ram' tr,
    run b ram samples = Some (b', ram', tr) /\
    gpio_num b' = gpio_num b /\
    active_level b' = active_level b /\
    last_event b' = last_event b /\
    is_long_pressed_triggered b' = is_long_pressed_triggered b /\
    context b' = context b /\
    callback b' = callback b /\
    read_pin_func b' = read_pin_func b /\
    get_tick_func b' = get_tick_func b /\
    stages b' = stages b.
Proof.
  intros Hwf.
  destruct (run_total samples b ram Hwf) as (b' & ram' & tr & Hrun & _).
  exists b', ram', tr. split; [done|].
  assert (Hsame : same_but_timing b b').
  { clear Hwf. revert b ram b' ram' tr Hrun.
    induction samples as [|[pr t] rest IH]; intros b ram b' ram' tr Hrun.
    - cbn in Hrun. inversion Hrun; subst. apply same_but_timing_refl.
    - apply run_cons_inv in Hrun as (b1 & ram1 & tr1 & tr2 & Hs & Hr & _).
      eapply same_but_timing_trans; [by eapply poll_frame|by eapply IH]. }
  unfold same_but_timing in Hsame. rewrite Hsame. done.
Qed.

Lemma polls_assign_state_and_ticks_only_witness :
  well_formed demo_idle demo_ram /\
  exists b' ram' tr,
    run demo_idle demo_ram demo_press = Some (b', ram', tr) /\
    last_event b' = BUTTON_EVENT_NONE /\
    is_long_pressed_triggered b' = false /\
    stages b' = stages demo_idle.
Proof.
  split; [exact demo_idle_well_formed|].
  destruct (polls_assign_state_and_ticks_only
              demo_idle demo_ram demo_press demo_idle_well_formed)
    as (b' & ram' & tr & Hrun & _ & _ & He & Hl & _ & _ & _ & _ & Hs).
  exists b', ram', tr. split; [exact Hrun|]. split; [exact He|].
  split; [exact Hl|exact Hs].
Defined.

(** X2.  After [Button_RegisterHandler] with callback [cb] and context
    [cx], whatever handler the record had before, every invocation made by
    any sequence of polls goes to [cb] and carries [cx] unchanged, and the
    record still holds them afterwards; with a null [cb] nothing is
    invoked. *)
Theorem registered_handler_gets_every_event b ram cb cx samples :
  well_formed b ram ->
  exists b0 b' ram' tr,
    Button_RegisterHandler (Some b) cb cx = (BUTTON_OK, Some b0) /\
    same_but_handler b b0 /\
    run b0 ram samples = Some (b', ram', tr) /\
    callback b' = cb /\ context b' = cx /\
    (forall x, x ∈ tr -> cb = Some (fn x) /\ ctx x = cx) /\
    (cb = None -> tr = []).
Proof.
  intros Hwf.
  assert (Hwf0 : well_formed (set_handler cb cx b) ram)
    by (by eapply well_formed_stages).
  destruct (run_total samples _ ram Hwf0) as (b' & ram' & tr & Hrun & _).
  exists (set_handler cb cx b), b', ram', tr.
  split; [done|]. split; [done|]. split; [done|].
  assert (Hall : callback b' = cb /\ context b' = cx /\
                 forall x, x ∈ tr -> cb = Some (fn x) /\ ctx x = cx).
  { clear Hwf Hwf0.
    assert (Hgen : forall b0 ram0 b1 ram1 tr0,
               run b0 ram0 samples = Some (b1, ram1, tr0) ->
               callback b1 = callback b0 /\ context b1 = context b0 /\
               forall x, x ∈ tr0 ->
                         callback b0 = Some (fn x) /\ ctx x = context b0).
    { clear. induction samples as [|[pr t] rest IH];
        intros b0 ram0 b1 ram1 tr0 Hrun.
      - cbn in Hrun. inversion Hrun; subst. split_and!; try done.
        intros x Hx. by apply elem_of_nil in Hx.
      - apply run_cons_inv in Hrun
          as (b2 & ram2 & tr1 & tr2 & Hs & Hr & ->).
        destruct (fsm_switch_keeps_handler _ _ _ _ _ _ _ Hs) as [Hc Hx].
        destruct (IH _ _ _ _ _ Hr) as (Hc' & Hx' & Htr).
        split; [congruence|]. split; [congruence|].
        intros x [Hin|Hin]%elem_of_app.
        + by eapply poll_target.
        + rewrite <- Hc, <- Hx. by apply Htr. }
    apply (Hgen _ _ _ _ _ Hrun). }
  destruct Hall as (Hc & Hx & Htr). split_and!; try done.
  intros ->. destruct tr as [|x tr]; [done|].
  by destruct (Htr x) as [? _]; [by left|].
Qed.

Lemma registered_handler_gets_every_event_witness :
  well_formed demo_init ∅ /\
  exists b0 b' ram' tr,
    Button_RegisterHandler (Some demo_init) (Some 5%nat) (Some 6%nat)
    = (BUTTON_OK, Some b0) /\
    run b0 ∅ demo_press = Some (b', ram', tr) /\
    forall x, x ∈ tr -> Some 5%nat = Some (fn x) /\ ctx x = Some 6%nat.
Proof.
  assert (Hwf : well_formed demo_init ∅) by (left; split; reflexivity).
  split; [exact Hwf|].
  destruct (registered_handler_gets_every_event
              demo_init ∅ (Some 5%nat) (Some 6%nat) demo_press Hwf)
    as (b0 & b' & ram' & tr & Hreg & _ & Hrun & _ & _ & Htr & _).
  exists b0, b', ram', tr. split; [exact Hreg|]. split; [exact Hrun|exact Htr].
Defined.

(** X3.  With a handler registered, the events delivered by the state
    machine's own call sites follow the protocol Pressed, then LongPressed
    and any number of Hold, then Released: read in order from the phase the
    record is in, they lead to the phase it ends in.  A consumer can thus
    follow the button from the events alone. *)
Theorem events_track_the_phase b ram samples :
  well_formed b ram -> is_Some (callback b) ->
  exists b' ram' tr,
    run b ram samples = Some (b', ram', tr) /\
    replay (phase_of (last_state b)) (fsm_events tr)
    = Some (phase_of (last_state b')).
Proof.
  intros Hwf Hcb.
  destruct (run_total samples b ram Hwf) as (b' & ram' & tr & Hrun & _).
  exists b', ram', tr. split; [done|].
  clear Hwf. revert b ram b' ram' tr Hrun Hcb.
  induction samples as [|[pr t] rest IH]; intros b ram b' ram' tr Hrun Hcb.
  - cbn in Hrun. by inversion Hrun; subst.
  - apply run_cons_inv in Hrun as (b1 & ram1 & tr1 & tr2 & Hs & Hr & ->).
    rewrite fsm_events_app, replay_app.
    rewrite (poll_replay _ _ _ _ _ _ _ Hcb Hs).
    apply (IH _ _ _ _ _ Hr).
    destruct (fsm_switch_keeps_handler _ _ _ _ _ _ _ Hs) as [-> _]. done.
Qed.

Lemma events_track_the_phase_witness :
  well_formed demo_idle demo_ram /\
  is_Some (callback demo_idle) /\
  exists b' ram' tr,
    run demo_idle demo_ram demo_press = Some (b', ram', tr) /\
    replay phase_up (fsm_events tr) = Some (phase_of (last_state b')).
Proof.
  assert (Hcb : is_Some (callback demo_idle)) by (by eexists).
  split; [exact demo_idle_well_formed|]. split; [exact Hcb|].
  exact (events_track_the_phase demo_idle demo_ram demo_press
                                demo_idle_well_formed Hcb).
Defined.

(** A poll reads and writes the latch store at the record's own latch
    array only: its outcome is the same in every store that holds the same
    array there. *)
Lemma poll_local b cfg p ls pr t :
  configs (stages b) = Some cfg -> latches (stages b) = Some p ->
  (Z.to_nat (count (stages b)) <= length cfg)%nat ->
  (Z.to_nat (count (stages b)) <= length ls)%nat ->
  exists b' ls' tr,
    stages b' = stages b /\ length ls' = length ls /\
    forall ram, ram !! p = Some ls ->
                fsm_switch b ram pr t = Some (b', <[p := ls']> ram, tr).
Proof.
  intros Hc Hl Hn1 Hn2.
  destruct (decide (last_state b = STATE_LONG_PRESSED)) as [Hst|Hst].
  - destruct pr.
    + exists (after_hold b t),
        (scan_latches cfg (sub32 t (press_start_tick b))
                      (Z.to_nat (count (stages b))) ls),
        (stage_calls b cfg ls (sub32 t (press_start_tick b))
                     (Z.to_nat (count (stages b))) ++ hold_calls b t).
      split_and!; [apply after_hold_stages| |].
      * apply scan_latches_length.
      * intros ram Hp. unfold fsm_switch. rewrite Hst.
        by apply long_pressed_closed.
    + exists (set_last_state STATE_IDLE b),
        (clear_latches (Z.to_nat (count (stages b))) ls),
        (dispatch b at_long_release BUTTON_EVENT_RELEASED).
      split_and!; [done| |].
      * apply clear_latches_length.
      * intros ram Hp. unfold fsm_switch. rewrite Hst.
        by eapply long_release_closed.
  - destruct (other_states_frame b ∅ pr t Hst)
      as (b1 & tr1 & Hs & Hst1 & _).
    exists b1, ls, tr1. split_and!; [done..|].
    intros ram Hp. rewrite insert_id by done.
    revert Hs. unfold fsm_switch.
    destruct (last_state b); [| | |done].
    + by intros [= <- <-].
    + destruct (handle_state_debounce b pr t). by intros [= <- <-].
    + destruct (handle_state_pressed b pr t). by intros [= <- <-].
Qed.

(** X4.  Two buttons whose latch arrays are different arrays do not
    interfere: polling one and then the other gives the same two records,
    the same two traces and the same latch store as polling them in the
    other order, and no other array of the store is touched. *)
Theorem polls_of_two_buttons_commute b1 b2 ram cfg1 cfg2 p1 p2 ls1 ls2
        pr1 t1 pr2 t2 :
  attached b1 ram cfg1 p1 ls1 -> attached b2 ram cfg2 p2 ls2 -> p1 <> p2 ->
  exists b1' b2' tr1 tr2 ram_a ram_b ram',
    fsm_switch b1 ram pr1 t1 = Some (b1', ram_a, tr1) /\
    fsm_switch b2 ram_a pr2 t2 = Some (b2', ram', tr2) /\
    fsm_switch b2 ram pr2 t2 = Some (b2', ram_b, tr2) /\
    fsm_switch b1 ram_b pr1 t1 = Some (b1', ram', tr1) /\
    (forall q, q <> p1 -> q <> p2 -> ram' !! q = ram !! q) /\
    attached b1' ram' cfg1 p1 (default [] (ram' !! p1)) /\
    attached b2' ram' cfg2 p2 (default [] (ram' !! p2)).
Proof.
  intros (Hc1 & Hl1 & Hp1 & Hn1 & Hm1) (Hc2 & Hl2 & Hp2 & Hn2 & Hm2) Hne.
  destruct (poll_local b1 cfg1 p1 ls1 pr1 t1 Hc1 Hl1 Hn1 Hm1)
    as (b1' & ls1' & tr1 & Hs1 & Hlen1 & Hpoll1).
  destruct (poll_local b2 cfg2 p2 ls2 pr2 t2 Hc2 Hl2 Hn2 Hm2)
    as (b2' & ls2' & tr2 & Hs2 & Hlen2 & Hpoll2).
  exists b1', b2', tr1, tr2, (<[p1 := ls1']> ram), (<[p2 := ls2']> ram),
    (<[p2 := ls2']> (<[p1 := ls1']> ram)).
  split_and!.
  - by apply Hpoll1.
  - apply Hpoll2. by rewrite lookup_insert_ne.
  - by apply Hpoll2.
  - rewrite (insert_insert_ne ram p2 p1) by done.
    apply Hpoll1. by rewrite lookup_insert_ne.
  - intros q Hq1 Hq2. by rewrite !lookup_insert_ne.
  - rewrite lookup_insert_ne, lookup_insert_eq by done. cbn.
    unfold attached. rewrite Hs1, Hlen1.
    rewrite lookup_insert_ne, lookup_insert_eq by done. done.
  - rewrite lookup_insert_eq. cbn.
    unfold attached. rewrite Hs2, Hlen2, lookup_insert_eq. done.
Qed.

Lemma polls_of_two_buttons_commute_witness :
  attached demo_long demo_ram2 demo_cfg 7 [false; false] /\
  attached demo_long8 demo_ram2 demo_cfg 8 [false; false] /\
  exists b1' b2' tr1 tr2 ram_a ram_b ram',
    fsm_switch demo_long demo_ram2 true 4100 = Some (b1', ram_a, tr1) /\
    fsm_switch demo_long8 ram_a false 4200 = Some (b2', ram', tr2) /\
    fsm_switch demo_long8 demo_ram2 false 4200 = Some (b2', ram_b, tr2) /\
    fsm_switch demo_long ram_b true 4100 = Some (b1', ram', tr1).
Proof.
  assert (H1 : attached demo_long demo_ram2 demo_cfg 7 [false; false])
    by (unfold attached; cbn; split_and!; try reflexivity; lia).
  assert (H2 : attached demo_long8 demo_ram2 demo_cfg 8 [false; false])
    by (unfold attached; cbn; split_and!; try reflexivity; lia).
  split; [exact H1|]. split; [exact H2|].
  destruct (polls_of_two_buttons_commute
              demo_long demo_long8 demo_ram2 demo_cfg demo_cfg 7%nat 8%nat
              [false; false] [false; false] true 4100 false 4200 H1 H2)
    as (b1' & b2' & tr1 & tr2 & ra & rb & r' & E1 & E2 & E3 & E4 & _);
    [discriminate|].
  exists b1', b2', tr1, tr2, ra, rb, r'.
  split; [exact E1|]. split; [exact E2|]. split; [exact E3|exact E4].
Defined.

(** * Beyond the stated claims: the long press *)

Lemma run_pressed_wait samples :
  forall b ram,
    last_state b = STATE_PRESSED ->
    Forall (fun s : bool * Z =>
              s.1 = true /\
              sub32 s.2 (last_change_tick b) < BUTTON_LONG_PRESS_TICKS)
           samples ->
    run b ram samples = Some (b, ram, []).
Proof.
  induction samples as [|[pr t] rest IH]; intros b ram Hst Hall; [done|].
  inversion Hall as [|? ? [Hpr Hlt] Hrest]; subst. cbn in Hpr, Hlt. subst pr.
  cbn [run]. unfold fsm_switch, handle_state_pressed. rewrite Hst.
  cbn [negb]. apply geb_false in Hlt. rewrite Hlt. by rewrite IH.
Qed.

(** Held polls in LongPressed deliver Hold only, and none while the hold
    time is below LONG_PRESS_TICKS. *)
Lemma run_long_held samples :
  forall b ram,
    well_formed b ram -> last_state b = STATE_LONG_PRESSED ->
    Forall (fun s : bool * Z => s.1 = true) samples ->
    exists b' ram' tr,
      run b ram samples = Some (b', ram', tr) /\
      last_state b' = STATE_LONG_PRESSED /\
      press_start_tick b' = press_start_tick b /\
      Forall (eq BUTTON_EVENT_HOLD) (fsm_events tr) /\
      (Forall (fun s : bool * Z =>
                 sub32 s.2 (press_start_tick b) < BUTTON_LONG_PRESS_TICKS)
              samples ->
       fsm_events tr = [] /\ last_hold_tick b' = last_hold_tick b).
Proof.
  induction samples as [|[pr t] rest IH]; intros b ram Hwf Hst Hall.
  - exists b, ram, []. split_and!; try done; by constructor.
  - inversion Hall as [|? ? Hpr Hrest]; subst. cbn in Hpr. subst pr.
    destruct (long_pressed_poll b ram t Hwf Hst)
      as (ram1 & stage_tr & Hs & Hwf1 & Hev & _).
    assert (Hst1 : last_state (after_hold b t) = STATE_LONG_PRESSED)
      by (by rewrite after_hold_state).
    assert (Hps : press_start_tick (after_hold b t) = press_start_tick b)
      by (unfold after_hold; by destruct (hold_due b t)).
    destruct (IH _ ram1 Hwf1 Hst1 Hrest)
      as (b2 & ram2 & tr2 & Hrun & Hst2 & Hps2 & Hev2 & Hquiet).
    exists b2, ram2, ((stage_tr ++ hold_calls b t) ++ tr2).
    cbn [run]. rewrite Hs, Hrun. rewrite !fsm_events_app, Hev. cbn [app].
    split_and!; try done; try congruence.
    + apply Forall_app. split; [|done].
      unfold hold_calls, dispatch.
      destruct (hold_due b t), (callback b); cbn; by repeat constructor.
    + intros Hlt. inversion Hlt as [|? ? Hlt1 Hlt2]; subst. cbn in Hlt1.
      rewrite Hps in Hquiet. destruct (Hquiet Hlt2) as [-> Hh].
      assert (Hnot : hold_due b t = false).
      { unfold hold_due. apply geb_false in Hlt1. by rewrite Hlt1. }
      unfold hold_calls, after_hold in *. rewrite Hnot in *. done.
Qed.

(** X5.  From Pressed, with the button held: polls taken less than
    LONG_PRESS_TICKS after the press was validated change nothing and
    deliver nothing; the first poll at or after LONG_PRESS_TICKS moves to
    LongPressed and delivers LongPressed, once; whatever follows while the
    button stays down is Hold only, and no Hold comes before another
    LONG_PRESS_TICKS have elapsed since that poll. *)
Theorem long_press_fires_once_after_its_delay b ram waiting t1 more :
  well_formed b ram -> last_state b = STATE_PRESSED ->
  Forall (fun s : bool * Z =>
            s.1 = true /\
            sub32 s.2 (last_change_tick b) < BUTTON_LONG_PRESS_TICKS)
         waiting ->
  BUTTON_LONG_PRESS_TICKS <= sub32 t1 (last_change_tick b) ->
  Forall (fun s : bool * Z => s.1 = true) more ->
  run b ram waiting = Some (b, ram, []) /\
  exists b' ram' tr holds,
    run b ram (waiting ++ (true, t1) :: more) = Some (b', ram', tr) /\
    last_state b' = STATE_LONG_PRESSED /\
    press_start_tick b' = t1 /\
    Forall (eq BUTTON_EVENT_HOLD) holds /\
    fsm_events tr =
    match callback b with
    | Some _ => [BUTTON_EVENT_LONG_PRESSED]
    | None => []
    end ++ holds /\
    (Forall (fun s : bool * Z => sub32 s.2 t1 < BUTTON_LONG_PRESS_TICKS)
            more ->
     holds = [] /\ last_hold_tick b' = t1).
Proof.
  intros Hwf Hst Hwait Hge Hmore.
  pose proof (run_pressed_wait waiting b ram Hst Hwait) as Hw.
  split; [done|].
  set (b1 := set_last_hold_tick t1
               (set_press_start_tick t1
                  (set_last_change_tick t1
                     (set_last_state STATE_LONG_PRESSED b)))).
  assert (Hs : fsm_switch b ram true t1 =
               Some (b1, ram,
                     dispatch b at_pressed_long BUTTON_EVENT_LONG_PRESSED)).
  { unfold fsm_switch, handle_state_pressed. rewrite Hst. cbn [negb].
    apply geb_true in Hge. by rewrite Hge. }
  assert (Hwf1 : well_formed b1 ram) by (by eapply well_formed_stages).
  destruct (run_long_held more b1 ram Hwf1 eq_refl Hmore)
    as (b2 & ram2 & tr2 & Hrun & Hst2 & Hps2 & Hev2 & Hquiet).
  exists b2, ram2,
    (dispatch b at_pressed_long BUTTON_EVENT_LONG_PRESSED ++ tr2),
    (fsm_events tr2).
  rewrite run_app, Hw. cbn [run app]. rewrite Hs, Hrun.
  split_and!; try done.
  - by rewrite fsm_events_app, fsm_events_dispatch.
Qed.

Lemma long_press_fires_once_after_its_delay_witness :
  well_formed demo_pressed demo_ram /\
  BUTTON_LONG_PRESS_TICKS <= sub32 1100 (last_change_tick demo_pressed) /\
  exists b' ram' tr,
    run demo_pressed demo_ram ([(true, 500)] ++ (true, 1100) :: [(true, 1600)])
    = Some (b', ram', tr) /\
    fsm_events tr = [BUTTON_EVENT_LONG_PRESSED] /\
    last_hold_tick b' = 1100.
Proof.
  split; [exact demo_pressed_well_formed|].
  split; [vm_compute; discriminate|].
  destruct (long_press_fires_once_after_its_delay
              demo_pressed demo_ram [(true, 500)] 1100 [(true, 1600)]
              demo_pressed_well_formed eq_refl)
    as [_ (b' & ram' & tr & holds & Hrun & _ & _ & _ & Hev & Hquiet)].
  - repeat constructor.
  - vm_compute; discriminate.
  - repeat constructor.
  - destruct Hquiet as [-> Hh]; [repeat constructor|].
    exists b', ram', tr. split; [exact Hrun|]. split; [exact Hev|exact Hh].
Defined.

(** * Beyond the stated claims: [Button_Update] and polarity *)

(** The switch does not read the polarity. *)
Lemma fsm_switch_set_active_level v b ram pr t :
  fsm_switch (set_active_level v b) ram pr t =
  match fsm_switch b ram pr t with
  | Some (b', ram', tr) => Some (set_active_level v b', ram', tr)
  | None => None
  end.
Proof.
  unfold fsm_switch. cbn [set_active_level last_state].
  destruct (last_state b).
  - unfold handle_state_idle. by destruct pr.
  - unfold handle_state_debounce. cbn [set_active_level last_change_tick].
    destruct (sub32 t (last_change_tick b) >=? BUTTON_DEBOUNCE_TICKS);
      [|done]. by destruct pr.
  - unfold handle_state_pressed. cbn [set_active_level last_change_tick].
    destruct pr; cbn [negb]; [|done].
    by destruct (sub32 t (last_change_tick b) >=? BUTTON_LONG_PRESS_TICKS).
  - unfold handle_state_long.
    cbn [set_active_level set_last_state stages press_start_tick
         last_hold_tick].
    change (stage_body (set_active_level v b)) with (stage_body b).
    destruct pr; cbn [negb].
    + destruct (match configs (stages b) with Some _ => _ | None => _ end)
        as [[r tr0]|]; [|done].
      by hold_tests b t.
    + by destruct (match latches (stages b) with Some _ => _ | None => _ end).
Qed.

(** X6.  The polarity mapping of [Button_Update]: on an active-low button
    a low pin level is a press, on an active-high button a high level is,
    and apart from that the two behave alike: an active-low button polled
    with level [pin] and the same button made active-high polled with the
    opposite level return BUTTON_OK, the same record up to the polarity
    field, the same latches and the same trace, namely those of the switch
    run with [is_pressed = not pin]. *)
Theorem active_low_mirrors_active_high b ram pin now :
  well_formed b ram ->
  is_Some (read_pin_func b) -> is_Some (get_tick_func b) ->
  exists b' ram' tr,
    fsm_switch b ram (negb pin) now = Some (b', ram', tr) /\
    Button_Update (Some (set_active_level BUTTON_ACTIVE_LOW b)) ram pin now
    = Some (BUTTON_OK, Some (set_active_level BUTTON_ACTIVE_LOW b'),
            ram', tr) /\
    Button_Update (Some (set_active_level BUTTON_ACTIVE_HIGH b)) ram
                  (negb pin) now
    = Some (BUTTON_OK, Some (set_active_level BUTTON_ACTIVE_HIGH b'),
            ram', tr).
Proof.
  intros Hwf [r Hr] [k Hk].
  destruct (fsm_switch_total b ram (negb pin) now Hwf) as [[[b' ram'] tr] Hs].
  exists b', ram', tr. split; [done|].
  unfold Button_Update.
  cbn [set_active_level read_pin_func get_tick_func active_level
       is_pressed_of].
  rewrite Hr, Hk, !fsm_switch_set_active_level, Hs. done.
Qed.

Lemma active_low_mirrors_active_high_witness :
  well_formed demo_idle demo_ram /\
  exists b' ram' tr,
    fsm_switch demo_idle demo_ram true 10 = Some (b', ram', tr) /\
    Button_Update (Some (set_active_level BUTTON_ACTIVE_LOW demo_idle))
                  demo_ram false 10
    = Some (BUTTON_OK, Some (set_active_level BUTTON_ACTIVE_LOW b'),
            ram', tr) /\
    Button_Update (Some (set_active_level BUTTON_ACTIVE_HIGH demo_idle))
                  demo_ram true 10
    = Some (BUTTON_OK, Some (set_active_level BUTTON_ACTIVE_HIGH b'),
            ram', tr).
Proof.
  split; [exact demo_idle_well_formed|].
  apply (active_low_mirrors_active_high demo_idle demo_ram false 10
           demo_idle_well_formed).
  - by eexists.
  - by eexists.
Defined.

(** * Beyond the stated claims: initialisation and teardown *)

Lemma run_no_handler samples :
  forall b ram b' ram' tr,
    callback b = None ->
    run b ram samples = Some (b', ram', tr) -> tr = [].
Proof.
  induction samples as [|[pr t] rest IH]; intros b ram b' ram' tr Hcb Hrun.
  - cbn in Hrun. by inversion Hrun.
  - apply run_cons_inv in Hrun as (b1 & ram1 & tr1 & tr2 & Hs & Hr & ->).
    rewrite (fsm_switch_no_handler _ _ _ _ _ _ _ Hcb Hs). cbn [app].
    eapply IH; [|exact Hr].
    destruct (fsm_switch_keeps_handler _ _ _ _ _ _ _ Hs) as [-> _]. done.
Qed.

(** X7.  [Button_Init] fails with InvalidArgument, leaving the record as it
    was, exactly when the record or a capability is null or the polarity is
    out of range.  Otherwise the record it makes does not depend on what
    the record held before: state Idle, the three ticks at the current
    tick, no handler, no stage manager.  Whatever is polled on it then,
    before anything is registered or configured, is defined, touches no
    latch store and invokes nothing, and [Button_Update] accepts it. *)
Theorem init_fails_or_starts_afresh button gpio level read_fn tick_fn now :
  (button = None \/ read_fn = None \/ tick_fn = None \/
   level = BUTTON_ACTIVE_MAX ->
   Button_Init button gpio level read_fn tick_fn now
   = (BUTTON_ERR_INVALID_ARG, button)) /\
  (is_Some button -> is_Some read_fn -> is_Some tick_fn ->
   level <> BUTTON_ACTIVE_MAX ->
   exists b,
     Button_Init button gpio level read_fn tick_fn now = (BUTTON_OK, Some b) /\
     (forall old,
         Button_Init (Some old) gpio level read_fn tick_fn now
         = (BUTTON_OK, Some b)) /\
     last_state b = STATE_IDLE /\
     last_change_tick b = now /\ press_start_tick b = now /\
     last_hold_tick b = now /\
     gpio_num b = gpio /\ active_level b = level /\
     callback b = None /\ context b = None /\
     stages b = {| configs := None; latches := None; count := 0 |} /\
     (forall ram samples,
         exists b', run b ram samples = Some (b', ram, [])) /\
     (forall ram pin now',
         exists b',
           Button_Update (Some b) ram pin now'
           = Some (BUTTON_OK, Some b', ram, []))).
Proof.
  split.
  - unfold Button_Init. intros H.
    destruct button, read_fn, tick_fn, level; try done;
      destruct H as [H|[H|[H|H]]]; done.
  - intros [old ->] [r ->] [k ->] Hlevel.
    eexists. split; [|split].
    + unfold Button_Init. destruct level; [reflexivity|reflexivity|done].
    + intros old'. unfold Button_Init. by destruct level.
    + cbn. split_and!; try done.
      * intros ram samples.
        edestruct (zero_count_run samples) as (b' & tr & Hrun & _);
          [|exists b'; rewrite Hrun; f_equal; f_equal;
            eapply run_no_handler; [|exact Hrun]; reflexivity].
        reflexivity.
      * intros ram pin now'. unfold Button_Update. cbn.
        destruct (is_pressed_of level pin); by eexists.
Qed.

Lemma init_fails_or_starts_afresh_witness :
  is_Some (Some demo_long) /\ BUTTON_ACTIVE_LOW <> BUTTON_ACTIVE_MAX /\
  exists b,
    Button_Init (Some demo_long) 4 BUTTON_ACTIVE_LOW (Some 2%nat)
                (Some 3%nat) 0
    = (BUTTON_OK, Some b) /\
    last_state b = STATE_IDLE /\
    stages b = {| configs := None; latches := None; count := 0 |}.
Proof.
  assert (Hb : is_Some (Some demo_long)) by (by eexists).
  assert (Hl : BUTTON_ACTIVE_LOW <> BUTTON_ACTIVE_MAX) by discriminate.
  split; [exact Hb|]. split; [exact Hl|].
  destruct (init_fails_or_starts_afresh
              (Some demo_long) 4 BUTTON_ACTIVE_LOW (Some 2%nat) (Some 3%nat) 0)
    as [_ Hok].
  destruct (Hok Hb (ex_intro _ _ eq_refl) (ex_intro _ _ eq_refl) Hl)
    as (b & Hinit & _ & Hst & _ & _ & _ & _ & _ & _ & _ & Hsg & _).
  exists b. split; [exact Hinit|]. split; [exact Hst|exact Hsg].
Defined.

(** When the caller keeps its side, [Button_ConfigStages] is defined and
    either leaves the record or attaches arrays that are large enough. *)
Lemma config_stages_total b cfgs lat cnt ram :
  call_ok ram (call_ConfigStages cfgs lat cnt) ->
  exists e b1,
    Button_ConfigStages (Some b) cfgs lat cnt = Some (e, Some b1) /\
    (b1 = b \/
     exists cfg p ls,
       b1 = set_stages {| configs := cfgs; latches := lat; count := cnt |} b /\
       attached b1 ram cfg p ls).
Proof.
  intros (Hcnt & Hcfg & Hlat). unfold Button_ConfigStages.
  destruct cfgs as [cfg|], lat as [p|];
    try (eexists _, _; split; [reflexivity|by left]).
  destruct (cnt =? 0) eqn:E0; [eexists _, _; split; [reflexivity|by left]|].
  specialize (Hcfg cfg eq_refl). destruct (Hlat p eq_refl) as (ls & Hp & Hl).
  destruct (validate_stages_total cfg cnt) as [[|] Hv]; [lia|done| |];
    rewrite Hv.
  - eexists _, _. split; [reflexivity|]. right. exists cfg, p, ls.
    split; [done|]. unfold attached. cbn. done.
  - eexists _, _. split; [reflexivity|by left].
Qed.

(** X8.  [Button_Deinit] fails on a null record and otherwise leaves the
    all-zero record, whatever the record held.  On a record without its
    capabilities, such as that one, [Button_Update] returns InvalidArgument
    and does nothing: the record and the latches are as before and nothing
    is invoked.  This stays so through any calls other than [Button_Init]:
    stages can be configured and a handler registered on such a record,
    but it is not polled. *)
Theorem deinit_disables_polling :
  Button_Deinit None = (BUTTON_ERR_INVALID_ARG, None) /\
  (forall b,
      Button_Deinit (Some b) = (BUTTON_OK, Some button_zero) /\
      uninitialised button_zero) /\
  (forall b ram,
      uninitialised b ->
      (forall pin now,
          Button_Update (Some b) ram pin now
          = Some (BUTTON_ERR_INVALID_ARG, Some b, ram, [])) /\
      forall calls,
        Forall (fun c => call_ok ram c /\ is_init_call c = false) calls ->
        exists b',
          api_run b ram calls = Some (b', ram, []) /\ uninitialised b').
Proof.
  split; [done|]. split; [intros b; split; [done|by left]|].
  assert (Hupd : forall b ram pin now,
             uninitialised b ->
             Button_Update (Some b) ram pin now
             = Some (BUTTON_ERR_INVALID_ARG, Some b, ram, [])).
  { intros b ram pin now [H|H]; unfold Button_Update; rewrite H; [done|].
    by destruct (read_pin_func b). }
  intros b ram Hun. split; [intros; by apply Hupd|].
  intros calls. revert b Hun.
  induction calls as [|c rest IH]; intros b Hun Hall.
  - by exists b.
  - inversion Hall as [|? ? [Hok Hni] Hrest]; subst.
    assert (Hstep : exists e b1,
               api_step (Some b) ram c = Some (e, Some b1, ram, []) /\
               uninitialised b1).
    { destruct c; cbn [api_step]; try done.
      - destruct (config_stages_total b cfgs lat cnt ram Hok)
          as (e & b1 & -> & [->|(cfg & p & ls & -> & _)]);
          eexists _, _; (split; [reflexivity|done]).
      - rewrite Hupd by done. by eexists _, _.
      - eexists _, _. split; [reflexivity|done].
      - eexists _, _. split; [reflexivity|done].
      - eexists _, _. split; [reflexivity|by left]. }
    destruct Hstep as (e & b1 & Hs & Hun1).
    destruct (IH b1 Hun1 Hrest) as (b2 & Hrun & Hun2).
    exists b2. cbn [api_run]. by rewrite Hs, Hrun.
Qed.

Lemma deinit_disables_polling_witness :
  uninitialised button_zero /\
  Forall (fun c => call_ok demo_ram c /\ is_init_call c = false) demo_calls /\
  exists b',
    api_run button_zero demo_ram demo_calls = Some (b', demo_ram, []) /\
    uninitialised b'.
Proof.
  assert (Hun : uninitialised button_zero) by (left; reflexivity).
  assert (Hall : Forall (fun c => call_ok demo_ram c /\ is_init_call c = false)
                        demo_calls).
  { repeat constructor; cbn; try lia.
    - intros cfg [= <-]. cbn. lia.
    - intros p [= <-]. exists [false; false]. split; [reflexivity|cbn; lia]. }
  split; [exact Hun|]. split; [exact Hall|].
  destruct deinit_disables_polling as (_ & _ & Hrej).
  destruct (Hrej button_zero demo_ram Hun) as [_ Hcalls].
  exact (Hcalls demo_calls Hall).
Defined.

(** * Beyond the stated claims: validation and bounds *)

Lemma validate_loop_take cfg k n :
  forall i, (i + n <= k)%nat ->
            validate_loop (take k cfg) i n = validate_loop cfg i n.
Proof.
  induction n as [|n IH]; intros i Hi; [done|].
  cbn [validate_loop]. rewrite !lookup_take_lt by lia.
  destruct (cfg !! i) as [ci|]; [|done].
  destruct (cfg !! (i - 1)%nat) as [cp|]; [|done].
  destruct (threshold ci <=? threshold cp); [done|]. apply IH. lia.
Qed.

(** X9.  [validate_stages] reads the first [count] entries of the array
    and nothing after them: the verdict is that on the array cut to
    [count] entries.  A configuration it accepts is also accepted with any
    smaller nonzero count. *)
Theorem validation_reads_count_entries cfg cnt :
  0 < cnt -> (Z.to_nat cnt <= length cfg)%nat ->
  validate_stages (Some (take (Z.to_nat cnt) cfg)) cnt
  = validate_stages (Some cfg) cnt /\
  (forall more,
      validate_stages (Some (take (Z.to_nat cnt) cfg ++ more)) cnt
      = validate_stages (Some cfg) cnt) /\
  (validate_stages (Some cfg) cnt = Some true ->
   forall m, 0 < m <= cnt -> validate_stages (Some cfg) m = Some true).
Proof.
  intros Hc Hl.
  assert (Hcut : forall l,
             (Z.to_nat cnt <= length l)%nat ->
             validate_stages (Some (take (Z.to_nat cnt) l)) cnt
             = validate_stages (Some l) cnt).
  { intros l Hlen. unfold validate_stages. rewrite lookup_take_lt by lia.
    destruct (cnt =? 0); [done|]. destruct (l !! 0%nat) as [c0|]; [|done].
    destruct (threshold c0 =? 0); [done|]. apply validate_loop_take. lia. }
  split; [by apply Hcut|]. split.
  - intros more. rewrite <- (Hcut cfg Hl).
    rewrite <- (Hcut (take (Z.to_nat cnt) cfg ++ more)).
    + by rewrite take_app_length' by (rewrite length_take; lia).
    + rewrite length_app, length_take. lia.
  - intros Hv m Hm. apply validate_stages_true; [lia|].
    apply validate_stages_true in Hv as [H0 Hinc]; [|done].
    split; [done|]. intros i j Hij. apply Hinc. lia.
Qed.

Lemma validation_reads_count_entries_witness :
  0 < 2 /\ (Z.to_nat 2 <= length (demo_cfg ++ flat_cfg))%nat /\
  validate_stages (Some (demo_cfg ++ flat_cfg)) 2 = Some true /\
  validate_stages (Some (demo_cfg ++ flat_cfg)) 1 = Some true.
Proof.
  assert (H0 : 0 < 2) by lia.
  assert (Hl : (Z.to_nat 2 <= length (demo_cfg ++ flat_cfg))%nat)
    by (cbn; lia).
  split; [exact H0|]. split; [exact Hl|].
  destruct (validation_reads_count_entries (demo_cfg ++ flat_cfg) 2 H0 Hl)
    as (Hcut & _ & Hless).
  assert (Hv : validate_stages (Some (demo_cfg ++ flat_cfg)) 2 = Some true)
    by (rewrite <- Hcut; reflexivity).
  split; [exact Hv|]. apply (Hless Hv). lia.
Defined.

(** One call of the public interface, the caller keeping its side: it is
    defined and leaves a well-formed record. *)
Lemma api_step_safe b ram c :
  well_formed b ram -> call_ok ram c ->
  exists e b1 ram1 tr1,
    api_step (Some b) ram c = Some (e, Some b1, ram1, tr1) /\
    well_formed b1 ram1.
Proof.
  intros Hwf Hok. destruct c; cbn [api_step].
  - unfold Button_Init.
    destruct read_fn, tick_fn, level;
      eexists _, _, _, _; (split; [reflexivity|]); try done;
      by left.
  - destruct (config_stages_total b cfgs lat cnt ram Hok)
      as (e & b1 & -> & [->|(cfg & p & ls & _ & Hatt)]);
      eexists _, _, _, _; (split; [reflexivity|]); [done|].
    right. by exists cfg, p, ls.
  - unfold Button_Update.
    destruct (read_pin_func b), (get_tick_func b);
      try (eexists _, _, _, _; split; [reflexivity|done]).
    destruct (fsm_switch_total b ram (is_pressed_of (active_level b) pin_state)
                               now Hwf) as [[[b1 ram1] tr1] Hs].
    rewrite Hs. eexists _, _, _, _. split; [reflexivity|].
    by eapply fsm_switch_well_formed.
  - eexists _, _, _, _. split; [reflexivity|].
    by eapply well_formed_stages.
  - eexists _, _, _, _. split; [reflexivity|].
    by eapply well_formed_stages.
  - eexists _, _, _, _. split; [reflexivity|]. by left.
Qed.

(** X10.  No call of the public interface reads or writes outside the
    arrays it was given: starting from a well-formed record (a fresh one,
    or one whose attached arrays hold [count] entries), any sequence of
    calls in which each [Button_ConfigStages] is passed arrays of at least
    [count] entries is defined throughout and ends in a well-formed
    record. *)
Theorem interface_stays_within_its_arrays b ram calls :
  well_formed b ram -> calls_ok b ram calls ->
  exists b' ram' tr,
    api_run b ram calls = Some (b', ram', tr) /\ well_formed b' ram'.
Proof.
  revert b ram. induction calls as [|c rest IH]; intros b ram Hwf Hok.
  - by exists b, ram, [].
  - destruct Hok as [Hc Hrest].
    destruct (api_step_safe b ram c Hwf Hc)
      as (e & b1 & ram1 & tr1 & Hs & Hwf1).
    rewrite Hs in Hrest.
    destruct (IH b1 ram1 Hwf1 Hrest) as (b2 & ram2 & tr2 & Hrun & Hwf2).
    exists b2, ram2, (tr1 ++ tr2). cbn [api_run]. by rewrite Hs, Hrun.
Qed.

Lemma interface_stays_within_its_arrays_witness :
  well_formed demo_init demo_ram /\
  calls_ok demo_init demo_ram demo_calls /\
  exists b' ram' tr,
    api_run demo_init demo_ram demo_calls = Some (b', ram', tr) /\
    well_formed b' ram'.
Proof.
  assert (Hwf : well_formed demo_init demo_ram) by (left; split; reflexivity).
  assert (Hok : calls_ok demo_init demo_ram demo_calls).
  { cbn. split_and!; try done; try lia.
    - intros cfg [= <-]. cbn. lia.
    - intros p [= <-]. exists [false; false]. split; [reflexivity|cbn; lia]. }
  split; [exact Hwf|]. split; [exact Hok|].
  exact (interface_stays_within_its_arrays demo_init demo_ram demo_calls
                                           Hwf Hok).
Defined.

(** * Beyond the stated claims: the latch store *)

(** One poll, seen from the latch store. *)
Lemma poll_store_step b ram cfg p ls pr t :
  attached b ram cfg p ls ->
  exists b' ls' tr,
    fsm_switch b ram pr t = Some (b', <[p := ls']> ram, tr) /\
    stages b' = stages b /\ length ls' = length ls /\
    (forall i, (Z.to_nat (count (stages b)) <= i)%nat ->
               ls' !! i = ls !! i) /\
    (last_state b <> STATE_LONG_PRESSED -> ls' = ls) /\
    (last_state b = STATE_LONG_PRESSED -> pr = true ->
     last_state b' = STATE_LONG_PRESSED) /\
    (last_state b = STATE_LONG_PRESSED -> pr = false ->
     forall i, (i < Z.to_nat (count (stages b)))%nat ->
               ls' !! i = Some false).
Proof.
  intros Hatt. pose proof Hatt as (Hc & Hl & Hp & Hn1 & Hn2).
  destruct (decide (last_state b = STATE_LONG_PRESSED)) as [Hst|Hst].
  - destruct pr.
    + exists (after_hold b t),
        (scan_latches cfg (sub32 t (press_start_tick b))
                      (Z.to_nat (count (stages b))) ls),
        (stage_calls b cfg ls (sub32 t (press_start_tick b))
                     (Z.to_nat (count (stages b))) ++ hold_calls b t).
      unfold fsm_switch. rewrite Hst.
      split; [by apply long_pressed_closed|].
      split_and!; try done.
      * apply after_hold_stages.
      * apply scan_latches_length.
      * intros i Hi. rewrite scan_latches_lookup.
        destruct (ls !! i); cbn; [|done]. case_decide; [lia|done].
      * intros _ _. by rewrite after_hold_state.
    + exists (set_last_state STATE_IDLE b),
        (clear_latches (Z.to_nat (count (stages b))) ls),
        (dispatch b at_long_release BUTTON_EVENT_RELEASED).
      unfold fsm_switch. rewrite Hst.
      split; [by eapply long_release_closed|].
      split_and!; try done.
      * apply clear_latches_length.
      * intros i Hi. by apply clear_latches_above.
      * intros _ _ i Hi. by apply clear_latches_below.
  - destruct (other_states_frame b ram pr t Hst)
      as (b1 & tr1 & Hs & Hst1 & _).
    exists b1, ls, tr1. rewrite insert_id by done.
    split_and!; done.
Qed.

(** X11.  Polls write to the record's own latch array only, and only to
    its first [count] entries: after any sequence of polls every other
    array of the store is as before, the array has its length, and its
    entries from [count] on are as before. *)
Theorem polls_write_own_latches_only b ram cfg p ls samples :
  attached b ram cfg p ls ->
  exists b' ls' tr,
    run b ram samples = Some (b', <[p := ls']> ram, tr) /\
    length ls' = length ls /\
    (forall i, (Z.to_nat (count (stages b)) <= i)%nat ->
               ls' !! i = ls !! i) /\
    (forall q, q <> p -> (<[p := ls']> ram) !! q = ram !! q).
Proof.
  revert b ram ls.
  induction samples as [|[pr t] rest IH]; intros b ram ls Hatt.
  - exists b, ls, []. pose proof Hatt as (_ & _ & Hp & _).
    rewrite insert_id by done. split_and!; done.
  - destruct (poll_store_step b ram cfg p ls pr t Hatt)
      as (b1 & ls1 & tr1 & Hs & Hst1 & Hlen1 & Hhi1 & _).
    assert (Hatt1 : attached b1 (<[p := ls1]> ram) cfg p ls1)
      by (by eapply attached_insert).
    destruct (IH b1 _ ls1 Hatt1) as (b2 & ls2 & tr2 & Hrun & Hlen2 & Hhi2 & _).
    rewrite insert_insert_eq in Hrun.
    exists b2, ls2, (tr1 ++ tr2). cbn [run]. rewrite Hs, Hrun.
    split_and!; [done|congruence| |].
    + intros i Hi. rewrite Hhi2 by (by rewrite Hst1). by apply Hhi1.
    + intros q Hq. by rewrite lookup_insert_ne.
Qed.

Lemma polls_write_own_latches_only_witness :
  attached demo_long demo_ram2 demo_cfg 7 [false; false] /\
  exists b' ls' tr,
    run demo_long demo_ram2 [(true, 4100); (false, 4200)]
    = Some (b', <[7%nat := ls']> demo_ram2, tr) /\
    (<[7%nat := ls']> demo_ram2) !! 8%nat = demo_ram2 !! 8%nat.
Proof.
  assert (H1 : attached demo_long demo_ram2 demo_cfg 7 [false; false])
    by (unfold attached; cbn; split_and!; try reflexivity; lia).
  split; [exact H1|].
  destruct (polls_write_own_latches_only
              demo_long demo_ram2 demo_cfg 7%nat [false; false]
              [(true, 4100); (false, 4200)] H1)
    as (b' & ls' & tr & Hrun & _ & _ & Hq).
  exists b', ls', tr. split; [exact Hrun|]. apply Hq. discriminate.
Defined.

(** X12.  Stages are armed outside a long press: if every latch below
    [count] is clear whenever the record is not in LongPressed, this is
    still so after any sequence of polls.  So with latches that start
    clear, each entry into LongPressed finds all of them clear. *)
Theorem latches_clear_outside_long_press b ram cfg p ls samples :
  attached b ram cfg p ls ->
  (last_state b <> STATE_LONG_PRESSED ->
   forall i, (i < Z.to_nat (count (stages b)))%nat -> ls !! i = Some false) ->
  exists b' ls' tr,
    run b ram samples = Some (b', <[p := ls']> ram, tr) /\
    (last_state b' <> STATE_LONG_PRESSED ->
     forall i, (i < Z.to_nat (count (stages b)))%nat ->
               ls' !! i = Some false).
Proof.
  revert b ram ls.
  induction samples as [|[pr t] rest IH]; intros b ram ls Hatt Hinv.
  - exists b, ls, []. pose proof Hatt as (_ & _ & Hp & _).
    rewrite insert_id by done. done.
  - destruct (poll_store_step b ram cfg p ls pr t Hatt)
      as (b1 & ls1 & tr1 & Hs & Hst1 & Hlen1 & _ & Hsame & Hstay & Hclr).
    assert (Hatt1 : attached b1 (<[p := ls1]> ram) cfg p ls1)
      by (by eapply attached_insert).
    destruct (IH b1 _ ls1 Hatt1) as (b2 & ls2 & tr2 & Hrun & Hinv2).
    + rewrite Hst1. intros Hn1.
      destruct (decide (last_state b = STATE_LONG_PRESSED)) as [Hst|Hst].
      * destruct pr; [by destruct Hn1; apply Hstay|by apply Hclr].
      * rewrite (Hsame Hst). by apply Hinv.
    + rewrite insert_insert_eq in Hrun. rewrite Hst1 in Hinv2.
      exists b2, ls2, (tr1 ++ tr2). cbn [run]. by rewrite Hs, Hrun.
Qed.

Lemma latches_clear_outside_long_press_witness :
  attached demo_idle demo_ram demo_cfg 7 [false; false] /\
  exists b' ls' tr,
    run demo_idle demo_ram (demo_press ++ [(false, 5100)])
    = Some (b', <[7%nat := ls']> demo_ram, tr) /\
    (last_state b' <> STATE_LONG_PRESSED ->
     forall i, (i < 2)%nat -> ls' !! i = Some false).
Proof.
  assert (H1 : attached demo_idle demo_ram demo_cfg 7 [false; false])
    by (unfold attached; cbn; split_and!; try reflexivity; lia).
  split; [exact H1|].
  apply (latches_clear_outside_long_press
           demo_idle demo_ram demo_cfg 7%nat [false; false]
           (demo_press ++ [(false, 5100)]) H1).
  intros _ i Hi. destruct i as [|[|i]]; [reflexivity|reflexivity|].
  cbn in Hi. lia.
Defined.

(** * Beyond the stated claims: the rate of Hold *)

Lemma sub32_small a b : 0 <= a - b < 2 ^ 32 -> sub32 a b = a - b.
Proof. intros H. unfold sub32. by apply Z.mod_small. Qed.

(** X13.  Hold is rate-limited.  In LongPressed, over polls with the
    button held whose ticks do not decrease and do not wrap, every event of
    the state machine is a Hold, and at least HOLD_TICKS lie between the
    recorded tick and the first Hold and between one Hold and the next: the
    number of Holds times HOLD_TICKS is at most the advance of
    [last_hold_tick], which never runs ahead of the ticks polled. *)
Theorem hold_rate_is_bounded samples :
  forall b ram,
    well_formed b ram -> last_state b = STATE_LONG_PRESSED ->
    Forall (fun s : bool * Z =>
              s.1 = true /\ last_hold_tick b <= s.2 < 2 ^ 32) samples ->
    0 <= last_hold_tick b ->
    StronglySorted (fun s1 s2 : bool * Z => s1.2 <= s2.2) samples ->
    exists b' ram' tr,
      run b ram samples = Some (b', ram', tr) /\
      Forall (eq BUTTON_EVENT_HOLD) (fsm_events tr) /\
      BUTTON_HOLD_TICKS * Z.of_nat (length (fsm_events tr))
      <= last_hold_tick b' - last_hold_tick b /\
      forall T, last_hold_tick b <= T ->
                Forall (fun s : bool * Z => s.2 <= T) samples ->
                last_hold_tick b' <= T.
Proof.
  induction samples as [|[pr t] rest IH]; intros b ram Hwf Hst Hall H0 Hsort.
  - exists b, ram, []. cbn. split_and!; try done; try (by constructor).
    unfold BUTTON_HOLD_TICKS. lia.
  - inversion Hall as [|? ? (Hpr & Hlo & Hhi) Hrest]; subst.
    cbn in Hpr, Hlo, Hhi. subst pr.
    apply StronglySorted_cons in Hsort as [Hle Hsort].
    destruct (long_pressed_poll b ram t Hwf Hst)
      as (ram1 & stage_tr & Hs & Hwf1 & Hev & _).
    assert (Hst1 : last_state (after_hold b t) = STATE_LONG_PRESSED)
      by (by rewrite after_hold_state).
    assert (Hsub : sub32 t (last_hold_tick b) = t - last_hold_tick b)
      by (apply sub32_small; lia).
    assert (Hcase :
              (hold_due b t = true /\
               BUTTON_HOLD_TICKS <= t - last_hold_tick b /\
               last_hold_tick (after_hold b t) = t) \/
              (hold_due b t = false /\
               last_hold_tick (after_hold b t) = last_hold_tick b)).
    { unfold after_hold. destruct (hold_due b t) eqn:Ed; [left|by right].
      split; [done|]. split; [|done]. unfold hold_due in Ed.
      apply andb_true_iff in Ed as [_ Ed]. apply geb_true in Ed. lia. }
    assert (Hrest1 : Forall (fun s : bool * Z =>
                s.1 = true /\
                last_hold_tick (after_hold b t) <= s.2 < 2 ^ 32) rest).
    { apply Forall_forall. intros s Hin.
      rewrite Forall_forall in Hrest, Hle.
      destruct (Hrest s Hin) as (? & ? & ?). specialize (Hle s Hin).
      cbn in Hle. split; [done|].
      destruct Hcase as [(_ & _ & ->)|(_ & ->)]; lia. }
    assert (H01 : 0 <= last_hold_tick (after_hold b t))
      by (destruct Hcase as [(_ & _ & ->)|(_ & ->)]; lia).
    destruct (IH _ ram1 Hwf1 Hst1 Hrest1 H01 Hsort)
      as (b2 & ram2 & tr2 & Hrun & Hev2 & Hrate & Hcap).
    exists b2, ram2, ((stage_tr ++ hold_calls b t) ++ tr2).
    cbn [run]. rewrite Hs, Hrun. rewrite !fsm_events_app, Hev. cbn [app].
    assert (Hlen : (length (fsm_events (hold_calls b t)) <= 1)%nat /\
                   (hold_due b t = false ->
                    fsm_events (hold_calls b t) = []) /\
                   Forall (eq BUTTON_EVENT_HOLD) (fsm_events (hold_calls b t))).
    { unfold hold_calls, dispatch.
      destruct (hold_due b t), (callback b); cbn;
        split_and!; try done; try lia; by repeat constructor. }
    destruct Hlen as (Hlen & Hnone & Hholds).
    split_and!; [done|by apply Forall_app| |].
    + rewrite length_app. unfold BUTTON_HOLD_TICKS in *.
      destruct Hcase as [(_ & Hge & Ht)|(Hf & Ht)].
      * rewrite Ht in Hrate. lia.
      * rewrite Ht in Hrate. rewrite (Hnone Hf). cbn. lia.
    + intros T HT HallT. inversion HallT as [|? ? HtT HrestT]; subst.
      cbn in HtT. apply Hcap; [|done].
      destruct Hcase as [(_ & _ & ->)|(_ & ->)]; lia.
Qed.

Lemma hold_rate_is_bounded_witness :
  well_formed demo_long demo_ram /\
  exists b' ram' tr,
    run demo_long demo_ram [(true, 2100); (true, 2120); (true, 2160)]
    = Some (b', ram', tr) /\
    BUTTON_HOLD_TICKS * Z.of_nat (length (fsm_events tr))
    <= last_hold_tick b' - last_hold_tick demo_long /\
    last_hold_tick b' <= 2160.
Proof.
  split; [exact demo_long_well_formed|].
  destruct (hold_rate_is_bounded
              [(true, 2100); (true, 2120); (true, 2160)]
              demo_long demo_ram demo_long_well_formed eq_refl)
    as (b' & ram' & tr & Hrun & _ & Hrate & Hcap).
  - repeat constructor; cbn; lia.
  - cbn; lia.
  - repeat constructor; cbn; lia.
  - exists b', ram', tr. split; [exact Hrun|]. split; [exact Hrate|].
    apply Hcap; [cbn; lia|]. repeat constructor; cbn; lia.
Defined.

(** * Beyond the stated claims: how much a poll invokes, what calls return *)

Lemma dispatch_length b s e : (length (dispatch b s e) <= 1)%nat.
Proof. unfold dispatch. destruct (callback b); cbn; lia. Qed.

Lemma stage_calls_length b cfg ls total n :
  (length (stage_calls b cfg ls total n) <= n)%nat.
Proof.
  induction n as [|n IH]; [done|].
  rewrite stage_calls_S, length_app.
  assert (length (stage_calls_at b cfg ls total n) <= 1)%nat; [|lia].
  unfold stage_calls_at.
  destruct (cfg !! n) as [c|], (ls !! n) as [[|]|]; cbn; try lia.
  destruct (total >=? threshold c); [apply dispatch_length|cbn; lia].
Qed.

Lemma fired_stages_length tr : (length (fired_stages tr) <= length tr)%nat.
Proof.
  induction tr as [|c tr IH]; [done|].
  unfold fired_stages in *. cbn.
  destruct (site c); cbn; lia.
Qed.

(** X14.  A poll invokes the callback a bounded number of times: at most
    once outside LongPressed and on a release, and in LongPressed with the
    button held at most once per configured stage plus once for Hold. *)
Theorem poll_invokes_at_most_count_plus_one b ram pr t :
  well_formed b ram ->
  exists b' ram' tr,
    fsm_switch b ram pr t = Some (b', ram', tr) /\
    (length tr <= Z.to_nat (count (stages b)) + 1)%nat /\
    (last_state b <> STATE_LONG_PRESSED \/ pr = false ->
     (length tr <= 1)%nat) /\
    (length (fired_stages tr) <= Z.to_nat (count (stages b)))%nat.
Proof.
  intros Hwf.
  destruct (decide (last_state b = STATE_LONG_PRESSED)) as [Hst|Hst].
  - destruct pr.
    + assert (Hhold : (length (hold_calls b t) <= 1)%nat).
      { unfold hold_calls. destruct (hold_due b t);
          [apply dispatch_length|cbn; lia]. }
      destruct Hwf as [Hun|(cfg & p & ls & Hatt)].
      * eexists _, _, _. unfold fsm_switch. rewrite Hst.
        split; [by apply long_pressed_unstaged|].
        rewrite fired_hold_calls. split_and!; [lia| |cbn; lia].
        intros [?|?]; done.
      * eexists _, _, _. unfold fsm_switch. rewrite Hst.
        split; [by apply (long_pressed_closed b ram cfg p ls)|].
        rewrite fired_stages_app, fired_hold_calls, app_nil_r, length_app.
        pose proof (stage_calls_length b cfg ls
                      (sub32 t (press_start_tick b))
                      (Z.to_nat (count (stages b)))) as Hlen.
        split_and!; [lia|intros [?|?]; done|].
        etransitivity; [|exact Hlen].
        apply fired_stages_length.
    + destruct (released_poll b ram t Hwf (or_intror Hst))
        as (s & ram1 & Hs & Hcase & _).
      eexists _, _, _. split; [exact Hs|].
      pose proof (dispatch_length b s BUTTON_EVENT_RELEASED) as Hlen.
      rewrite fired_stages_dispatch_fsm
        by (intros i; destruct Hcase as [(_ & -> & _)|(_ & ->)]; done).
      split_and!; [lia|done|cbn; lia].
  - destruct (other_states_frame b ram pr t Hst)
      as (b1 & tr1 & Hs & _ & _ & _ & Hf).
    exists b1, ram, tr1. split; [done|]. rewrite Hf.
    assert (Hlen : (length tr1 <= 1)%nat).
    { revert Hs. unfold fsm_switch.
      destruct (last_state b); [| | |done].
      - intros [= _ <-]. cbn. lia.
      - unfold handle_state_debounce.
        destruct (sub32 t (last_change_tick b) >=? BUTTON_DEBOUNCE_TICKS);
          [destruct pr|]; cbn; intros [= _ <-]; try (cbn; lia);
          apply dispatch_length.
      - unfold handle_state_pressed. destruct pr; cbn [negb];
          [destruct (sub32 t (last_change_tick b)
                     >=? BUTTON_LONG_PRESS_TICKS)|];
          cbn; intros [= _ <-]; try (cbn; lia); apply dispatch_length. }
    split_and!; [lia|done|cbn; lia].
Qed.

Lemma poll_invokes_at_most_count_plus_one_witness :
  well_formed demo_long demo_ram /\
  exists b' ram' tr,
    fsm_switch demo_long demo_ram true 4100 = Some (b', ram', tr) /\
    (length tr <= 3)%nat.
Proof.
  split; [exact demo_long_well_formed|].
  destruct (poll_invokes_at_most_count_plus_one
              demo_long demo_ram true 4100 demo_long_well_formed)
    as (b' & ram' & tr & Hs & Hlen & _).
  exists b', ram', tr. split; [exact Hs|exact Hlen].
Defined.

(** X15.  The public interface returns BUTTON_OK, InvalidArgument or
    InvalidStages and no other code: InvalidStages comes from
    [Button_ConfigStages] only, and on a record that is there
    (non-null) registration, unregistration and teardown cannot fail.  A
    call that fails leaves the record and the latches as they were and
    invokes nothing. *)
Theorem interface_returns_three_codes button ram c e o ram' tr :
  api_step button ram c = Some (e, o, ram', tr) ->
  (e = BUTTON_OK \/ e = BUTTON_ERR_INVALID_ARG \/
   e = BUTTON_ERR_INVALID_STAGES) /\
  (e = BUTTON_ERR_INVALID_STAGES ->
   exists cfgs lat cnt, c = call_ConfigStages cfgs lat cnt) /\
  (is_Some button ->
   match c with
   | call_RegisterHandler _ _ | call_UnregisterHandler | call_Deinit =>
       e = BUTTON_OK
   | _ => True
   end) /\
  (e <> BUTTON_OK -> o = button /\ ram' = ram /\ tr = []).
Proof.
  destruct c; cbn [api_step].
  - unfold Button_Init.
    destruct button, read_fn, tick_fn, level; intros [= <- <- <- <-];
      split_and!; auto; try done.
  - destruct (Button_ConfigStages button cfgs lat cnt) as [[e0 o0]|] eqn:E;
      [|done].
    intros [= <- <- <- <-]. unfold Button_ConfigStages in E.
    assert (Hshape : (e0 = BUTTON_OK \/
                      (e0 = BUTTON_ERR_INVALID_ARG /\ o0 = button) \/
                      (e0 = BUTTON_ERR_INVALID_STAGES /\ o0 = button))).
    { destruct button, cfgs, lat; try (inversion E; subst; by auto).
      destruct (cnt =? 0); [inversion E; subst; by auto|].
      destruct (validate_stages _ _) as [[|]|]; inversion E; subst; by auto. }
    split_and!; [|by eexists _, _, _|done|].
    + destruct Hshape as [?|[[? _]|[? _]]]; auto.
    + intros Hne. destruct Hshape as [?|[[_ ?]|[_ ?]]]; done.
  - unfold Button_Update. destruct button as [b|].
    + destruct (read_pin_func b), (get_tick_func b);
        try (intros [= <- <- <- <-]; split_and!; auto; done).
      destruct (fsm_switch b ram _ now) as [[[b1 r1] t1]|]; [|done].
      intros [= <- <- <- <-]. split_and!; auto; done.
    + intros [= <- <- <- <-]. split_and!; auto; done.
  - destruct button; intros [= <- <- <- <-]; split_and!; auto;
      try done; by intros [? ?].
  - destruct button; intros [= <- <- <- <-]; split_and!; auto;
      try done; by intros [? ?].
  - destruct button; intros [= <- <- <- <-]; split_and!; auto;
      try done; by intros [? ?].
Qed.

Lemma interface_returns_three_codes_witness :
  api_step (Some demo_idle) demo_ram
           (call_ConfigStages (Some flat_cfg) (Some 7%nat) 2)
  = Some (BUTTON_ERR_INVALID_STAGES, Some demo_idle, demo_ram, []) /\
  exists cfgs lat cnt,
    call_ConfigStages (Some flat_cfg) (Some 7%nat) 2
    = call_ConfigStages cfgs lat cnt.
Proof.
  assert (Hs : api_step (Some demo_idle) demo_ram
                        (call_ConfigStages (Some flat_cfg) (Some 7%nat) 2)
               = Some (BUTTON_ERR_INVALID_STAGES, Some demo_idle,
                       demo_ram, [])) by reflexivity.
  split; [exact Hs|].
  destruct (interface_returns_three_codes _ _ _ _ _ _ _ Hs) as (_ & H & _).
  apply H. reflexivity.
Defined.
